(** * MSA feature generators (chai_lab/data/features/generators/msa.py)

    A shallow embedding of the seven feature generators of [msa.py] and of
    the part of torch they use, followed by the properties of the
    generators.

    Modelling conventions.
    - A tensor is a shape together with an index function; only the values
      at in-range indices are meaningful.  [of_list3] builds a tensor from
      nested lists and [to_list3] reads one back, so that the generators can
      be run on concrete inputs.
    - An integer tensor holds [Z]; the wrap-around of the uint8 dtype is
      written out with [wrap_u8].  A bool tensor holds [bool].
    - Calls that can raise return a [result].
    - Floating-point tensors are idealised: quotients of integers are exact
      rationals ([Q]) and the arctangent scaling is a real number ([R]);
      rounding is not modelled.  Where the sources do not show what keeps a
      denominator away from zero the quotient is a [float], which has the
      values NaN and infinity. *)

From Stdlib Require Import ZArith List Bool Arith Lia.
From Stdlib Require Import QArith Qabs.
From Stdlib Require Import Reals Lra Ratan Machin AltSeries.
From Stdlib Require String Permutation.
Import ListNotations.

(** ** Exceptions *)

Inductive exn : Type :=
| TypeCheckError     (* jaxtyping: a shape annotation of @typecheck fails *)
| AssertionError
| ValueError         (* max() of an empty sequence *)
| IndexError         (* scatter_add: index out of bounds *)
| OverflowError      (* a scalar does not fit the tensor's dtype *)
| RuntimeError.      (* max() of a tensor without elements *)

Inductive result (A : Type) : Type :=
| Ok (a : A)
| Raise (e : exn).
Arguments Ok {A} a.
Arguments Raise {A} e.

Definition bind {A B : Type} (r : result A) (k : A -> result B) : result B :=
  match r with
  | Ok a => k a
  | Raise e => Raise e
  end.

Notation "x <- r ;; k" := (bind r (fun x => k))
  (at level 61, r at next level, right associativity).

(** ** Tensors *)

Module Torch.

Record Tensor3 (A : Type) : Type := mkTensor3
    { dim0 : nat; dim1 : nat; dim2 : nat; at3 : nat -> nat -> nat -> A }.
Arguments mkTensor3 {A} _ _ _ _.
Arguments dim0 {A} _.
Arguments dim1 {A} _.
Arguments dim2 {A} _.
Arguments at3 {A} _ _ _ _.

Record Tensor4 (A : Type) : Type := mkTensor4
    { size0 : nat; size1 : nat; size2 : nat; size3 : nat;
      at4 : nat -> nat -> nat -> nat -> A }.
Arguments mkTensor4 {A} _ _ _ _ _.
Arguments size0 {A} _.
Arguments size1 {A} _.
Arguments size2 {A} _.
Arguments size3 {A} _.
Arguments at4 {A} _ _ _ _ _.

Record Tensor2 (A : Type) : Type := mkTensor2
  { rows : nat; cols : nat; at2 : nat -> nat -> A }.
Arguments mkTensor2 {A} _ _ _.
Arguments rows {A} _.
Arguments cols {A} _.
Arguments at2 {A} _ _ _.

Definition shape3 {A} (x : Tensor3 A) : nat * nat * nat :=
    (dim0 x, dim1 x, dim2 x).

Definition shape4 {A} (x : Tensor4 A) : nat * nat * nat * nat :=
    (size0 x, size1 x, size2 x, size3 x).

(** The named axes "batch depth tokens" of two arguments must agree. *)
Definition same_shape {A B} (x : Tensor3 A) (y : Tensor3 B) : bool :=
    (dim0 x =? dim0 y)%nat && (dim1 x =? dim1 y)%nat && (dim2 x =? dim2 y)%nat.

Definition in_range3 {A} (x : Tensor3 A) (i j k : nat) : Prop :=
    (i < dim0 x)%nat /\ (j < dim1 x)%nat /\ (k < dim2 x)%nat.

(** Nested lists to tensor and back.  The shape of a nested list is read
      off its first elements. *)
Definition of_list3 {A} (d : A) (l : list (list (list A))) : Tensor3 A :=
    mkTensor3 (length l) (length (hd [] l)) (length (hd [] (hd [] l)))
      (fun i j k => nth k (nth j (nth i l []) []) d).

Definition tabulate {A} (n : nat) (f : nat -> A) : list A :=
    map f (seq 0 n).

Definition to_list3 {A} (x : Tensor3 A) : list (list (list A)) :=
    tabulate (dim0 x) (fun i =>
      tabulate (dim1 x) (fun j =>
        tabulate (dim2 x) (fun k => at3 x i j k))).

Definition to_list4 {A} (x : Tensor4 A) : list (list (list (list A))) :=
    tabulate (size0 x) (fun i =>
      tabulate (size1 x) (fun j =>
        tabulate (size2 x) (fun k =>
          tabulate (size3 x) (fun c => at4 x i j k c)))).

(** [x.unsqueeze(-1)] *)
Definition unsqueeze_last {A} (x : Tensor3 A) : Tensor4 A :=
    mkTensor4 (dim0 x) (dim1 x) (dim2 x) 1 (fun i j k _ => at3 x i j k).

(** [x.unsqueeze(-1)] on a tensor with two axes. *)
Definition unsqueeze_last2 {A} (x : Tensor2 A) : Tensor3 A :=
  mkTensor3 (rows x) (cols x) 1 (fun i j _ => at2 x i j).

(** The number of elements, [x.numel()]. *)
Definition numel3 {A} (x : Tensor3 A) : nat := (dim0 x * dim1 x * dim2 x)%nat.

(** The elements of a tensor, in index order. *)
Definition elements3 {A} (x : Tensor3 A) : list A :=
  flat_map (fun i =>
    flat_map (fun j => map (fun k => at3 x i j k) (seq 0 (dim2 x)))
      (seq 0 (dim1 x)))
    (seq 0 (dim0 x)).

Definition elements4 {A} (x : Tensor4 A) : list A :=
  flat_map (fun i =>
    flat_map (fun j =>
      flat_map (fun k => map (fun c => at4 x i j k c) (seq 0 (size3 x)))
        (seq 0 (size2 x)))
      (seq 0 (size1 x)))
    (seq 0 (size0 x)).

(** Elementwise unary operation ([x > 0], [x.float()], [x.long()],
      [x.to(dtype)], [~x], [x != c], ...). *)
Definition map3 {A B} (f : A -> B) (x : Tensor3 A) : Tensor3 B :=
    mkTensor3 (dim0 x) (dim1 x) (dim2 x) (fun i j k => f (at3 x i j k)).

(** Broadcasting of one axis: sizes [a] and [b] (equal, or one of them 1)
      give the size of the result, and an axis of size 1 is read at 0. *)
Definition broadcast_dim (a b : nat) : nat := if (a =? 1)%nat then b else a.
Definition broadcast_ix (a i : nat) : nat := if (a =? 1)%nat then 0%nat else i.

(** Elementwise binary operation with broadcasting ([x == y], [x & y]). *)
Definition zip3 {A B C} (f : A -> B -> C) (x : Tensor3 A) (y : Tensor3 B)
    : Tensor3 C :=
    mkTensor3 (broadcast_dim (dim0 x) (dim0 y))
              (broadcast_dim (dim1 x) (dim1 y))
              (broadcast_dim (dim2 x) (dim2 y))
      (fun i j k =>
         f (at3 x (broadcast_ix (dim0 x) i) (broadcast_ix (dim1 x) j)
                  (broadcast_ix (dim2 x) k))
           (at3 y (broadcast_ix (dim0 y) i) (broadcast_ix (dim1 y) j)
                  (broadcast_ix (dim2 y) k))).

(** [x[..., :1]]: the slice [0:1] of the last axis. *)
Definition slice_last_1 {A} (x : Tensor3 A) : Tensor3 A :=
    mkTensor3 (dim0 x) (dim1 x) (Nat.min 1 (dim2 x)) (at3 x).

(** uint8 arithmetic wraps modulo 256. *)
Definition wrap_u8 (z : Z) : Z := (z mod 256)%Z.

(** Conversion of a Python scalar to uint8 as [masked_fill] does it: the
      conversion is checked, values above 255 or below -255 raise, and a
      negative value in range wraps. *)
Definition scalar_to_u8 (v : Z) : result Z :=
    if ((255 <? v) || (v <? -255))%Z then Raise OverflowError
    else Ok (wrap_u8 v).

(** [x.masked_fill(mask, v)] on a uint8 tensor [x]. *)
Definition masked_fill_u8 (x : Tensor3 Z) (mask : Tensor3 bool) (v : Z)
    : result (Tensor3 Z) :=
    v8 <- scalar_to_u8 v ;;
    Ok (zip3 (fun a (m : bool) => if m then v8 else a) x mask).

(** [x.long()] on a uint8 value. *)
Definition long (z : Z) : Z := z.

(** [b.to(torch.uint8)] on a bool. *)
Definition bool_to_u8 (b : bool) : Z := if b then 1%Z else 0%Z.

End Torch.
Import Torch.

(** ** The generator base class (external)

    [FeatureGenerator.__init__] stores its keyword arguments. *)

Inductive FeatureType : Type := MSA | TOKEN.
Inductive EncodingType : Type := ONE_HOT | IDENTITY.

Record FeatureGenerator : Type := mkFeatureGenerator
  { ty : FeatureType;
    encoding_ty : EncodingType;
    can_mask : bool;
    num_classes : Z;
    mult : option Z   (* [None]: not passed, the base class default applies *) }.

(** A float that need not be a number. *)
Inductive float : Type :=
| Finite (q : Q)
| NaN
| Infinity.

(** Tensors of any rank list their elements. *)
Class TensorData (T A : Type) : Type := elements : T -> list A.

#[export] Instance TensorData3 (A : Type) : TensorData (Tensor3 A) A := elements3.
#[export] Instance TensorData4 (A : Type) : TensorData (Tensor4 A) A := elements4.

(** Whether an element, cast to float, has absolute value below 100. *)
Class FloatCast (A : Type) : Type := abs_below_100 : A -> bool.

#[export] Instance FloatCast_bool : FloatCast bool :=
  fun b => (Z.abs (if b then 1 else 0) <? 100)%Z.
#[export] Instance FloatCast_Z : FloatCast Z :=
  fun z => (Z.abs z <? 100)%Z.
#[export] Instance FloatCast_Q : FloatCast Q :=
  fun q => negb (Qle_bool 100 (Qabs q)).
#[export] Instance FloatCast_R : FloatCast R :=
  fun r => if Rlt_dec (Rabs r) 100 then true else false.
#[export] Instance FloatCast_float : FloatCast float :=
  fun x =>
    match x with
    | Finite q => negb (Qle_bool 100 (Qabs q))
    | NaN => false
    | Infinity => false
    end.

(** Modelled from the spec: [make_feature] belongs to the generator base
    class (chai_lab/data/features/generators/base.py), which is not among the
    sources; the spec has it as the shared step that finalises the output of
    [_generate] by the encoding of the generator.  As the base class has it,
    a ONE_HOT feature is returned as it is, and an IDENTITY feature is cast
    to float and asserted to have an absolute maximum below 100; the maximum
    of a tensor without elements raises.  The cast is left to the element
    type: the data is returned with the elements it had.  The encoding is
    the one the class passes to the base constructor in its [__init__]. *)
Definition make_feature {T A : Type} {E : TensorData T A} {F : FloatCast A}
    (encoding : EncodingType) (data : T) : result T :=
  match encoding with
  | ONE_HOT => Ok data
  | IDENTITY =>
      match elements data with
      | [] => Raise RuntimeError
      | _ :: _ =>
          if forallb abs_below_100 (elements data) then Ok data
          else Raise AssertionError
      end
  end.

(** ** MSAFeatureGenerator *)

Module MSAFeatureGenerator.
Section WithVocabulary.
(** [len(residue_types_with_nucleotides_order)] *)
Variable num_res_ty : nat.

Definition __init__ : FeatureGenerator :=
      mkFeatureGenerator MSA ONE_HOT false (Z.of_nat num_res_ty) (Some 1%Z).
End WithVocabulary.

Definition _generate (msa_tokens : Tensor3 Z) : result (Tensor4 Z) :=
  make_feature ONE_HOT (unsqueeze_last msa_tokens).
End MSAFeatureGenerator.

(** ** MSAHasDeletionGenerator *)

Module MSAHasDeletionGenerator.
Definition __init__ : FeatureGenerator :=
    mkFeatureGenerator MSA IDENTITY false 1%Z (Some 1%Z).

Definition _generate (msa_deletion_matrix : Tensor3 Z) : result (Tensor4 bool) :=
  let has_deletion := map3 (fun d => (d >? 0)%Z) msa_deletion_matrix in
  make_feature IDENTITY (unsqueeze_last has_deletion).
End MSAHasDeletionGenerator.

(** ** MSADeletionValueGenerator *)

Module MSADeletionValueGenerator.
Definition __init__ : FeatureGenerator :=
  mkFeatureGenerator MSA IDENTITY false 1%Z (Some 1%Z).

(** The scaling of the class docstring, s(d) = 2 / pi * arctan(d / 3). *)
Definition scale (d : R) : R := (2 / PI * atan (d / 3))%R.

Definition _generate (msa_deletion_matrix : Tensor3 Z) : result (Tensor4 R) :=
  let float := map3 IZR msa_deletion_matrix in
  let d_scaled :=
    map3 (fun a => (2 / PI * a)%R)
      (map3 atan (map3 (fun x => (x / 3)%R) float)) in
  make_feature IDENTITY (unsqueeze_last d_scaled).
End MSADeletionValueGenerator.

(** ** More of torch: what the profile needs *)

Module TorchScatter.

Definition zeros (a b c : nat) : Tensor3 Z :=
  mkTensor3 a b c (fun _ _ _ => 0%Z).

(** [rearrange(x, "batch depth tokens -> batch tokens depth")] *)
Definition rearrange_bdt_btd {A} (x : Tensor3 A) : Tensor3 A :=
  mkTensor3 (dim0 x) (dim2 x) (dim1 x) (fun i j k => at3 x i k j).

(** Every entry of [index] must name a slot of the last axis of [self]. *)
Definition index_ok (self index : Tensor3 Z) : bool :=
  forallb (fun i =>
    forallb (fun j =>
      forallb (fun k =>
        ((0 <=? at3 index i j k) && (at3 index i j k <? Z.of_nat (dim2 self)))%Z)
        (seq 0 (dim2 index)))
      (seq 0 (dim1 index)))
    (seq 0 (dim0 index)).

(** What the scatter leaves in slot [c] of one row: going through the
    positions [k = 0 .. n-1] of the index row in order, [src k] is added
    (in uint8) whenever [index k] names slot [c]. *)
Definition scatter_add_cell (index src : nat -> Z) (n : nat) (c : Z) (init : Z)
  : Z :=
  fold_left
    (fun acc k => if (index k =? c)%Z then wrap_u8 (acc + src k) else acc)
    (seq 0 n) init.

(** [self.scatter_add(dim=2, index=index, src=src)] on uint8 tensors:
    [self[i][j][index[i][j][k]] += src[i][j][k]] for every position
    [(i, j, k)] of [index]; an index out of bounds raises. *)
Definition scatter_add_dim2 (self index src : Tensor3 Z) : result (Tensor3 Z) :=
  if index_ok self index then
    Ok (mkTensor3 (dim0 self) (dim1 self) (dim2 self)
          (fun i j c =>
             if ((i <? dim0 index) && (j <? dim1 index))%nat then
               scatter_add_cell (at3 index i j) (at3 src i j) (dim2 index)
                 (Z.of_nat c) (at3 self i j c)
             else at3 self i j c))
  else Raise IndexError.

(** [x.sum(dim=-1, keepdim=True)] on an integer tensor.  torch promotes
    the sum of an integral tensor to int64, so this sum does not wrap at
    256 (and a sum of [dim2 x] values below 256 is far from the int64
    range). *)
Definition sum_last_keepdim (x : Tensor3 Z) : Tensor3 Z :=
  mkTensor3 (dim0 x) (dim1 x) 1
    (fun i j _ => fold_right Z.add 0%Z (map (at3 x i j) (seq 0 (dim2 x)))).

(** [x.clamp_min_(m)] *)
Definition clamp_min (m : Z) (x : Tensor3 Z) : Tensor3 Z :=
  map3 (Z.max m) x.

(** [x / y] on integer tensors is true division and gives a float. *)
Definition true_divide (x y : Tensor3 Z) : Tensor3 Q :=
  zip3 (fun a b => (inject_Z a / inject_Z b)%Q) x y.

End TorchScatter.
Import TorchScatter.

(** ** MSAProfileGenerator *)

Module MSAProfileGenerator.
Section WithVocabulary.
(** [len(residue_types_with_nucleotides_order)] *)
Variable num_res_ty : nat.

Definition __init__ : FeatureGenerator :=
  mkFeatureGenerator TOKEN IDENTITY false (Z.of_nat num_res_ty) None.

Definition _generate (main_msa_tokens : Tensor3 Z) (main_msa_mask : Tensor3 bool)
  : result (Tensor3 Q) :=
  if same_shape main_msa_tokens main_msa_mask then
    let batch := dim0 main_msa_tokens in
    let tokens := dim2 main_msa_tokens in
    unnormalized_profile <-
      scatter_add_dim2 (zeros batch tokens num_res_ty)
        (rearrange_bdt_btd (map3 long main_msa_tokens))
        (rearrange_bdt_btd (map3 bool_to_u8 main_msa_mask)) ;;
    let denom := clamp_min 1 (sum_last_keepdim unnormalized_profile) in
    let profile := true_divide unnormalized_profile denom in
    make_feature IDENTITY profile
  else Raise TypeCheckError.
End WithVocabulary.
End MSAProfileGenerator.

(** ** MSADeletionMeanGenerator *)

Module TensorUtils.

Definition sumZ (l : list Z) : Z := fold_right Z.add 0%Z l.
Definition sumQ (l : list Q) : Q := fold_right Qplus 0%Q l.

(** [b.float()] on a bool. *)
Definition bool_to_float (b : bool) : Q := if b then 1%Q else 0%Q.

(** Float division: a zero denominator gives NaN or infinity. *)
Definition fdiv (x y : Q) : float :=
  if Qeq_bool y 0 then (if Qeq_bool x 0 then NaN else Infinity)
  else Finite (x / y).

(** Modelled from the spec: [masked_mean] of chai_lab.utils.tensor_utils is
    not among the sources.  Along the depth axis ([dim=1]) it is the "sum
    of (mask x deletion-count) divided by sum of mask, with the standard
    convention that positions with zero valid rows produce zero (not
    division-by-zero)".  The reduced axis is dropped, so the result has
    shape [batch, tokens]. *)
Definition masked_mean_dim1 (mask : Tensor3 bool) (value : Tensor3 Q)
  : Tensor2 float :=
  mkTensor2 (dim0 value) (dim2 value)
    (fun i k =>
       let rows := seq 0 (dim1 value) in
       let num :=
         sumQ (map (fun j => (bool_to_float (at3 mask i j k) * at3 value i j k)%Q)
                   rows) in
       let den := sumZ (map (fun j => bool_to_u8 (at3 mask i j k)) rows) in
       if (den =? 0)%Z then Finite 0 else fdiv num (inject_Z den)).

End TensorUtils.
Import TensorUtils.

Module MSADeletionMeanGenerator.
Definition __init__ : FeatureGenerator :=
  mkFeatureGenerator TOKEN IDENTITY false 1%Z (Some 1%Z).

Definition _generate (main_msa_mask : Tensor3 bool)
    (main_msa_deletion_matrix : Tensor3 Z) : result (Tensor3 float) :=
  if same_shape main_msa_mask main_msa_deletion_matrix then
    let mean_deletion_matrix :=
      masked_mean_dim1 main_msa_mask
        (map3 inject_Z main_msa_deletion_matrix) in
    make_feature IDENTITY (unsqueeze_last2 mean_deletion_matrix)
  else Raise TypeCheckError.
End MSADeletionMeanGenerator.

(** ** IsPairedMSAGenerator *)

Module IsPairedMSAGenerator.
Definition __init__ : FeatureGenerator :=
  mkFeatureGenerator MSA IDENTITY false 1%Z (Some 1%Z).

Section WithUnknown.
(** [chai_lab.data.parsing.msas.species.UNKNOWN_SPECIES] *)
Variable UNKNOWN_SPECIES : Z.

Definition _generate (msa_mask : Tensor3 bool) (msa_species : Tensor3 Z)
  : result (Tensor4 Z) :=
  if same_shape msa_mask msa_species then
    let first_species := slice_last_1 msa_species in
    let is_paired :=
      map3 bool_to_u8 (zip3 Z.eqb msa_species first_species) in
    let mask :=
      zip3 andb msa_mask
        (map3 (fun s => negb (s =? UNKNOWN_SPECIES)%Z) msa_species) in
    is_paired <- masked_fill_u8 is_paired (map3 negb mask) 0%Z ;;
    make_feature IDENTITY (unsqueeze_last is_paired)
  else Raise TypeCheckError.
End WithUnknown.
End IsPairedMSAGenerator.

(** ** MSADataSourceGenerator *)

Module MSADataSourceGenerator.

(** Python's [max] of a sequence; it raises on an empty one. *)
Definition py_max (l : list Z) : result Z :=
  match l with
  | [] => Raise ValueError
  | x :: xs => Ok (fold_left Z.max xs x)
  end.

Section WithSources.
(** The dict [msa_dataset_source_to_int] of
    chai_lab.data.parsing.msas.data_source, as its list of items. *)
Variable Source : Type.
Variable msa_dataset_source_to_int : list (Source * Z).

Definition __init__ (num_classes : Z) : result FeatureGenerator :=
  m <- py_max (map snd msa_dataset_source_to_int) ;;
  if (num_classes =? m + 1)%Z then
    Ok (mkFeatureGenerator MSA ONE_HOT true num_classes (Some 1%Z))
  else Raise AssertionError.

(** The default of the keyword argument, [num_classes: int = 5]. *)
Definition __init__default : result FeatureGenerator := __init__ 5%Z.
End WithSources.

Definition _generate (self : FeatureGenerator) (msa_mask : Tensor3 bool)
    (msa_sequence_source : Tensor3 Z) : result (Tensor4 Z) :=
  if same_shape msa_mask msa_sequence_source then
    msa_sequence_source <-
      masked_fill_u8 msa_sequence_source (map3 negb msa_mask)
        (num_classes self) ;;
    make_feature ONE_HOT (unsqueeze_last msa_sequence_source)
  else Raise TypeCheckError.
End MSADataSourceGenerator.

(** ** Reference definitions for the properties

    The definitions of this section are not translations of code: they say,
    in terms of the inputs alone, what a property compares the output of a
    generator with. *)

Module Reference.

(** Pairing relative to the first token of the same row: what
    [IsPairedMSAGenerator._generate] computes. *)
Definition paired_with_first_token (unknown : Z) (mask : Tensor3 bool)
    (species : Tensor3 Z) (b r t : nat) : bool :=
  (at3 species b r t =? at3 species b r 0)%Z
  && at3 mask b r t
  && negb (at3 species b r t =? unknown)%Z.

(** Pairing relative to row 0 of the alignment, at the same token. *)
Definition paired_with_row0 (unknown : Z) (mask : Tensor3 bool)
    (species : Tensor3 Z) (b r t : nat) : bool :=
  (at3 species b r t =? at3 species b 0 t)%Z
  && at3 mask b r t
  && negb (at3 species b r t =? unknown)%Z.

(** The number of rows of the alignment that are valid at token [t] and
    carry residue class [c] there. *)
Definition class_count (tokens : Tensor3 Z) (mask : Tensor3 bool)
    (b t : nat) (c : Z) : Z :=
  sumZ (map (fun d => if (at3 tokens b d t =? c)%Z
                      then bool_to_u8 (at3 mask b d t) else 0%Z)
            (seq 0 (dim1 tokens))).

(** The number of rows that are valid at token [t]. *)
Definition valid_rows (mask : Tensor3 bool) (b t : nat) : Z :=
  sumZ (map (fun d => bool_to_u8 (at3 mask b d t)) (seq 0 (dim1 mask))).

(** The residue distribution of the valid rows at token [t], the total
    floored at 1. *)
Definition true_profile (tokens : Tensor3 Z) (mask : Tensor3 bool)
    (b t : nat) (c : Z) : Q :=
  (inject_Z (class_count tokens mask b t c)
   / inject_Z (Z.max 1 (valid_rows mask b t)))%Q.

(** The profile with the counts wrapped to uint8 and the denominator the
    (unwrapped) sum of the wrapped counts: what
    [MSAProfileGenerator._generate] computes. *)
Definition wrapped_profile (num_res_ty : nat) (tokens : Tensor3 Z)
    (mask : Tensor3 bool) (b t : nat) (c : Z) : Q :=
  (inject_Z (wrap_u8 (class_count tokens mask b t c))
   / inject_Z (Z.max 1
       (sumZ (map (fun c' => wrap_u8 (class_count tokens mask b t (Z.of_nat c')))
                  (seq 0 num_res_ty)))))%Q.

(** The profile with both the counts and the denominator accumulated in
    uint8. *)
Definition all_u8_profile (num_res_ty : nat) (tokens : Tensor3 Z)
    (mask : Tensor3 bool) (b t : nat) (c : Z) : Q :=
  (inject_Z (wrap_u8 (class_count tokens mask b t c))
   / inject_Z (Z.max 1
       (wrap_u8
          (sumZ (map (fun c' => class_count tokens mask b t (Z.of_nat c'))
                     (seq 0 num_res_ty))))))%Q.

(** The sum of the deletion counts of the rows valid at token [t]. *)
Definition valid_deletions (mask : Tensor3 bool) (deletions : Tensor3 Z)
    (b t : nat) : Z :=
  sumZ (map (fun d => if at3 mask b d t then at3 deletions b d t else 0%Z)
            (seq 0 (dim1 deletions))).

(** [m] is the greatest element of [l]. *)
Definition is_max (l : list Z) (m : Z) : Prop :=
  In m l /\ forall x, In x l -> (x <= m)%Z.

End Reference.
Import Reference.

(** The classes of this module and their construction. *)
Inductive generator_class : Type :=
| ClsMSAFeature | ClsMSAHasDeletion | ClsMSADeletionValue | ClsMSAProfile
| ClsMSADeletionMean | ClsIsPairedMSA | ClsMSADataSource.

Definition construct (num_res_ty : nat) {Source : Type}
    (msa_dataset_source_to_int : list (Source * Z)) (num_classes : Z)
    (cls : generator_class) : result FeatureGenerator :=
  match cls with
  | ClsMSAFeature => Ok (MSAFeatureGenerator.__init__ num_res_ty)
  | ClsMSAHasDeletion => Ok MSAHasDeletionGenerator.__init__
  | ClsMSADeletionValue => Ok MSADeletionValueGenerator.__init__
  | ClsMSAProfile => Ok (MSAProfileGenerator.__init__ num_res_ty)
  | ClsMSADeletionMean => Ok MSADeletionMeanGenerator.__init__
  | ClsIsPairedMSA => Ok IsPairedMSAGenerator.__init__
  | ClsMSADataSource =>
      MSADataSourceGenerator.__init__ Source msa_dataset_source_to_int
        num_classes
  end.

(** ** Concrete inputs *)

Module Examples.

(** The deletion matrix of the end-to-end scenario: batch 1, depth 2,
    tokens 3. *)
Definition deletions_1x2x3 : Tensor3 Z := of_list3 0%Z [[[1; 0; 5]; [0; 0; 0]]]%Z.

(** Two rows of two tokens with different species in row 0. *)
Definition species_1x2x2 : Tensor3 Z := of_list3 0%Z [[[1; 2]; [2; 2]]]%Z.
Definition all_valid_1x2x2 : Tensor3 bool :=
  of_list3 false [[[true; true]; [true; true]]].

(** One masked-out position with source code 2. *)
Definition source_1x1x1 : Tensor3 Z := of_list3 0%Z [[[2]]]%Z.
Definition invalid_1x1x1 : Tensor3 bool := of_list3 false [[[false]]].

(** The source codes 0..4. *)
Definition five_sources : list (nat * Z) :=
  [(0%nat, 0); (1%nat, 1); (2%nat, 2); (3%nat, 3); (4%nat, 4)]%Z.
Definition data_source_5 : FeatureGenerator :=
  mkFeatureGenerator MSA ONE_HOT true 5%Z (Some 1%Z).

(** 256 rows, one token, residue class 0 everywhere, every row valid. *)
Definition tokens_256_same : Tensor3 Z := mkTensor3 1 256 1 (fun _ _ _ => 0%Z).
Definition valid_256 : Tensor3 bool := mkTensor3 1 256 1 (fun _ _ _ => true).

(** 256 valid rows, one token: class 0 in the first 128 rows, class 1 in
    the others. *)
Definition tokens_256_halves : Tensor3 Z :=
  mkTensor3 1 256 1 (fun _ d _ => if (d <? 128)%nat then 0%Z else 1%Z).

(** Three rows, three tokens; the last token is masked out in every row. *)
Definition tokens_1x3x3 : Tensor3 Z :=
  of_list3 0%Z [[[0; 1; 2]; [0; 1; 1]; [1; 1; 0]]]%Z.
Definition mask_1x3x3 : Tensor3 bool :=
  of_list3 false [[[true; true; false]; [true; true; false]; [true; true; false]]].

End Examples.
Import Examples.

(** ** Batches

    A batch is a Python dict; the generators read [batch["inputs"]], itself
    a dict from field names to tensors.  A dict is kept as its list of
    items, in insertion order and with distinct keys ([setitem] keeps them
    distinct). *)

Module Batch.
Import String.

Inductive value : Type :=
| UInt8Tensor (t : Tensor3 Z)
| BoolTensor (t : Tensor3 bool)
| IntTensor (t : Tensor3 Z).

Definition dict (V : Type) : Type := list (string * V).

(** The outcome of a subscript [d[k]]. *)
Inductive lookup (A : Type) : Type :=
| Found (a : A)
| KeyError (key : string).
Arguments Found {A} a.
Arguments KeyError {A} key.

Definition and_then {A B : Type} (r : lookup A) (k : A -> lookup B) : lookup B :=
  match r with
  | Found a => k a
  | KeyError key => KeyError key
  end.

(** [d[k]] *)
Fixpoint getitem {V : Type} (d : dict V) (k : string) : lookup V :=
  match d with
  | [] => KeyError k
  | (k', v) :: rest => if String.eqb k' k then Found v else getitem rest k
  end.

(** [d[k] = v] *)
Fixpoint setitem {V : Type} (d : dict V) (k : string) (v : V) : dict V :=
  match d with
  | [] => [(k, v)]
  | (k', v') :: rest =>
      if String.eqb k' k then (k, v) :: rest else (k', v') :: setitem rest k v
  end.

Definition batch : Type := dict (dict value).

End Batch.

Module MSAFeatureGeneratorInputs.
Import String Batch.
Definition get_input_kwargs_from_batch (b : batch) : lookup (dict value) :=
  and_then (getitem b "inputs") (fun inputs =>
  and_then (getitem inputs "msa_tokens") (fun msa_tokens =>
  Found [("msa_tokens", msa_tokens)]))%string.
End MSAFeatureGeneratorInputs.

Module MSAHasDeletionGeneratorInputs.
Import String Batch.
Definition get_input_kwargs_from_batch (b : batch) : lookup (dict value) :=
  and_then (getitem b "inputs") (fun inputs =>
  and_then (getitem inputs "msa_deletion_matrix") (fun msa_deletion_matrix =>
  Found [("msa_deletion_matrix", msa_deletion_matrix)]))%string.
End MSAHasDeletionGeneratorInputs.

Module MSADeletionValueGeneratorInputs.
Import String Batch.
Definition get_input_kwargs_from_batch (b : batch) : lookup (dict value) :=
  and_then (getitem b "inputs") (fun inputs =>
  and_then (getitem inputs "msa_deletion_matrix") (fun msa_deletion_matrix =>
  Found [("msa_deletion_matrix", msa_deletion_matrix)]))%string.
End MSADeletionValueGeneratorInputs.

Module MSAProfileGeneratorInputs.
Import String Batch.
Definition get_input_kwargs_from_batch (b : batch) : lookup (dict value) :=
  and_then (getitem b "inputs") (fun inputs =>
  and_then (getitem inputs "main_msa_tokens") (fun main_msa_tokens =>
  and_then (getitem b "inputs") (fun inputs' =>
  and_then (getitem inputs' "main_msa_mask") (fun main_msa_mask =>
  Found [("main_msa_tokens", main_msa_tokens);
         ("main_msa_mask", main_msa_mask)]))))%string.
End MSAProfileGeneratorInputs.

Module MSADeletionMeanGeneratorInputs.
Import String Batch.
Definition get_input_kwargs_from_batch (b : batch) : lookup (dict value) :=
  and_then (getitem b "inputs") (fun inputs =>
  and_then (getitem inputs "main_msa_mask") (fun main_msa_mask =>
  and_then (getitem b "inputs") (fun inputs' =>
  and_then (getitem inputs' "main_msa_deletion_matrix")
    (fun main_msa_deletion_matrix =>
  Found [("main_msa_mask", main_msa_mask);
         ("main_msa_deletion_matrix", main_msa_deletion_matrix)]))))%string.
End MSADeletionMeanGeneratorInputs.

Module IsPairedMSAGeneratorInputs.
Import String Batch.
Definition get_input_kwargs_from_batch (b : batch) : lookup (dict value) :=
  and_then (getitem b "inputs") (fun inputs =>
  and_then (getitem inputs "msa_mask") (fun msa_mask =>
  and_then (getitem b "inputs") (fun inputs' =>
  and_then (getitem inputs' "msa_species") (fun msa_species =>
  Found [("msa_mask", msa_mask); ("msa_species", msa_species)]))))%string.
End IsPairedMSAGeneratorInputs.

Module MSADataSourceGeneratorInputs.
Import String Batch.
Definition get_input_kwargs_from_batch (b : batch) : lookup (dict value) :=
  and_then (getitem b "inputs") (fun inputs =>
  and_then (getitem inputs "msa_mask") (fun msa_mask =>
  and_then (getitem b "inputs") (fun inputs' =>
  and_then (getitem inputs' "msa_sequence_source") (fun msa_sequence_source =>
  Found [("msa_mask", msa_mask);
         ("msa_sequence_source", msa_sequence_source)]))))%string.
End MSADataSourceGeneratorInputs.

(** [get_input_kwargs_from_batch] of each class. *)
Definition get_input_kwargs_from_batch (cls : generator_class)
  : Batch.batch -> Batch.lookup (Batch.dict Batch.value) :=
  match cls with
  | ClsMSAFeature => MSAFeatureGeneratorInputs.get_input_kwargs_from_batch
  | ClsMSAHasDeletion => MSAHasDeletionGeneratorInputs.get_input_kwargs_from_batch
  | ClsMSADeletionValue =>
      MSADeletionValueGeneratorInputs.get_input_kwargs_from_batch
  | ClsMSAProfile => MSAProfileGeneratorInputs.get_input_kwargs_from_batch
  | ClsMSADeletionMean =>
      MSADeletionMeanGeneratorInputs.get_input_kwargs_from_batch
  | ClsIsPairedMSA => IsPairedMSAGeneratorInputs.get_input_kwargs_from_batch
  | ClsMSADataSource => MSADataSourceGeneratorInputs.get_input_kwargs_from_batch
  end.

Module InputFields.
Import String.

(** The fields of [batch["inputs"]] that a class reads, in the order in which
    it reads them. *)
Definition fields (cls : generator_class) : list string :=
  match cls with
  | ClsMSAFeature => ["msa_tokens"]
  | ClsMSAHasDeletion => ["msa_deletion_matrix"]
  | ClsMSADeletionValue => ["msa_deletion_matrix"]
  | ClsMSAProfile => ["main_msa_tokens"; "main_msa_mask"]
  | ClsMSADeletionMean => ["main_msa_mask"; "main_msa_deletion_matrix"]
  | ClsIsPairedMSA => ["msa_mask"; "msa_species"]
  | ClsMSADataSource => ["msa_mask"; "msa_sequence_source"]
  end%string.

End InputFields.
Import InputFields.

(** ** More reference definitions *)

Module Reference2.

(** The rows of the depth axis reordered by [sigma]. *)
Definition permute_rows {A} (sigma : nat -> nat) (x : Tensor3 A) : Tensor3 A :=
  mkTensor3 (dim0 x) (dim1 x) (dim2 x) (fun b d t => at3 x b (sigma d) t).

(** [sigma] permutes the row indices below [n]. *)
Definition permutes (sigma : nat -> nat) (n : nat) : Prop :=
  (forall d, (d < n)%nat -> (sigma d < n)%nat)
  /\ (forall d d', (d < n)%nat -> (d' < n)%nat -> sigma d = sigma d' -> d = d').

(** Every in-range entry of an integer tensor lies in [lo, hi). *)
Definition entries_in (x : Tensor3 Z) (lo hi : Z) : Prop :=
  forall i j k, in_range3 x i j k -> (lo <= at3 x i j k < hi)%Z.

(** The masked mean of the deletion counts at a token is below 100 in
    absolute value (it is 0 where no row is valid). *)
Definition mean_below_100 (mask : Tensor3 bool) (deletions : Tensor3 Z)
    (b t : nat) : Prop :=
  (Z.abs (valid_deletions mask deletions b t)
   < 100 * Z.max 1 (valid_rows mask b t))%Z.

(** Whether a dict has a key. *)
Definition has_key {V} (d : Batch.dict V) (k : String.string) : bool :=
  match Batch.getitem d k with
  | Batch.Found _ => true
  | Batch.KeyError _ => false
  end.

(** The first of the names [fs] that is not a key of [d]. *)
Definition first_missing {V} (d : Batch.dict V) (fs : list String.string)
  : option String.string :=
  find (fun f => negb (has_key d f)) fs.

End Reference2.
Import Reference2.

Module MoreExamples.

(** [tokens_1x3x3] with other tokens in its masked-out last column. *)
Definition tokens_1x3x3_other : Tensor3 Z :=
  of_list3 0%Z [[[0; 1; 0]; [0; 1; 2]; [1; 1; 1]]]%Z.

(** One valid position with 255 deletions. *)
Definition valid_1x1x1 : Tensor3 bool := of_list3 false [[[true]]].
Definition deletions_255 : Tensor3 Z := of_list3 0%Z [[[255]]]%Z.

(** A grid without tokens: batch 1, depth 2, tokens 0. *)
Definition no_tokens : Tensor3 Z := mkTensor3 1 2 0 (fun _ _ _ => 0%Z).
Definition no_tokens_mask : Tensor3 bool := mkTensor3 1 2 0 (fun _ _ _ => true).

(** The rotation of three rows. *)
Definition rotate3 (d : nat) : nat :=
  match d with
  | 0%nat => 1%nat
  | 1%nat => 2%nat
  | 2%nat => 0%nat
  | _ => d
  end.

End MoreExamples.
Import MoreExamples.

Module BatchExamples.
Import String Batch.

(** A batch that holds the two fields of the paired-MSA generator, and one
    more. *)
Definition paired_batch : batch :=
  [("inputs",
    [("msa_tokens", UInt8Tensor (of_list3 0%Z [[[0; 1]; [1; 1]]]%Z));
     ("msa_mask", BoolTensor all_valid_1x2x2);
     ("msa_species", IntTensor species_1x2x2)])]%string.

Definition paired_inputs : dict value :=
  [("msa_tokens", UInt8Tensor (of_list3 0%Z [[[0; 1]; [1; 1]]]%Z));
   ("msa_mask", BoolTensor all_valid_1x2x2);
   ("msa_species", IntTensor species_1x2x2)]%string.

End BatchExamples.
Import BatchExamples.

(** * Properties *)

(** ** Shapes, broadcasting and masked fill *)

Lemma broadcast_dim_same (a : nat) : broadcast_dim a a = a.
Proof. unfold broadcast_dim. destruct (a =? 1)%nat; reflexivity. Qed.

Lemma broadcast_ix_in_range (a i : nat) : (i < a)%nat -> broadcast_ix a i = i.
Proof.
  unfold broadcast_ix. intros Hi.
  destruct (Nat.eqb_spec a 1) as [->|]; [lia | reflexivity].
Qed.

Lemma same_shape_dims {A B} (x : Tensor3 A) (y : Tensor3 B) :
  same_shape x y = true ->
  dim0 x = dim0 y /\ dim1 x = dim1 y /\ dim2 x = dim2 y.
Proof.
  unfold same_shape. rewrite !andb_true_iff, !Nat.eqb_eq. tauto.
Qed.

Lemma zip3_shape {A B C} (f : A -> B -> C) (x : Tensor3 A) (y : Tensor3 B) :
  dim0 x = dim0 y -> dim1 x = dim1 y -> dim2 x = dim2 y ->
  shape3 (zip3 f x y) = shape3 x.
Proof.
  intros H0 H1 H2. unfold shape3, zip3; simpl.
  rewrite <- H0, <- H1, <- H2, !broadcast_dim_same. reflexivity.
Qed.

Lemma zip3_at {A B C} (f : A -> B -> C) (x : Tensor3 A) (y : Tensor3 B)
    (i j k : nat) :
  dim0 x = dim0 y -> dim1 x = dim1 y -> dim2 x = dim2 y ->
  in_range3 x i j k ->
  at3 (zip3 f x y) i j k = f (at3 x i j k) (at3 y i j k).
Proof.
  intros H0 H1 H2 (Hi & Hj & Hk). unfold zip3; simpl.
  rewrite <- H0, <- H1, <- H2, !broadcast_ix_in_range by assumption.
  reflexivity.
Qed.

(** Against the slice [x[..., :1]] the last axis is read at 0. *)
Lemma zip3_slice_at {A C} (f : A -> A -> C) (x : Tensor3 A) (i j k : nat) :
  in_range3 x i j k ->
  at3 (zip3 f x (slice_last_1 x)) i j k = f (at3 x i j k) (at3 x i j 0).
Proof.
  intros (Hi & Hj & Hk). unfold zip3, slice_last_1; cbn [dim0 dim1 dim2 at3].
  rewrite !broadcast_ix_in_range by assumption.
  replace (Nat.min 1 (dim2 x)) with 1%nat by lia.
  reflexivity.
Qed.

Lemma zip3_slice_shape {A C} (f : A -> A -> C) (x : Tensor3 A) :
  shape3 (zip3 f x (slice_last_1 x)) = shape3 x.
Proof.
  unfold shape3, zip3, slice_last_1; cbn [dim0 dim1 dim2 at3].
  rewrite !broadcast_dim_same. repeat f_equal.
  unfold broadcast_dim. destruct (Nat.eqb_spec (dim2 x) 1) as [->|]; reflexivity.
Qed.

Lemma shape3_dims {A B} (x : Tensor3 A) (y : Tensor3 B) :
  shape3 x = shape3 y ->
  dim0 x = dim0 y /\ dim1 x = dim1 y /\ dim2 x = dim2 y.
Proof. unfold shape3. intros H. injection H as -> -> ->. auto. Qed.

Lemma scalar_to_u8_in_range (v : Z) :
  (0 <= v <= 255)%Z -> scalar_to_u8 v = Ok v.
Proof.
  intros Hv. unfold scalar_to_u8, wrap_u8.
  destruct (Z.ltb_spec 255 v); [lia|].
  destruct (Z.ltb_spec v (-255)); [lia|]. cbn [orb].
  rewrite Z.mod_small by lia. reflexivity.
Qed.

(** [masked_fill] with a value that fits uint8: the shape is kept, the
    masked positions hold the value and the others are unchanged. *)
Lemma masked_fill_u8_spec (x : Tensor3 Z) (mask : Tensor3 bool) (v : Z) :
  (0 <= v <= 255)%Z ->
  shape3 x = shape3 mask ->
  exists out,
    masked_fill_u8 x mask v = Ok out
    /\ shape3 out = shape3 x
    /\ forall i j k, in_range3 x i j k ->
         at3 out i j k = if at3 mask i j k then v else at3 x i j k.
Proof.
  intros Hv Hs. destruct (shape3_dims _ _ Hs) as (H0 & H1 & H2).
  unfold masked_fill_u8. rewrite scalar_to_u8_in_range by assumption.
  cbn [bind]. eexists. split; [reflexivity|]. split.
  - apply zip3_shape; assumption.
  - intros i j k Hr. rewrite zip3_at by assumption. reflexivity.
Qed.

(** ** The checks of [make_feature] *)

Lemma elements3_in {A} (x : Tensor3 A) (a : A) :
  In a (elements3 x)
  <-> exists i j k, in_range3 x i j k /\ a = at3 x i j k.
Proof.
  unfold elements3, in_range3. split.
  - intros H. apply in_flat_map in H. destruct H as (i & Hi & H).
    apply in_flat_map in H. destruct H as (j & Hj & H).
    apply in_map_iff in H. destruct H as (k & <- & Hk).
    apply in_seq in Hi, Hj, Hk. exists i, j, k. repeat split; lia.
  - intros (i & j & k & (Hi & Hj & Hk) & ->).
    apply in_flat_map. exists i. split; [apply in_seq; lia|].
    apply in_flat_map. exists j. split; [apply in_seq; lia|].
    apply in_map_iff. exists k. split; [reflexivity | apply in_seq; lia].
Qed.

Lemma elements4_unsqueeze_in {A} (x : Tensor3 A) (a : A) :
  In a (elements4 (unsqueeze_last x)) <-> In a (elements3 x).
Proof.
  rewrite elements3_in. unfold elements4, unsqueeze_last, in_range3.
  cbn [size0 size1 size2 size3 at4]. split.
  - intros H. apply in_flat_map in H. destruct H as (i & Hi & H).
    apply in_flat_map in H. destruct H as (j & Hj & H).
    apply in_flat_map in H. destruct H as (k & Hk & H).
    apply in_map_iff in H. destruct H as (c & <- & Hc).
    apply in_seq in Hi, Hj, Hk. exists i, j, k. repeat split; lia.
  - intros (i & j & k & (Hi & Hj & Hk) & ->).
    apply in_flat_map. exists i. split; [apply in_seq; lia|].
    apply in_flat_map. exists j. split; [apply in_seq; lia|].
    apply in_flat_map. exists k. split; [apply in_seq; lia|].
    left. reflexivity.
Qed.

Lemma numel3_pos {A} (x : Tensor3 A) :
  numel3 x <> 0%nat <-> in_range3 x 0 0 0.
Proof.
  unfold numel3, in_range3. rewrite !Nat.eq_mul_0. lia.
Qed.

Lemma in_range3_numel {A} (x : Tensor3 A) (i j k : nat) :
  in_range3 x i j k -> numel3 x <> 0%nat.
Proof.
  unfold numel3, in_range3. rewrite !Nat.eq_mul_0. lia.
Qed.

Lemma elements3_nil {A} (x : Tensor3 A) :
  elements3 x = [] <-> numel3 x = 0%nat.
Proof.
  split.
  - intros E. destruct (Nat.eq_dec (numel3 x) 0) as [H|H]; [exact H|].
    exfalso. apply numel3_pos in H.
    assert (Hin : In (at3 x 0 0 0) (elements3 x))
      by (apply elements3_in; exists 0%nat, 0%nat, 0%nat; split; [exact H | reflexivity]).
    rewrite E in Hin. destruct Hin.
  - intros H. destruct (elements3 x) as [|a l] eqn:E; [reflexivity|].
    exfalso. assert (Hin : In a (elements3 x)) by (rewrite E; left; reflexivity).
    apply elements3_in in Hin. destruct Hin as (i & j & k & Hr & _).
    apply in_range3_numel in Hr. contradiction.
Qed.

Lemma same_shape_numel {A B} (x : Tensor3 A) (y : Tensor3 B) :
  shape3 x = shape3 y -> numel3 x = numel3 y.
Proof.
  intros H. destruct (shape3_dims _ _ H) as (H0 & H1 & H2).
  unfold numel3. congruence.
Qed.

Section MakeFeature.
Context {T A : Type} {E : TensorData T A} {F : FloatCast A}.

Lemma make_feature_identity_empty (data : T) :
  elements data = [] -> make_feature IDENTITY data = Raise RuntimeError.
Proof. unfold make_feature. intros ->. reflexivity. Qed.

Lemma make_feature_identity_ok (data : T) :
  elements data <> [] ->
  (forall a, In a (elements data) -> abs_below_100 a = true) ->
  make_feature IDENTITY data = Ok data.
Proof.
  unfold make_feature. intros Hne Hall.
  destruct (elements data) as [|a l] eqn:El; [contradiction|].
  rewrite (proj2 (forallb_forall _ _) Hall). reflexivity.
Qed.

Lemma make_feature_identity_too_large (data : T) (a : A) :
  In a (elements data) -> abs_below_100 a = false ->
  make_feature IDENTITY data = Raise AssertionError.
Proof.
  unfold make_feature. intros Hin Ha.
  destruct (elements data) as [|a0 l] eqn:El; [destruct Hin|].
  destruct (forallb abs_below_100 (a0 :: l)) eqn:Hf; [|reflexivity].
  rewrite (proj1 (forallb_forall _ _) Hf a Hin) in Ha. discriminate.
Qed.

Lemma make_feature_returns_data (encoding : EncodingType) (data out : T) :
  make_feature encoding data = Ok out -> out = data.
Proof.
  unfold make_feature. destruct encoding.
  - intros H. injection H as <-. reflexivity.
  - destruct (elements data); [discriminate|].
    destruct (forallb _ _); [|discriminate].
    intros H. injection H as <-. reflexivity.
Qed.

End MakeFeature.

(** An IDENTITY feature [x.unsqueeze(-1)] is returned when [x] has an
    element and every element is below 100 in absolute value, and raises
    on a tensor without elements. *)
Lemma make_feature_unsqueeze {A} {F : FloatCast A} (x : Tensor3 A) :
  (numel3 x = 0%nat ->
   make_feature IDENTITY (unsqueeze_last x) = Raise RuntimeError)
  /\ (numel3 x <> 0%nat ->
      (forall i j k, in_range3 x i j k -> abs_below_100 (at3 x i j k) = true) ->
      make_feature IDENTITY (unsqueeze_last x) = Ok (unsqueeze_last x)).
Proof.
  assert (Hnil : elements (unsqueeze_last x) = [] <-> numel3 x = 0%nat).
  { rewrite <- elements3_nil.
    change (elements (unsqueeze_last x)) with (elements4 (unsqueeze_last x)).
    split; intros H.
    - destruct (elements3 x) as [|a l] eqn:El; [reflexivity|]. exfalso.
      assert (Hin : In a (elements3 x)) by (rewrite El; left; reflexivity).
      apply (proj2 (elements4_unsqueeze_in x a)) in Hin.
      rewrite H in Hin. destruct Hin.
    - destruct (elements4 (unsqueeze_last x)) as [|a l] eqn:El; [reflexivity|].
      exfalso.
      assert (Hin : In a (elements4 (unsqueeze_last x)))
        by (rewrite El; left; reflexivity).
      apply (proj1 (elements4_unsqueeze_in x a)) in Hin.
      rewrite H in Hin. destruct Hin. }
  split.
  - intros H. apply make_feature_identity_empty, Hnil, H.
  - intros H Hall. apply make_feature_identity_ok.
    + intros E. apply H, Hnil, E.
    + intros a Hin.
      change (elements (unsqueeze_last x)) with (elements4 (unsqueeze_last x)) in Hin.
      apply elements4_unsqueeze_in, elements3_in in Hin.
      destruct Hin as (i & j & k & Hr & ->). apply Hall, Hr.
Qed.

(** The same for an IDENTITY feature with three axes. *)
Lemma make_feature_tensor3 {A} {F : FloatCast A} (x : Tensor3 A) :
  (numel3 x = 0%nat -> make_feature IDENTITY x = Raise RuntimeError)
  /\ (numel3 x <> 0%nat ->
      (forall i j k, in_range3 x i j k -> abs_below_100 (at3 x i j k) = true) ->
      make_feature IDENTITY x = Ok x)
  /\ (forall i j k, in_range3 x i j k -> abs_below_100 (at3 x i j k) = false ->
      make_feature IDENTITY x = Raise AssertionError).
Proof.
  split; [|split].
  - intros H. apply make_feature_identity_empty. apply elements3_nil, H.
  - intros H Hall. apply make_feature_identity_ok.
    + intros E. apply H, elements3_nil, E.
    + intros a Hin. apply elements3_in in Hin.
      destruct Hin as (i & j & k & Hr & ->). apply Hall, Hr.
  - intros i j k Hr Hbad.
    apply (make_feature_identity_too_large x (at3 x i j k)); [|exact Hbad].
    apply elements3_in. exists i, j, k. split; [exact Hr | reflexivity].
Qed.

(** ** IsPairedMSAGenerator *)

(** C1, as stated, fails.  With species [[1, 2], [2, 2]] and every position
    valid, the generator marks row 1 at token 0 as paired although its
    species (2) differs from that of row 0 at token 0 (1), and leaves row 0
    at token 1 unpaired although it is row 0 itself. *)
Lemma is_paired_not_relative_to_row0 :
  exists out,
    IsPairedMSAGenerator._generate 0%Z all_valid_1x2x2 species_1x2x2 = Ok out
    /\ at4 out 0 1 0 0 = 1%Z
    /\ paired_with_row0 0%Z all_valid_1x2x2 species_1x2x2 0 1 0 = false
    /\ at4 out 0 0 1 0 = 0%Z
    /\ paired_with_row0 0%Z all_valid_1x2x2 species_1x2x2 0 0 1 = true.
Proof.
  eexists. split; [reflexivity|]. repeat split.
Qed.

(** The tensor that [IsPairedMSAGenerator._generate] hands to
    [make_feature] on inputs of one shape. *)
Lemma is_paired_data_spec
    (unknown : Z) (msa_mask : Tensor3 bool) (msa_species : Tensor3 Z) :
  same_shape msa_mask msa_species = true ->
  exists data,
    IsPairedMSAGenerator._generate unknown msa_mask msa_species
    = make_feature IDENTITY (unsqueeze_last data)
    /\ shape3 data = shape3 msa_species
    /\ forall b r t, in_range3 msa_species b r t ->
         at3 data b r t
         = bool_to_u8 (paired_with_first_token unknown msa_mask msa_species b r t).
Proof.
  intros Hs. unfold IsPairedMSAGenerator._generate. rewrite Hs.
  destruct (same_shape_dims _ _ Hs) as (H0 & H1 & H2).
  set (paired := map3 bool_to_u8 (zip3 Z.eqb msa_species (slice_last_1 msa_species))).
  set (keep := zip3 andb msa_mask (map3 (fun s => negb (s =? unknown)%Z) msa_species)).
  assert (Hp : shape3 paired = shape3 msa_species)
    by exact (zip3_slice_shape Z.eqb msa_species).
  assert (Hk : shape3 keep = shape3 msa_mask)
    by (apply zip3_shape; assumption).
  assert (Hm : shape3 msa_mask = shape3 msa_species)
    by (unfold shape3; congruence).
  destruct (masked_fill_u8_spec paired (map3 negb keep) 0%Z) as (out & -> & Ho & Hat).
  { lia. }
  { change (shape3 (map3 negb keep)) with (shape3 keep). congruence. }
  cbn [bind]. exists out. split; [reflexivity|]. split; [congruence|].
  intros b r t Hr.
  rewrite Hat.
  2:{ destruct (shape3_dims _ _ Hp) as (E0 & E1 & E2).
      unfold in_range3 in *. rewrite E0, E1, E2. exact Hr. }
  change (at3 (map3 negb keep) b r t) with (negb (at3 keep b r t)).
  change (at3 paired b r t)
    with (bool_to_u8 (at3 (zip3 Z.eqb msa_species (slice_last_1 msa_species)) b r t)).
  rewrite zip3_slice_at by exact Hr.
  unfold keep. rewrite zip3_at; try assumption.
  2:{ unfold in_range3 in *. rewrite H0, H1, H2. exact Hr. }
  cbn [map3 at3]. unfold paired_with_first_token, bool_to_u8.
  destruct (at3 msa_species b r t =? at3 msa_species b r 0)%Z,
           (at3 msa_mask b r t),
           (at3 msa_species b r t =? unknown)%Z; reflexivity.
Qed.

(** What [IsPairedMSAGenerator._generate] does on inputs of one shape. *)
Lemma is_paired_generate_spec
    (unknown : Z) (msa_mask : Tensor3 bool) (msa_species : Tensor3 Z) :
  same_shape msa_mask msa_species = true ->
  (numel3 msa_species = 0%nat ->
   IsPairedMSAGenerator._generate unknown msa_mask msa_species
   = Raise RuntimeError)
  /\ (numel3 msa_species <> 0%nat ->
      exists out,
        IsPairedMSAGenerator._generate unknown msa_mask msa_species = Ok out
        /\ shape4 out
           = (dim0 msa_species, dim1 msa_species, dim2 msa_species, 1%nat)
        /\ forall b r t, in_range3 msa_species b r t ->
             at4 out b r t 0
             = bool_to_u8
                 (paired_with_first_token unknown msa_mask msa_species b r t)).
Proof.
  intros Hs.
  destruct (is_paired_data_spec unknown msa_mask msa_species Hs)
    as (data & -> & Hsh & Hat).
  pose proof (same_shape_numel _ _ Hsh) as Hn.
  destruct (shape3_dims _ _ Hsh) as (E0 & E1 & E2).
  destruct (make_feature_unsqueeze data) as (Hempty & Hfull).
  split.
  - intros H. apply Hempty. congruence.
  - intros H. rewrite Hfull.
    + eexists. split; [reflexivity|]. split.
      * unfold shape4, unsqueeze_last; cbn [size0 size1 size2 size3]. congruence.
      * intros b r t Hr. cbn [unsqueeze_last at4]. apply Hat, Hr.
    + congruence.
    + intros i j k Hr. rewrite Hat.
      * destruct (paired_with_first_token _ _ _ _ _ _); reflexivity.
      * unfold in_range3 in *. rewrite <- E0, <- E1, <- E2. exact Hr.
Qed.

(** C1 (amended): for every batch b, row r and token t, the paired-MSA
    feature is 1 exactly when the species of row r at token t equals the
    species of the same row r at token 0, row r is valid at t, and its species
    at t is not the UNKNOWN sentinel; it is 0 otherwise.  Pairing is relative
    to token 0 of each row, not to row 0 of the alignment.  (On a grid
    without elements there is no position, and [make_feature] raises.) *)
Theorem is_paired_relative_to_first_token
    (unknown : Z) (msa_mask : Tensor3 bool) (msa_species : Tensor3 Z) :
  same_shape msa_mask msa_species = true ->
  (numel3 msa_species = 0%nat ->
   IsPairedMSAGenerator._generate unknown msa_mask msa_species
   = Raise RuntimeError)
  /\ (numel3 msa_species <> 0%nat ->
      exists out,
        IsPairedMSAGenerator._generate unknown msa_mask msa_species = Ok out
        /\ shape4 out
           = (dim0 msa_species, dim1 msa_species, dim2 msa_species, 1%nat)
        /\ forall b r t, in_range3 msa_species b r t ->
             at4 out b r t 0
             = bool_to_u8
                 (paired_with_first_token unknown msa_mask msa_species b r t)).
Proof.
  exact (is_paired_generate_spec unknown msa_mask msa_species).
Qed.

Lemma is_paired_relative_to_first_token_witness :
  exists out,
    IsPairedMSAGenerator._generate 0%Z all_valid_1x2x2 species_1x2x2 = Ok out
    /\ shape4 out = (1%nat, 2%nat, 2%nat, 1%nat)
    /\ forall b r t, in_range3 species_1x2x2 b r t ->
         at4 out b r t 0
         = bool_to_u8
             (paired_with_first_token 0%Z all_valid_1x2x2 species_1x2x2 b r t).
Proof.
  apply (is_paired_relative_to_first_token 0%Z all_valid_1x2x2 species_1x2x2).
  - reflexivity.
  - discriminate.
Defined.

(** ** MSADataSourceGenerator *)

(** C2, as stated, fails.  The generator built for the five source codes
    0..4 ([num_classes = 5]) writes 5 at a masked-out position, not
    [num_classes - 1 = 4]. *)
Lemma data_source_fill_is_not_last_class :
  MSADataSourceGenerator.__init__ nat five_sources 5%Z = Ok data_source_5
  /\ at3 invalid_1x1x1 0 0 0 = false
  /\ exists out,
       MSADataSourceGenerator._generate data_source_5 invalid_1x1x1 source_1x1x1
       = Ok out
       /\ at4 out 0 0 0 0 = 5%Z
       /\ at4 out 0 0 0 0 <> (num_classes data_source_5 - 1)%Z.
Proof.
  split; [reflexivity|]. split; [reflexivity|].
  eexists. split; [reflexivity|]. split; [reflexivity|].
  cbn. discriminate.
Qed.

(** What [MSADataSourceGenerator._generate] returns when [num_classes] fits
    uint8. *)
Lemma data_source_generate_spec
    (self : FeatureGenerator) (msa_mask : Tensor3 bool)
    (msa_sequence_source : Tensor3 Z) :
  (0 <= num_classes self <= 255)%Z ->
  same_shape msa_mask msa_sequence_source = true ->
  exists out,
    MSADataSourceGenerator._generate self msa_mask msa_sequence_source = Ok out
    /\ shape4 out
       = (dim0 msa_sequence_source, dim1 msa_sequence_source,
          dim2 msa_sequence_source, 1%nat)
    /\ forall b r t, in_range3 msa_sequence_source b r t ->
         at4 out b r t 0
         = if at3 msa_mask b r t then at3 msa_sequence_source b r t
           else num_classes self.
Proof.
  intros Hn Hs. unfold MSADataSourceGenerator._generate. rewrite Hs.
  destruct (same_shape_dims _ _ Hs) as (H0 & H1 & H2).
  destruct (masked_fill_u8_spec msa_sequence_source (map3 negb msa_mask)
              (num_classes self) Hn) as (out & -> & Ho & Hat).
  { unfold shape3, map3; cbn [dim0 dim1 dim2]. congruence. }
  cbn [bind]. eexists. split; [reflexivity|]. split.
  - destruct (shape3_dims _ _ Ho) as (E0 & E1 & E2).
    unfold make_feature, shape4, unsqueeze_last; cbn [size0 size1 size2 size3].
    congruence.
  - intros b r t Hr. unfold make_feature, unsqueeze_last; cbn [at4].
    rewrite (Hat _ _ _ Hr). cbn [map3 at3].
    destruct (at3 msa_mask b r t); reflexivity.
Qed.

(** C2 (amended): for a generator whose [num_classes] fits uint8 (0..255),
    for every mask and source-code grid of the same shape, every masked-out
    position of the output equals exactly [num_classes] (one past the
    recognised codes 0..num_classes-1), whatever its source code was; valid
    positions keep their source code; a trailing singleton dimension is
    appended. *)
Theorem data_source_fill_is_num_classes
    (self : FeatureGenerator) (msa_mask : Tensor3 bool)
    (msa_sequence_source : Tensor3 Z) :
  (0 <= num_classes self <= 255)%Z ->
  same_shape msa_mask msa_sequence_source = true ->
  exists out,
    MSADataSourceGenerator._generate self msa_mask msa_sequence_source = Ok out
    /\ shape4 out
       = (dim0 msa_sequence_source, dim1 msa_sequence_source,
          dim2 msa_sequence_source, 1%nat)
    /\ forall b r t, in_range3 msa_sequence_source b r t ->
         at4 out b r t 0
         = if at3 msa_mask b r t then at3 msa_sequence_source b r t
           else num_classes self.
Proof.
  exact (data_source_generate_spec self msa_mask msa_sequence_source).
Qed.

Lemma data_source_fill_is_num_classes_witness :
  exists out,
    MSADataSourceGenerator._generate data_source_5 invalid_1x1x1 source_1x1x1
    = Ok out
    /\ shape4 out = (1%nat, 1%nat, 1%nat, 1%nat)
    /\ forall b r t, in_range3 source_1x1x1 b r t ->
         at4 out b r t 0
         = if at3 invalid_1x1x1 b r t then at3 source_1x1x1 b r t
           else num_classes data_source_5.
Proof.
  apply (data_source_fill_is_num_classes data_source_5 invalid_1x1x1 source_1x1x1).
  - cbn. lia.
  - reflexivity.
Defined.

(** [py_max] is the maximum. *)
Lemma fold_left_max_spec (xs : list Z) (x : Z) :
  is_max (x :: xs) (fold_left Z.max xs x).
Proof.
  revert x. induction xs as [|y ys IH]; intros x.
  - cbn [fold_left]. split; [left; reflexivity|]. intros z [<-|[]]. lia.
  - cbn [fold_left]. destruct (IH (Z.max x y)) as (Hin & Hub). split.
    + destruct Hin as [E|Hin].
      * destruct (Z.max_spec x y) as [(_ & E')|(_ & E')].
        -- right; left. rewrite <- E. symmetry. exact E'.
        -- left. rewrite <- E. symmetry. exact E'.
      * right; right; exact Hin.
    + intros z [<-|[<-|Hz]].
      * specialize (Hub (Z.max x y) (or_introl eq_refl)). lia.
      * specialize (Hub (Z.max x y) (or_introl eq_refl)). lia.
      * apply Hub. right; exact Hz.
Qed.

Lemma is_max_unique (l : list Z) (m m' : Z) :
  is_max l m -> is_max l m' -> m = m'.
Proof.
  intros (Hin & Hub) (Hin' & Hub').
  specialize (Hub _ Hin'). specialize (Hub' _ Hin). lia.
Qed.

Lemma py_max_spec (l : list Z) (m : Z) :
  is_max l m -> MSADataSourceGenerator.py_max l = Ok m.
Proof.
  intros Hm. destruct l as [|x xs].
  - destruct Hm as ([] & _).
  - cbn [MSADataSourceGenerator.py_max]. f_equal.
    apply (is_max_unique (x :: xs)); [apply fold_left_max_spec | exact Hm].
Qed.

(** C8: with [m] the greatest source code of [msa_dataset_source_to_int],
    constructing MSADataSourceGenerator raises (the assertion fails) whenever
    [num_classes <> m + 1], and otherwise succeeds with exactly the declared
    [num_classes] stored: a mismatch is never coerced. *)
Theorem data_source_init_checks_num_classes
    (Source : Type) (msa_dataset_source_to_int : list (Source * Z))
    (m num_classes' : Z) :
  is_max (map snd msa_dataset_source_to_int) m ->
  (num_classes' <> (m + 1)%Z ->
     MSADataSourceGenerator.__init__ Source msa_dataset_source_to_int num_classes'
     = Raise AssertionError)
  /\ (num_classes' = (m + 1)%Z ->
        exists self,
          MSADataSourceGenerator.__init__ Source msa_dataset_source_to_int
            num_classes' = Ok self
          /\ num_classes self = num_classes'
          /\ encoding_ty self = ONE_HOT).
Proof.
  intros Hm. unfold MSADataSourceGenerator.__init__.
  rewrite (py_max_spec _ _ Hm). cbn [bind]. split; intros Hn.
  - destruct (Z.eqb_spec num_classes' (m + 1)); [contradiction | reflexivity].
  - rewrite (proj2 (Z.eqb_eq _ _) Hn). eexists. repeat split.
Qed.

Lemma data_source_init_checks_num_classes_witness :
  MSADataSourceGenerator.__init__ nat five_sources 4%Z = Raise AssertionError
  /\ exists self,
       MSADataSourceGenerator.__init__ nat five_sources 5%Z = Ok self
       /\ num_classes self = 5%Z
       /\ encoding_ty self = ONE_HOT.
Proof.
  assert (Hm : is_max (map snd five_sources) 4%Z).
  { split; [cbn; tauto|]. cbn. intros x Hx.
    repeat (destruct Hx as [<-|Hx]; [lia|]). destruct Hx. }
  split.
  - apply (proj1 (data_source_init_checks_num_classes nat five_sources 4 4 Hm)).
    lia.
  - apply (proj2 (data_source_init_checks_num_classes nat five_sources 4 5 Hm)).
    reflexivity.
Defined.

(** ** Maskability *)

(** C10: among the generators of the module, a constructed generator is
    maskable ([can_mask = True]) exactly when it is the
    MSADataSourceGenerator; every other one is constructed with
    [can_mask = False]. *)
Theorem only_data_source_is_maskable
    (num_res_ty : nat) (Source : Type)
    (msa_dataset_source_to_int : list (Source * Z)) (num_classes' : Z)
    (cls : generator_class) (self : FeatureGenerator) :
  construct num_res_ty msa_dataset_source_to_int num_classes' cls = Ok self ->
  (can_mask self = true <-> cls = ClsMSADataSource).
Proof.
  unfold construct, MSADataSourceGenerator.__init__. intros H.
  destruct cls; try (injection H as <-; cbn; split; discriminate).
  destruct (MSADataSourceGenerator.py_max _) as [m|e]; cbn [bind] in H;
    [|discriminate].
  destruct (num_classes' =? m + 1)%Z; [|discriminate].
  injection H as <-. cbn. split; reflexivity.
Qed.

Lemma only_data_source_is_maskable_witness :
  (can_mask data_source_5 = true <-> ClsMSADataSource = ClsMSADataSource)
  /\ (can_mask (MSAProfileGenerator.__init__ 3) = true
      <-> ClsMSAProfile = ClsMSADataSource).
Proof.
  split.
  - apply (only_data_source_is_maskable 3 nat five_sources 5 ClsMSADataSource).
    reflexivity.
  - apply (only_data_source_is_maskable 3 nat five_sources 5 ClsMSAProfile).
    reflexivity.
Defined.

(** ** MSAProfileGenerator *)

Lemma sumZ_app (l l' : list Z) : sumZ (l ++ l') = (sumZ l + sumZ l')%Z.
Proof.
  unfold sumZ. induction l as [|x l IH]; cbn [app fold_right]; [reflexivity|].
  rewrite IH. lia.
Qed.

Lemma sumZ_map_ext {A} (f g : A -> Z) (l : list A) :
  (forall x, In x l -> f x = g x) -> sumZ (map f l) = sumZ (map g l).
Proof.
  intros H. f_equal. apply map_ext_in. exact H.
Qed.

Lemma sumZ_map_add {A} (f g : A -> Z) (l : list A) :
  sumZ (map (fun x => (f x + g x)%Z) l) = (sumZ (map f l) + sumZ (map g l))%Z.
Proof.
  unfold sumZ. induction l as [|x l IH]; cbn [map fold_right]; [reflexivity|].
  rewrite IH. lia.
Qed.

Lemma sumZ_map_zero {A} (l : list A) : sumZ (map (fun _ => 0%Z) l) = 0%Z.
Proof.
  unfold sumZ. induction l as [|x l IH]; cbn [map fold_right]; [reflexivity|].
  rewrite IH. reflexivity.
Qed.

Lemma sumZ_map_nonneg {A} (f : A -> Z) (l : list A) :
  (forall x, In x l -> (0 <= f x)%Z) -> (0 <= sumZ (map f l))%Z.
Proof.
  unfold sumZ. induction l as [|x l IH]; intros H; cbn [map fold_right]; [lia|].
  specialize (H x (or_introl eq_refl)) as Hx.
  assert (0 <= fold_right Z.add 0 (map f l))%Z
    by (apply IH; intros y Hy; apply H; right; exact Hy).
  lia.
Qed.

(** Sums over two index lists commute. *)
Lemma sumZ_swap {A B} (f : A -> B -> Z) (la : list A) (lb : list B) :
  sumZ (map (fun a => sumZ (map (fun b => f a b) lb)) la)
  = sumZ (map (fun b => sumZ (map (fun a => f a b) la)) lb).
Proof.
  induction la as [|a la IH]; cbn [map].
  - rewrite sumZ_map_zero. reflexivity.
  - change (sumZ (?x :: ?l)) with (x + sumZ l)%Z.
    rewrite IH, <- sumZ_map_add. reflexivity.
Qed.

(** One scatter cell: the wrapped sum of the sources sent to it. *)
Lemma scatter_add_cell_spec (index src : nat -> Z) (n : nat) (c init : Z) :
  (0 <= init < 256)%Z ->
  scatter_add_cell index src n c init
  = wrap_u8 (init + sumZ (map (fun k => if (index k =? c)%Z then src k else 0%Z)
                              (seq 0 n))).
Proof.
  intros Hinit. unfold scatter_add_cell. induction n as [|n IH].
  - cbn. unfold wrap_u8. rewrite Z.add_0_r, Z.mod_small by lia. reflexivity.
  - rewrite seq_S, fold_left_app, map_app, sumZ_app, IH. cbn [fold_left map Nat.add].
    destruct (index n =? c)%Z.
    + change (sumZ [src n]) with (src n + 0)%Z. unfold wrap_u8.
      rewrite Zplus_mod_idemp_l. f_equal. lia.
    + change (sumZ [0%Z]) with 0%Z. f_equal. lia.
Qed.

Lemma index_ok_rearranged (n : nat) (tokens : Tensor3 Z) :
  (forall b d t, in_range3 tokens b d t ->
     (0 <= at3 tokens b d t < Z.of_nat n)%Z) ->
  index_ok (zeros (dim0 tokens) (dim2 tokens) n)
           (rearrange_bdt_btd (map3 long tokens)) = true.
Proof.
  intros H. unfold index_ok.
  apply forallb_forall; intros i Hi. apply forallb_forall; intros j Hj.
  apply forallb_forall; intros k Hk.
  apply in_seq in Hi, Hj, Hk.
  cbn [rearrange_bdt_btd map3 dim0 dim1 dim2 at3 zeros] in *. unfold long.
  specialize (H i k j). unfold in_range3 in H.
  apply andb_true_iff; split; [apply Z.leb_le | apply Z.ltb_lt]; lia.
Qed.

(** An index outside the vocabulary raises. *)
Lemma index_not_ok_rearranged (n : nat) (tokens : Tensor3 Z) (b d t : nat) :
  in_range3 tokens b d t ->
  ~ (0 <= at3 tokens b d t < Z.of_nat n)%Z ->
  index_ok (zeros (dim0 tokens) (dim2 tokens) n)
           (rearrange_bdt_btd (map3 long tokens)) = false.
Proof.
  intros (Hb & Hd & Ht) Hbad.
  destruct (index_ok _ _) eqn:E; [|reflexivity]. exfalso. apply Hbad.
  unfold index_ok in E.
  cbn [rearrange_bdt_btd map3 dim0 dim1 dim2 at3 zeros] in E. unfold long in E.
  assert (Hin : forall i m, (i < m)%nat -> In i (seq 0 m))
    by (intros i m Hi; apply in_seq; lia).
  pose proof (proj1 (forallb_forall _ _) E b (Hin _ _ Hb)) as E1.
  pose proof (proj1 (forallb_forall _ _) E1 t (Hin _ _ Ht)) as E2.
  pose proof (proj1 (forallb_forall _ _) E2 d (Hin _ _ Hd)) as E3.
  cbv beta in E3. rewrite andb_true_iff, Z.leb_le, Z.ltb_lt in E3. exact E3.
Qed.

(** The tensor that the profile generator hands to [make_feature]: the
    wrapped class count over the sum of the wrapped class counts floored at
    1. *)
Lemma profile_data_spec (n : nat) (tokens : Tensor3 Z) (mask : Tensor3 bool) :
  same_shape tokens mask = true ->
  (forall b d t, in_range3 tokens b d t ->
     (0 <= at3 tokens b d t < Z.of_nat n)%Z) ->
  exists data,
    MSAProfileGenerator._generate n tokens mask = make_feature IDENTITY data
    /\ shape3 data = (dim0 tokens, dim2 tokens, n)
    /\ forall b t c, (b < dim0 tokens)%nat -> (t < dim2 tokens)%nat ->
         (c < n)%nat ->
         at3 data b t c = wrapped_profile n tokens mask b t (Z.of_nat c).
Proof.
  intros Hs Hrange. unfold MSAProfileGenerator._generate. rewrite Hs.
  unfold scatter_add_dim2. rewrite index_ok_rearranged by assumption.
  cbn [bind]. eexists. split; [reflexivity|].
  assert (Hone : forall b t c, (b < dim0 tokens)%nat -> (t < dim2 tokens)%nat ->
            scatter_add_cell (fun k => long (at3 tokens b k t))
              (fun k => bool_to_u8 (at3 mask b k t)) (dim1 tokens) c 0%Z
            = wrap_u8 (class_count tokens mask b t c)).
  { intros b t c Hb Ht. rewrite scatter_add_cell_spec by lia.
    unfold class_count, long. rewrite Z.add_0_l. reflexivity. }
  split.
  - unfold true_divide, shape3, zip3, clamp_min, sum_last_keepdim,
      map3, zeros; cbn [dim0 dim1 dim2].
    rewrite !broadcast_dim_same. unfold broadcast_dim.
    destruct (n =? 1)%nat eqn:E; [apply Nat.eqb_eq in E; subst n|]; reflexivity.
  - intros b t c Hb Ht Hc.
    unfold true_divide, zip3, clamp_min, sum_last_keepdim,
      map3, zeros, rearrange_bdt_btd; cbn [dim0 dim1 dim2 at3].
    rewrite !broadcast_ix_in_range by assumption.
    replace (broadcast_ix 1 c) with 0%nat by reflexivity.
    assert (Hlt : ((b <? dim0 tokens) && (t <? dim2 tokens))%nat = true).
    { apply andb_true_iff; split; apply Nat.ltb_lt; assumption. }
    rewrite Hlt. unfold wrapped_profile.
    rewrite (Hone b t (Z.of_nat c) Hb Ht).
    f_equal. f_equal. f_equal. f_equal.
    change (fold_right Z.add 0%Z ?l) with (sumZ l).
    apply sumZ_map_ext. intros c' _. apply Hone; assumption.
Qed.

Lemma indicator_sum (z m : Z) (n : nat) :
  (0 <= z)%Z ->
  sumZ (map (fun c => if (z =? Z.of_nat c)%Z then m else 0%Z) (seq 0 n))
  = if (z <? Z.of_nat n)%Z then m else 0%Z.
Proof.
  intros Hz. induction n as [|n IH].
  - cbn. destruct (Z.ltb_spec z 0); [lia | reflexivity].
  - rewrite seq_S, map_app, sumZ_app, IH. cbn [map Nat.add].
    change (sumZ [?x]) with (x + 0)%Z.
    destruct (Z.ltb_spec z (Z.of_nat n)), (Z.ltb_spec z (Z.of_nat (S n))),
      (Z.eqb_spec z (Z.of_nat n)); lia.
Qed.

Lemma bool_to_u8_range (b : bool) : (0 <= bool_to_u8 b <= 1)%Z.
Proof. destruct b; cbn; lia. Qed.

Lemma class_count_nonneg (tokens : Tensor3 Z) (mask : Tensor3 bool)
    (b t : nat) (c : Z) :
  (0 <= class_count tokens mask b t c)%Z.
Proof.
  unfold class_count. apply sumZ_map_nonneg. intros d _.
  pose proof (bool_to_u8_range (at3 mask b d t)).
  destruct (at3 tokens b d t =? c)%Z; lia.
Qed.

(** Every valid row is counted in exactly one class of the vocabulary. *)
Lemma class_counts_sum (n : nat) (tokens : Tensor3 Z) (mask : Tensor3 bool)
    (b t : nat) :
  dim1 tokens = dim1 mask ->
  (forall d, (d < dim1 tokens)%nat -> (0 <= at3 tokens b d t < Z.of_nat n)%Z) ->
  sumZ (map (fun c => class_count tokens mask b t (Z.of_nat c)) (seq 0 n))
  = valid_rows mask b t.
Proof.
  intros Hd Hrange. unfold class_count, valid_rows.
  rewrite sumZ_swap, <- Hd. apply sumZ_map_ext. intros d Hin.
  apply in_seq in Hin. specialize (Hrange d ltac:(lia)).
  rewrite indicator_sum by lia.
  destruct (Z.ltb_spec (at3 tokens b d t) (Z.of_nat n)); [reflexivity | lia].
Qed.

Lemma sumZ_map_le_total {A} (f : A -> Z) (l : list A) (x : A) :
  (forall y, In y l -> (0 <= f y)%Z) -> In x l -> (f x <= sumZ (map f l))%Z.
Proof.
  induction l as [|y l IH]; intros Hpos Hin; [destruct Hin|].
  cbn [map]. change (sumZ (?a :: ?r)) with (a + sumZ r)%Z.
  assert (0 <= sumZ (map f l))%Z
    by (apply sumZ_map_nonneg; intros z Hz; apply Hpos; right; exact Hz).
  pose proof (Hpos y (or_introl eq_refl)).
  destruct Hin as [->|Hin]; [lia|].
  specialize (IH (fun z Hz => Hpos z (or_intror Hz)) Hin). lia.
Qed.

(** Where no class count exceeds 255 nothing wraps, and the generator
    returns the true distribution. *)
Lemma wrapped_profile_exact (n : nat) (tokens : Tensor3 Z) (mask : Tensor3 bool)
    (b t c : nat) :
  dim1 tokens = dim1 mask ->
  (forall d, (d < dim1 tokens)%nat -> (0 <= at3 tokens b d t < Z.of_nat n)%Z) ->
  (c < n)%nat ->
  (forall c', (c' < n)%nat -> (class_count tokens mask b t (Z.of_nat c') <= 255)%Z) ->
  wrapped_profile n tokens mask b t (Z.of_nat c)
  = true_profile tokens mask b t (Z.of_nat c).
Proof.
  intros Hd Hrange Hc Hsmall. unfold wrapped_profile, true_profile.
  assert (Hw : forall c', (c' < n)%nat ->
            wrap_u8 (class_count tokens mask b t (Z.of_nat c'))
            = class_count tokens mask b t (Z.of_nat c')).
  { intros c' Hc'. unfold wrap_u8. apply Z.mod_small.
    pose proof (class_count_nonneg tokens mask b t (Z.of_nat c')).
    specialize (Hsmall c' Hc'). lia. }
  rewrite (Hw c Hc).
  rewrite (sumZ_map_ext
             (fun c' => wrap_u8 (class_count tokens mask b t (Z.of_nat c')))
             (fun c' => class_count tokens mask b t (Z.of_nat c'))).
  - rewrite (class_counts_sum n) by assumption. reflexivity.
  - intros c' Hin. apply in_seq in Hin. apply Hw. lia.
Qed.

Lemma wrap_u8_range (z : Z) : (0 <= wrap_u8 z < 256)%Z.
Proof. unfold wrap_u8. apply Z.mod_pos_bound. lia. Qed.

(** Every entry of the profile lies between 0 and 1. *)
Lemma wrapped_profile_unit_interval (n : nat) (tokens : Tensor3 Z)
    (mask : Tensor3 bool) (b t c : nat) :
  (c < n)%nat ->
  0 <= wrapped_profile n tokens mask b t (Z.of_nat c) <= 1.
Proof.
  intros Hc. unfold wrapped_profile.
  set (w := fun c' => wrap_u8 (class_count tokens mask b t (Z.of_nat c'))).
  change (wrap_u8 (class_count tokens mask b t (Z.of_nat c))) with (w c).
  set (W := sumZ (map w (seq 0 n))).
  assert (Hw : forall c', (0 <= w c')%Z) by (intros c'; apply wrap_u8_range).
  assert (Hle : (w c <= W)%Z).
  { apply (sumZ_map_le_total w); [intros; apply Hw | apply in_seq; lia]. }
  assert (HD : 0 < inject_Z (Z.max 1 W)).
  { change 0 with (inject_Z 0). rewrite <- Zlt_Qlt. lia. }
  split.
  - apply Qle_shift_div_l; [exact HD|].
    rewrite Qmult_0_l. change 0 with (inject_Z 0). rewrite <- Zle_Qle. apply Hw.
  - apply Qle_shift_div_r; [exact HD|].
    rewrite Qmult_1_l. rewrite <- Zle_Qle. lia.
Qed.

Lemma abs_below_100_small (q : Q) : 0 <= q -> q < 100 -> abs_below_100 q = true.
Proof.
  intros H0 H1. unfold abs_below_100, FloatCast_Q.
  rewrite Qabs_pos by exact H0.
  destruct (Qle_bool 100 q) eqn:E; [|reflexivity].
  apply Qle_bool_iff in E. exfalso. apply (Qlt_not_le _ _ H1 E).
Qed.

(** What the profile generator returns when its output has an element:
    the wrapped class count over the sum of the wrapped class counts floored
    at 1. *)
Lemma profile_generate_spec (n : nat) (tokens : Tensor3 Z) (mask : Tensor3 bool) :
  same_shape tokens mask = true ->
  (forall b d t, in_range3 tokens b d t ->
     (0 <= at3 tokens b d t < Z.of_nat n)%Z) ->
  (dim0 tokens * dim2 tokens * n <> 0)%nat ->
  exists out,
    MSAProfileGenerator._generate n tokens mask = Ok out
    /\ shape3 out = (dim0 tokens, dim2 tokens, n)
    /\ forall b t c, (b < dim0 tokens)%nat -> (t < dim2 tokens)%nat ->
         (c < n)%nat ->
         at3 out b t c = wrapped_profile n tokens mask b t (Z.of_nat c).
Proof.
  intros Hs Hrange Hne.
  destruct (profile_data_spec n tokens mask Hs Hrange) as (data & -> & Hsh & Hat).
  destruct (make_feature_tensor3 data) as (_ & Hfull & _).
  assert (Hd : dim0 data = dim0 tokens /\ dim1 data = dim2 tokens /\ dim2 data = n).
  { unfold shape3 in Hsh. injection Hsh as -> -> ->. auto. }
  destruct Hd as (D0 & D1 & D2).
  rewrite Hfull.
  - exists data. split; [reflexivity|]. split; assumption.
  - unfold numel3. rewrite D0, D1, D2. exact Hne.
  - intros i j k (Hi & Hj & Hk). rewrite Hat by lia.
    destruct (wrapped_profile_unit_interval n tokens mask i j k) as (H0 & H1);
      [lia|].
    apply abs_below_100_small; [exact H0|].
    apply Qle_lt_trans with (y := 1); [exact H1 | reflexivity].
Qed.

(** On an output without elements [make_feature] raises. *)
Lemma profile_generate_empty (n : nat) (tokens : Tensor3 Z) (mask : Tensor3 bool) :
  same_shape tokens mask = true ->
  (forall b d t, in_range3 tokens b d t ->
     (0 <= at3 tokens b d t < Z.of_nat n)%Z) ->
  (dim0 tokens * dim2 tokens * n = 0)%nat ->
  MSAProfileGenerator._generate n tokens mask = Raise RuntimeError.
Proof.
  intros Hs Hrange He.
  destruct (profile_data_spec n tokens mask Hs Hrange) as (data & -> & Hsh & _).
  destruct (make_feature_tensor3 data) as (Hempty & _).
  apply Hempty. unfold shape3 in Hsh. injection Hsh as D0 D1 D2.
  unfold numel3. rewrite D0, D1, D2. exact He.
Qed.

(** C3 fails on the code: with 256 rows that are all valid and all carry
    residue class 0 at the one token, the count of class 0 wraps to 0 in
    uint8; the output distribution is all zero and sums to 0, not to 1,
    although every row is valid there.  This holds for every vocabulary
    size [S n]. *)
Theorem profile_sums_to_zero_at_256_valid_rows (n : nat) :
  exists out,
    MSAProfileGenerator._generate (S n) tokens_256_same valid_256 = Ok out
    /\ valid_rows valid_256 0 0 = 256%Z
    /\ sumQ (map (at3 out 0 0) (seq 0 (S n))) == 0
    /\ ~ sumQ (map (at3 out 0 0) (seq 0 (S n))) == 1.
Proof.
  destruct (profile_generate_spec (S n) tokens_256_same valid_256)
    as (out & Hout & _ & Hat).
  { reflexivity. }
  { intros b d t _. cbn. lia. }
  { cbn [tokens_256_same dim0 dim2]. lia. }
  exists out. split; [exact Hout|]. split; [vm_compute; reflexivity|].
  assert (Hzero : sumQ (map (at3 out 0 0) (seq 0 (S n))) == 0).
  { assert (Hall : forall l : list nat, (forall c, In c l -> at3 out 0 0 c == 0) ->
              sumQ (map (at3 out 0 0) l) == 0).
    { induction l as [|c l IH]; intros H; [reflexivity|].
      cbn [map sumQ fold_right].
      rewrite (H c (or_introl eq_refl)).
      fold (sumQ (map (at3 out 0 0) l)).
      rewrite IH by (intros c' Hc'; apply H; right; exact Hc').
      reflexivity. }
    apply Hall. intros c Hin. apply in_seq in Hin.
    rewrite (Hat 0%nat 0%nat c) by (cbn; lia).
    unfold wrapped_profile.
    assert (Hc : wrap_u8 (class_count tokens_256_same valid_256 0 0 (Z.of_nat c)) = 0%Z).
    { destruct c as [|c]; [vm_compute; reflexivity|].
      unfold class_count.
      rewrite (sumZ_map_ext _ (fun _ => 0%Z)); [rewrite sumZ_map_zero; reflexivity|].
      intros d _. cbn [tokens_256_same at3].
      destruct (Z.eqb_spec 0 (Z.of_nat (S c))); [lia | reflexivity]. }
    rewrite Hc. unfold Qdiv. apply Qmult_0_l. }
  split; [exact Hzero|].
  rewrite Hzero. discriminate.
Qed.

(** C4, as stated, fails.  With 256 valid rows at a token, 128 of class 0
    and 128 of class 1, the generator returns 1/2 for both classes, which is
    the true distribution although more than 255 rows contribute; a
    denominator accumulated in uint8 would have wrapped to 0, been floored
    at 1, and given 128. *)
Lemma profile_denominator_does_not_wrap :
  exists out,
    MSAProfileGenerator._generate 2 tokens_256_halves valid_256 = Ok out
    /\ valid_rows valid_256 0 0 = 256%Z
    /\ at3 out 0 0 0 == 1 # 2
    /\ at3 out 0 0 1 == 1 # 2
    /\ at3 out 0 0 0 == true_profile tokens_256_halves valid_256 0 0 0
    /\ at3 out 0 0 1 == true_profile tokens_256_halves valid_256 0 0 1
    /\ all_u8_profile 2 tokens_256_halves valid_256 0 0 0 == 128 # 1
    /\ ~ at3 out 0 0 0 == all_u8_profile 2 tokens_256_halves valid_256 0 0 0.
Proof.
  eexists. split; [reflexivity|].
  repeat split; try (vm_compute; reflexivity).
  vm_compute. discriminate.
Qed.

(** C4 (amended): the per-class counts are accumulated in uint8 and wrap
    modulo 256, while the normalisation denominator is the sum of the wrapped
    counts, taken without wrapping and floored at 1.  The output at a token
    is therefore the wrapped count over that sum; it equals the true
    mask-weighted class distribution (total floored at 1) whenever no class
    count at that token exceeds 255, in particular whenever at most 255
    valid rows contribute to that token.  (The profile of an input without
    tokens, or for an empty vocabulary, has no element, and [make_feature]
    raises.) *)
Theorem profile_counts_wrap_in_uint8
    (n : nat) (main_msa_tokens : Tensor3 Z) (main_msa_mask : Tensor3 bool) :
  same_shape main_msa_tokens main_msa_mask = true ->
  (forall b d t, in_range3 main_msa_tokens b d t ->
     (0 <= at3 main_msa_tokens b d t < Z.of_nat n)%Z) ->
  ((dim0 main_msa_tokens * dim2 main_msa_tokens * n = 0)%nat ->
   MSAProfileGenerator._generate n main_msa_tokens main_msa_mask
   = Raise RuntimeError)
  /\ ((dim0 main_msa_tokens * dim2 main_msa_tokens * n <> 0)%nat ->
      exists out,
        MSAProfileGenerator._generate n main_msa_tokens main_msa_mask = Ok out
        /\ forall b t c,
             (b < dim0 main_msa_tokens)%nat -> (t < dim2 main_msa_tokens)%nat ->
             (c < n)%nat ->
             at3 out b t c
             = wrapped_profile n main_msa_tokens main_msa_mask b t (Z.of_nat c)
             /\ ((forall c', (c' < n)%nat ->
                    (class_count main_msa_tokens main_msa_mask b t (Z.of_nat c')
                     <= 255)%Z) ->
                 at3 out b t c
                 = true_profile main_msa_tokens main_msa_mask b t (Z.of_nat c))
             /\ ((valid_rows main_msa_mask b t <= 255)%Z ->
                 at3 out b t c
                 = true_profile main_msa_tokens main_msa_mask b t (Z.of_nat c))).
Proof.
  intros Hs Hrange.
  split; [apply profile_generate_empty; assumption|]. intros Hne.
  destruct (profile_generate_spec n _ _ Hs Hrange Hne) as (out & Hout & _ & Hat).
  destruct (same_shape_dims _ _ Hs) as (H0 & H1 & H2).
  exists out. split; [exact Hout|]. intros b t c Hb Ht Hc.
  assert (Hcol : forall d, (d < dim1 main_msa_tokens)%nat ->
            (0 <= at3 main_msa_tokens b d t < Z.of_nat n)%Z)
    by (intros d Hd; apply Hrange; repeat split; assumption).
  rewrite (Hat b t c Hb Ht Hc).
  split; [reflexivity|]. split.
  - intros Hsmall. apply wrapped_profile_exact; assumption.
  - intros Hfew. apply wrapped_profile_exact; try assumption.
    intros c' Hc'.
    rewrite <- (class_counts_sum n main_msa_tokens main_msa_mask b t H1 Hcol) in Hfew.
    pose proof (sumZ_map_le_total
                  (fun c0 => class_count main_msa_tokens main_msa_mask b t (Z.of_nat c0))
                  (seq 0 n) c') as Hle.
    cbv beta in Hle. etransitivity; [apply Hle | exact Hfew].
    + intros y _. apply class_count_nonneg.
    + apply in_seq. lia.
Qed.

Lemma profile_counts_wrap_in_uint8_witness :
  exists out,
    MSAProfileGenerator._generate 3 tokens_1x3x3 mask_1x3x3 = Ok out
    /\ forall b t c,
         (b < 1)%nat -> (t < 3)%nat -> (c < 3)%nat ->
         at3 out b t c
         = wrapped_profile 3 tokens_1x3x3 mask_1x3x3 b t (Z.of_nat c)
         /\ ((forall c', (c' < 3)%nat ->
                (class_count tokens_1x3x3 mask_1x3x3 b t (Z.of_nat c') <= 255)%Z) ->
             at3 out b t c
             = true_profile tokens_1x3x3 mask_1x3x3 b t (Z.of_nat c))
         /\ ((valid_rows mask_1x3x3 b t <= 255)%Z ->
             at3 out b t c
             = true_profile tokens_1x3x3 mask_1x3x3 b t (Z.of_nat c)).
Proof.
  apply (profile_counts_wrap_in_uint8 3 tokens_1x3x3 mask_1x3x3).
  - reflexivity.
  - intros b d t (Hb & Hd & Ht). cbn in Hb, Hd, Ht.
    destruct b as [|b]; [|lia].
    destruct d as [|[|[|d]]]; [| | |lia];
      (destruct t as [|[|[|t]]]; [| | |lia]); cbn; lia.
  - discriminate.
Defined.

Lemma sumQ_map_div (f : nat -> Z) (den : Z) (l : list nat) :
  sumQ (map (fun c => inject_Z (f c) / inject_Z den) l)
  == inject_Z (sumZ (map f l)) / inject_Z den.
Proof.
  induction l as [|c l IH].
  - cbn. unfold Qdiv. rewrite Qmult_0_l. reflexivity.
  - cbn [map sumQ fold_right]. fold (sumQ (map (fun c => inject_Z (f c) / inject_Z den) l)).
    rewrite IH. change (sumZ (?a :: ?r)) with (a + sumZ r)%Z.
    rewrite inject_Z_plus. unfold Qdiv. ring.
Qed.

Lemma sumQ_map_ext {A} (f g : A -> Q) (l : list A) :
  (forall x, In x l -> f x = g x) -> sumQ (map f l) = sumQ (map g l).
Proof.
  intros H. f_equal. apply map_ext_in. exact H.
Qed.

(** The part of C3 that holds: the output is never negative, it is all zero
    at a token where no row is valid, and it sums to 1 over the vocabulary
    at a token where between 1 and 255 rows are valid. *)
Lemma profile_is_distribution_up_to_255_rows
    (n : nat) (main_msa_tokens : Tensor3 Z) (main_msa_mask : Tensor3 bool) :
  same_shape main_msa_tokens main_msa_mask = true ->
  (forall b d t, in_range3 main_msa_tokens b d t ->
     (0 <= at3 main_msa_tokens b d t < Z.of_nat n)%Z) ->
  (dim0 main_msa_tokens * dim2 main_msa_tokens * n <> 0)%nat ->
  exists out,
    MSAProfileGenerator._generate n main_msa_tokens main_msa_mask = Ok out
    /\ forall b t,
         (b < dim0 main_msa_tokens)%nat -> (t < dim2 main_msa_tokens)%nat ->
         (forall c, (c < n)%nat -> 0 <= at3 out b t c)
         /\ (valid_rows main_msa_mask b t = 0%Z ->
             forall c, (c < n)%nat -> at3 out b t c == 0)
         /\ ((1 <= valid_rows main_msa_mask b t <= 255)%Z ->
             sumQ (map (at3 out b t) (seq 0 n)) == 1).
Proof.
  intros Hs Hrange Hne.
  destruct (profile_generate_spec n _ _ Hs Hrange Hne) as (out & Hout & _ & Hat).
  destruct (same_shape_dims _ _ Hs) as (H0 & H1 & H2).
  exists out. split; [exact Hout|]. intros b t Hb Ht.
  assert (Hcol : forall d, (d < dim1 main_msa_tokens)%nat ->
            (0 <= at3 main_msa_tokens b d t < Z.of_nat n)%Z)
    by (intros d Hd; apply Hrange; repeat split; assumption).
  pose proof (class_counts_sum n main_msa_tokens main_msa_mask b t H1 Hcol) as Hsum.
  assert (Hle : forall c, (c < n)%nat ->
            (class_count main_msa_tokens main_msa_mask b t (Z.of_nat c)
             <= valid_rows main_msa_mask b t)%Z).
  { intros c Hc. rewrite <- Hsum.
    apply (sumZ_map_le_total
             (fun c0 => class_count main_msa_tokens main_msa_mask b t (Z.of_nat c0))).
    - intros y _. apply class_count_nonneg.
    - apply in_seq. lia. }
  split; [|split].
  - intros c Hc. rewrite (Hat b t c Hb Ht Hc). unfold wrapped_profile.
    apply Qle_shift_div_l.
    + change 0 with (inject_Z 0). rewrite <- Zlt_Qlt. lia.
    + rewrite Qmult_0_l. change 0 with (inject_Z 0). rewrite <- Zle_Qle.
      unfold wrap_u8. apply Z.mod_pos_bound. lia.
  - intros Hnone c Hc. rewrite (Hat b t c Hb Ht Hc). unfold wrapped_profile.
    pose proof (class_count_nonneg main_msa_tokens main_msa_mask b t (Z.of_nat c)).
    specialize (Hle c Hc).
    replace (class_count main_msa_tokens main_msa_mask b t (Z.of_nat c))
      with 0%Z by lia.
    unfold Qdiv. apply Qmult_0_l.
  - intros Hfew.
    rewrite (sumQ_map_ext (at3 out b t)
               (fun c => true_profile main_msa_tokens main_msa_mask b t (Z.of_nat c))).
    2:{ intros c Hin. apply in_seq in Hin. rewrite (Hat b t c) by (assumption || lia).
        apply wrapped_profile_exact; try assumption; [lia|].
        intros c' Hc'. specialize (Hle c' Hc'). lia. }
    unfold true_profile. rewrite sumQ_map_div, Hsum.
    rewrite Z.max_r by lia.
    apply Qmult_inv_r. change 0 with (inject_Z 0). rewrite inject_Z_injective. lia.
Qed.

(** ** MSADeletionMeanGenerator *)

Lemma masked_sum_inject (mask : nat -> bool) (value : nat -> Z) (l : list nat) :
  sumQ (map (fun j => bool_to_float (mask j) * inject_Z (value j)) l)
  == inject_Z (sumZ (map (fun j => if mask j then value j else 0%Z) l)).
Proof.
  induction l as [|j l IH]; [reflexivity|].
  cbn [map sumQ fold_right].
  fold (sumQ (map (fun j => bool_to_float (mask j) * inject_Z (value j)) l)).
  rewrite IH. change (sumZ (?a :: ?r)) with (a + sumZ r)%Z.
  rewrite inject_Z_plus. destruct (mask j); cbn [bool_to_float]; ring.
Qed.

Lemma valid_rows_none (mask : Tensor3 bool) (b t : nat) :
  (forall d, (d < dim1 mask)%nat -> at3 mask b d t = false) ->
  valid_rows mask b t = 0%Z.
Proof.
  intros H. unfold valid_rows.
  rewrite (sumZ_map_ext _ (fun _ => 0%Z)); [apply sumZ_map_zero|].
  intros d Hin. apply in_seq in Hin. rewrite H by lia. reflexivity.
Qed.

Lemma valid_deletions_none (mask : Tensor3 bool) (deletions : Tensor3 Z)
    (b t : nat) :
  dim1 mask = dim1 deletions ->
  valid_rows mask b t = 0%Z -> valid_deletions mask deletions b t = 0%Z.
Proof.
  intros Hd Hv. unfold valid_deletions.
  rewrite (sumZ_map_ext _ (fun _ => 0%Z)); [apply sumZ_map_zero|].
  intros d Hin. destruct (at3 mask b d t) eqn:Hm; [|reflexivity].
  exfalso. unfold valid_rows in Hv. rewrite Hd in Hv.
  pose proof (sumZ_map_le_total (fun d => bool_to_u8 (at3 mask b d t))
                (seq 0 (dim1 deletions)) d) as Hle.
  cbv beta in Hle. rewrite Hm, Hv in Hle. cbn [bool_to_u8] in Hle.
  assert (1 <= 0)%Z; [|lia].
  apply Hle; [|exact Hin]. intros y _. apply bool_to_u8_range.
Qed.

Lemma valid_rows_nonneg (mask : Tensor3 bool) (b t : nat) :
  (0 <= valid_rows mask b t)%Z.
Proof.
  unfold valid_rows. apply sumZ_map_nonneg. intros d _. apply bool_to_u8_range.
Qed.

(** The check of [make_feature] on a quotient of integers. *)
Lemma abs_below_100_quotient (q : Q) (D V : Z) :
  (0 < V)%Z ->
  q == inject_Z D / inject_Z V ->
  (abs_below_100 (Finite q) = true <-> (Z.abs D < 100 * V)%Z).
Proof.
  intros HV Hq. unfold abs_below_100, FloatCast_float.
  assert (HVq : 0 < inject_Z V)
    by (change 0 with (inject_Z 0); rewrite <- Zlt_Qlt; exact HV).
  assert (Habs : Qabs q == inject_Z (Z.abs D) / inject_Z V).
  { rewrite Hq. unfold Qdiv. rewrite Qabs_Qmult.
    rewrite (Qabs_pos (/ inject_Z V)).
    - reflexivity.
    - apply Qinv_le_0_compat. apply Qlt_le_weak. exact HVq. }
  assert (Hiff : 100 <= Qabs q <-> (100 * V <= Z.abs D)%Z).
  { rewrite Habs.
    rewrite <- (Qmult_le_r 100 (inject_Z (Z.abs D) / inject_Z V) (inject_Z V) HVq).
    assert (E : inject_Z (Z.abs D) / inject_Z V * inject_Z V == inject_Z (Z.abs D)).
    { field. intros E0. rewrite E0 in HVq. discriminate. }
    rewrite E. change 100 with (inject_Z 100).
    rewrite <- inject_Z_mult, <- Zle_Qle. reflexivity. }
  destruct (Qle_bool 100 (Qabs q)) eqn:Eb; cbn [negb].
  - apply Qle_bool_iff, Hiff in Eb. split; [discriminate | lia].
  - split; [|reflexivity]. intros _.
    destruct (Z_lt_dec (Z.abs D) (100 * V)) as [Hlt|Hge]; [exact Hlt|].
    exfalso. assert (H100 : 100 <= Qabs q) by (apply Hiff; lia).
    apply Qle_bool_iff in H100. rewrite H100 in Eb. discriminate.
Qed.

(** The tensor that [MSADeletionMeanGenerator._generate] hands to
    [make_feature] on inputs of one shape: where some row is valid the
    quotient of the sum of the valid deletion counts by the number of valid
    rows, and 0 where none is. *)
Lemma deletion_mean_data_spec
    (main_msa_mask : Tensor3 bool) (main_msa_deletion_matrix : Tensor3 Z) :
  same_shape main_msa_mask main_msa_deletion_matrix = true ->
  exists data,
    MSADeletionMeanGenerator._generate main_msa_mask main_msa_deletion_matrix
    = make_feature IDENTITY data
    /\ shape3 data
       = (dim0 main_msa_deletion_matrix, dim2 main_msa_deletion_matrix, 1%nat)
    /\ forall b t,
         (valid_rows main_msa_mask b t <> 0%Z ->
          exists q,
            at3 data b t 0 = Finite q
            /\ q == inject_Z (valid_deletions main_msa_mask
                                main_msa_deletion_matrix b t)
                    / inject_Z (valid_rows main_msa_mask b t))
         /\ (valid_rows main_msa_mask b t = 0%Z ->
             at3 data b t 0 = Finite 0).
Proof.
  intros Hs. unfold MSADeletionMeanGenerator._generate. rewrite Hs.
  destruct (same_shape_dims _ _ Hs) as (H0 & H1 & H2).
  eexists. split; [reflexivity|]. split; [reflexivity|].
  intros b t.
  unfold unsqueeze_last2, masked_mean_dim1; cbn [at3 at2 map3 dim0 dim1 dim2].
  rewrite <- H1. fold (valid_rows main_msa_mask b t). split.
  - intros Hsome.
    destruct (Z.eqb_spec (valid_rows main_msa_mask b t) 0); [contradiction|].
    unfold fdiv.
    assert (Hz : Qeq_bool (inject_Z (valid_rows main_msa_mask b t)) 0 = false).
    { destruct (Qeq_bool _ 0) eqn:Eb; [|reflexivity].
      apply Qeq_bool_iff in Eb. change 0 with (inject_Z 0) in Eb.
      rewrite inject_Z_injective in Eb. contradiction. }
    rewrite Hz. eexists. split; [reflexivity|].
    rewrite masked_sum_inject. unfold valid_deletions. rewrite <- H1. reflexivity.
  - intros Hnone. rewrite Hnone. reflexivity.
Qed.

Lemma deletion_mean_check
    (main_msa_mask : Tensor3 bool) (main_msa_deletion_matrix : Tensor3 Z)
    (x : float) (b t : nat) :
  dim1 main_msa_mask = dim1 main_msa_deletion_matrix ->
  (valid_rows main_msa_mask b t <> 0%Z ->
   exists q,
     x = Finite q
     /\ q == inject_Z (valid_deletions main_msa_mask main_msa_deletion_matrix b t)
             / inject_Z (valid_rows main_msa_mask b t)) ->
  (valid_rows main_msa_mask b t = 0%Z -> x = Finite 0) ->
  (abs_below_100 x = true
   <-> mean_below_100 main_msa_mask main_msa_deletion_matrix b t).
Proof.
  intros Hd Hsome Hnone. unfold mean_below_100.
  pose proof (valid_rows_nonneg main_msa_mask b t) as Hv.
  destruct (Z.eq_dec (valid_rows main_msa_mask b t) 0) as [E|E].
  - rewrite (Hnone E), E, (valid_deletions_none _ _ _ _ Hd E).
    split; [intros _; cbn; lia | intros _; reflexivity].
  - destruct (Hsome E) as (q & -> & Hq).
    rewrite Z.max_r by lia.
    apply abs_below_100_quotient; [lia | exact Hq].
Qed.

(** What [MSADeletionMeanGenerator._generate] does on inputs of one
    shape. *)
Lemma deletion_mean_generate_spec
    (main_msa_mask : Tensor3 bool) (main_msa_deletion_matrix : Tensor3 Z) :
  same_shape main_msa_mask main_msa_deletion_matrix = true ->
  ((dim0 main_msa_deletion_matrix * dim2 main_msa_deletion_matrix = 0)%nat ->
   MSADeletionMeanGenerator._generate main_msa_mask main_msa_deletion_matrix
   = Raise RuntimeError)
  /\ (forall b t,
        (b < dim0 main_msa_deletion_matrix)%nat ->
        (t < dim2 main_msa_deletion_matrix)%nat ->
        ~ mean_below_100 main_msa_mask main_msa_deletion_matrix b t ->
        MSADeletionMeanGenerator._generate main_msa_mask main_msa_deletion_matrix
        = Raise AssertionError)
  /\ ((dim0 main_msa_deletion_matrix * dim2 main_msa_deletion_matrix <> 0)%nat ->
      (forall b t,
         (b < dim0 main_msa_deletion_matrix)%nat ->
         (t < dim2 main_msa_deletion_matrix)%nat ->
         mean_below_100 main_msa_mask main_msa_deletion_matrix b t) ->
      exists out,
        MSADeletionMeanGenerator._generate main_msa_mask main_msa_deletion_matrix
        = Ok out
        /\ shape3 out
           = (dim0 main_msa_deletion_matrix, dim2 main_msa_deletion_matrix, 1%nat)
        /\ forall b t,
             (b < dim0 main_msa_deletion_matrix)%nat ->
             (t < dim2 main_msa_deletion_matrix)%nat ->
             (valid_rows main_msa_mask b t <> 0%Z ->
              exists q,
                at3 out b t 0 = Finite q
                /\ q == inject_Z (valid_deletions main_msa_mask
                                    main_msa_deletion_matrix b t)
                        / inject_Z (valid_rows main_msa_mask b t))
             /\ ((forall d, (d < dim1 main_msa_mask)%nat ->
                    at3 main_msa_mask b d t = false) ->
                 at3 out b t 0 = Finite 0)).
Proof.
  intros Hs.
  destruct (same_shape_dims _ _ Hs) as (H0 & H1 & H2).
  destruct (deletion_mean_data_spec _ _ Hs) as (data & -> & Hsh & Hat).
  assert (Hd : dim0 data = dim0 main_msa_deletion_matrix
               /\ dim1 data = dim2 main_msa_deletion_matrix
               /\ dim2 data = 1%nat).
  { unfold shape3 in Hsh. injection Hsh as -> -> ->. auto. }
  destruct Hd as (D0 & D1 & D2).
  assert (Hnum : numel3 data
                 = (dim0 main_msa_deletion_matrix
                    * dim2 main_msa_deletion_matrix)%nat).
  { unfold numel3. rewrite D0, D1, D2. lia. }
  destruct (make_feature_tensor3 data) as (Hempty & Hfull & Hbig).
  assert (Hchk : forall b t,
            abs_below_100 (at3 data b t 0) = true
            <-> mean_below_100 main_msa_mask main_msa_deletion_matrix b t).
  { intros b t. destruct (Hat b t) as (Hsome & Hnone).
    apply deletion_mean_check; assumption. }
  split; [|split].
  - intros He. apply Hempty. congruence.
  - intros b t Hb Ht Hbad. apply (Hbig b t 0%nat).
    + unfold in_range3. rewrite D0, D1, D2. lia.
    + destruct (abs_below_100 (at3 data b t 0)) eqn:Eb; [|reflexivity].
      exfalso. apply Hbad, Hchk, Eb.
  - intros Hne Hall. rewrite Hfull.
    + exists data. split; [reflexivity|]. split; [exact Hsh|].
      intros b t Hb Ht. destruct (Hat b t) as (Hsome & Hnone).
      split; [exact Hsome|]. intros Hinv. apply Hnone, valid_rows_none, Hinv.
    + congruence.
    + intros i j k (Hi & Hj & Hk).
      assert (k = 0%nat) by lia. subst k.
      apply Hchk, Hall; lia.
Qed.

(** C6, as stated, fails.  One valid row with 255 deletions has the masked
    mean 255; [make_feature] asserts that an IDENTITY feature is below 100,
    so on this input the generator raises and there is no output. *)
Lemma deletion_mean_of_255_raises :
  valid_rows valid_1x1x1 0 0 = 1%Z
  /\ valid_deletions valid_1x1x1 deletions_255 0 0 = 255%Z
  /\ MSADeletionMeanGenerator._generate valid_1x1x1 deletions_255
     = Raise AssertionError
  /\ ~ exists out,
         MSADeletionMeanGenerator._generate valid_1x1x1 deletions_255 = Ok out.
Proof.
  split; [reflexivity|]. split; [reflexivity|].
  assert (H : MSADeletionMeanGenerator._generate valid_1x1x1 deletions_255
              = Raise AssertionError) by (vm_compute; reflexivity).
  split; [exact H|]. intros (out & Ho). rewrite H in Ho. discriminate.
Qed.

(** C6 (amended): on a mask and a deletion matrix of one shape with at
    least one token, and with every masked mean below 100 in absolute value,
    the output of MSADeletionMeanGenerator at each token is the masked mean
    of the deletion counts over the depth axis, the sum of the counts of the
    valid rows divided by the number of valid rows, and where every row is
    invalid it is exactly 0; every entry is a finite number.  Where some
    masked mean is 100 or more the assertion of [make_feature] fails, and
    without tokens its maximum raises: the generator then returns nothing. *)
Theorem deletion_mean_is_masked_mean
    (main_msa_mask : Tensor3 bool) (main_msa_deletion_matrix : Tensor3 Z) :
  same_shape main_msa_mask main_msa_deletion_matrix = true ->
  ((dim0 main_msa_deletion_matrix * dim2 main_msa_deletion_matrix = 0)%nat ->
   MSADeletionMeanGenerator._generate main_msa_mask main_msa_deletion_matrix
   = Raise RuntimeError)
  /\ (forall b t,
        (b < dim0 main_msa_deletion_matrix)%nat ->
        (t < dim2 main_msa_deletion_matrix)%nat ->
        ~ mean_below_100 main_msa_mask main_msa_deletion_matrix b t ->
        MSADeletionMeanGenerator._generate main_msa_mask main_msa_deletion_matrix
        = Raise AssertionError)
  /\ ((dim0 main_msa_deletion_matrix * dim2 main_msa_deletion_matrix <> 0)%nat ->
      (forall b t,
         (b < dim0 main_msa_deletion_matrix)%nat ->
         (t < dim2 main_msa_deletion_matrix)%nat ->
         mean_below_100 main_msa_mask main_msa_deletion_matrix b t) ->
      exists out,
        MSADeletionMeanGenerator._generate main_msa_mask main_msa_deletion_matrix
        = Ok out
        /\ shape3 out
           = (dim0 main_msa_deletion_matrix, dim2 main_msa_deletion_matrix, 1%nat)
        /\ forall b t,
             (b < dim0 main_msa_deletion_matrix)%nat ->
             (t < dim2 main_msa_deletion_matrix)%nat ->
             (valid_rows main_msa_mask b t <> 0%Z ->
              exists q,
                at3 out b t 0 = Finite q
                /\ q == inject_Z (valid_deletions main_msa_mask
                                    main_msa_deletion_matrix b t)
                        / inject_Z (valid_rows main_msa_mask b t))
             /\ ((forall d, (d < dim1 main_msa_mask)%nat ->
                    at3 main_msa_mask b d t = false) ->
                 at3 out b t 0 = Finite 0)).
Proof.
  exact (deletion_mean_generate_spec main_msa_mask main_msa_deletion_matrix).
Qed.

Lemma deletions_1x3x3_means_below_100 (b t : nat) :
  (b < 1)%nat -> (t < 3)%nat -> mean_below_100 mask_1x3x3 tokens_1x3x3 b t.
Proof.
  intros Hb Ht. destruct b as [|b]; [|lia].
  destruct t as [|[|[|t]]]; [| | |lia]; vm_compute; reflexivity.
Defined.

Lemma deletion_mean_is_masked_mean_witness :
  exists out,
    MSADeletionMeanGenerator._generate mask_1x3x3 tokens_1x3x3 = Ok out
    /\ shape3 out = (1%nat, 3%nat, 1%nat)
    /\ forall b t,
         (b < 1)%nat -> (t < 3)%nat ->
         (valid_rows mask_1x3x3 b t <> 0%Z ->
          exists q,
            at3 out b t 0 = Finite q
            /\ q == inject_Z (valid_deletions mask_1x3x3 tokens_1x3x3 b t)
                    / inject_Z (valid_rows mask_1x3x3 b t))
         /\ ((forall d, (d < 3)%nat -> at3 mask_1x3x3 b d t = false) ->
             at3 out b t 0 = Finite 0).
Proof.
  apply (deletion_mean_is_masked_mean mask_1x3x3 tokens_1x3x3).
  - reflexivity.
  - discriminate.
  - exact deletions_1x3x3_means_below_100.
Defined.

(** ** MSADeletionValueGenerator *)

Lemma two_over_PI_pos : (0 < 2 / PI)%R.
Proof. apply Rdiv_lt_0_compat; [lra | apply PI_RGT_0]. Qed.

Lemma scale_0 : MSADeletionValueGenerator.scale 0 = 0%R.
Proof.
  unfold MSADeletionValueGenerator.scale.
  replace (0 / 3)%R with 0%R by lra. rewrite atan_0. ring.
Qed.

Lemma scale_3 : MSADeletionValueGenerator.scale 3 = (1 / 2)%R.
Proof.
  unfold MSADeletionValueGenerator.scale.
  replace (3 / 3)%R with 1%R by lra. rewrite atan_1.
  pose proof PI_RGT_0. field. lra.
Qed.

Lemma scale_increasing (x y : R) :
  (x < y)%R ->
  (MSADeletionValueGenerator.scale x < MSADeletionValueGenerator.scale y)%R.
Proof.
  intros Hxy. unfold MSADeletionValueGenerator.scale.
  apply Rmult_lt_compat_l; [apply two_over_PI_pos|].
  apply atan_increasing. lra.
Qed.

Lemma scale_bounded (d : R) :
  (0 <= d)%R ->
  (0 <= MSADeletionValueGenerator.scale d < 1)%R.
Proof.
  intros Hd. split.
  - rewrite <- scale_0. destruct Hd as [Hd| <-]; [|lra].
    left. apply scale_increasing. exact Hd.
  - unfold MSADeletionValueGenerator.scale.
    destruct (atan_bound (d / 3)) as (_ & Hub).
    pose proof PI_RGT_0 as Hpi.
    apply Rmult_lt_reg_r with (r := (PI / 2)%R); [lra|].
    replace (2 / PI * atan (d / 3) * (PI / 2))%R with (atan (d / 3)) by (field; lra).
    lra.
Qed.

Lemma scale_abs_below_1 (d : R) :
  (Rabs (MSADeletionValueGenerator.scale d) < 1)%R.
Proof.
  unfold MSADeletionValueGenerator.scale.
  destruct (atan_bound (d / 3)) as (Hlb & Hub).
  pose proof PI_RGT_0 as Hpi.
  assert (Hq : (2 / PI * atan (d / 3) = atan (d / 3) / (PI / 2))%R)
    by (field; lra).
  rewrite Hq. apply Rabs_def1.
  - apply Rmult_lt_reg_r with (r := (PI / 2)%R); [lra|].
    replace (atan (d / 3) / (PI / 2) * (PI / 2))%R with (atan (d / 3))
      by (field; lra).
    lra.
  - apply Rmult_lt_reg_r with (r := (PI / 2)%R); [lra|].
    replace (atan (d / 3) / (PI / 2) * (PI / 2))%R with (atan (d / 3))
      by (field; lra).
    lra.
Qed.

(** What [MSADeletionValueGenerator._generate] does: the scaled values are
    below 1, so the check of [make_feature] fails on a matrix without
    elements only. *)
Lemma deletion_value_generate_spec (m : Tensor3 Z) :
  (numel3 m = 0%nat ->
   MSADeletionValueGenerator._generate m = Raise RuntimeError)
  /\ (numel3 m <> 0%nat ->
      exists out,
        MSADeletionValueGenerator._generate m = Ok out
        /\ shape4 out = (dim0 m, dim1 m, dim2 m, 1%nat)
        /\ forall b r t,
             at4 out b r t 0
             = MSADeletionValueGenerator.scale (IZR (at3 m b r t))).
Proof.
  unfold MSADeletionValueGenerator._generate.
  set (d_scaled := map3 (fun a => (2 / PI * a)%R)
                     (map3 atan (map3 (fun x => (x / 3)%R) (map3 IZR m)))).
  destruct (make_feature_unsqueeze d_scaled) as (Hempty & Hfull).
  split.
  - intros H. apply Hempty. exact H.
  - intros H. rewrite Hfull.
    + eexists. split; [reflexivity|]. split; [reflexivity|].
      intros b r t. reflexivity.
    + exact H.
    + intros i j k _. unfold abs_below_100, FloatCast_R.
      change (at3 d_scaled i j k)
        with (MSADeletionValueGenerator.scale (IZR (at3 m i j k))).
      pose proof (scale_abs_below_1 (IZR (at3 m i j k))) as Hs.
      destruct (Rlt_dec _ 100) as [_|Hn]; [reflexivity|].
      exfalso. apply Hn. lra.
Qed.

(** C5: MSADeletionValueGenerator applies scale(d) = (2/pi) * arctan(d/3)
    elementwise to the deletion counts converted to floating point and
    appends a trailing singleton dimension; scale(0) = 0, scale(3) = 0.5,
    scale is strictly increasing, and 0 <= scale(d) < 1 for every
    non-negative d.  (Floating point is idealised as real arithmetic.  On a
    matrix without elements there is nothing to scale, and [make_feature]
    raises.) *)
Theorem deletion_value_is_arctan_scaling :
  (forall (m : Tensor3 Z),
     (numel3 m = 0%nat ->
      MSADeletionValueGenerator._generate m = Raise RuntimeError)
     /\ (numel3 m <> 0%nat ->
         exists out,
           MSADeletionValueGenerator._generate m = Ok out
           /\ shape4 out = (dim0 m, dim1 m, dim2 m, 1%nat)
           /\ forall b r t,
                at4 out b r t 0
                = MSADeletionValueGenerator.scale (IZR (at3 m b r t))))
  /\ (forall d : R, MSADeletionValueGenerator.scale d = (2 / PI * atan (d / 3))%R)
  /\ MSADeletionValueGenerator.scale 0 = 0%R
  /\ MSADeletionValueGenerator.scale 3 = (1 / 2)%R
  /\ (forall x y : R,
        (x < y)%R ->
        (MSADeletionValueGenerator.scale x < MSADeletionValueGenerator.scale y)%R)
  /\ (forall d : R,
        (0 <= d)%R -> (0 <= MSADeletionValueGenerator.scale d < 1)%R).
Proof.
  split; [exact deletion_value_generate_spec|].
  split; [intros d; reflexivity|].
  split; [exact scale_0|].
  split; [exact scale_3|].
  split; [exact scale_increasing | exact scale_bounded].
Qed.

Lemma deletion_value_is_arctan_scaling_witness :
  (exists out,
     MSADeletionValueGenerator._generate deletions_1x2x3 = Ok out
     /\ shape4 out = (1%nat, 2%nat, 3%nat, 1%nat)
     /\ forall b r t,
          at4 out b r t 0
          = MSADeletionValueGenerator.scale (IZR (at3 deletions_1x2x3 b r t)))
  /\ (MSADeletionValueGenerator.scale 1 < MSADeletionValueGenerator.scale 5)%R
  /\ (0 <= MSADeletionValueGenerator.scale 255 < 1)%R.
Proof.
  destruct deletion_value_is_arctan_scaling as (Hgen & _ & _ & _ & Hinc & Hbound).
  split; [apply (Hgen deletions_1x2x3); discriminate|].
  split; [apply Hinc | apply Hbound]; lra.
Defined.

(** *** Numeric values of the scaling *)

(** The arctangent between two consecutive partial sums of its series. *)
Lemma atan_series_bounds (x : R) (N : nat) :
  (0 < x < 1)%R ->
  (sum_f_R0 (tg_alt (Ratan_seq x)) (S (2 * N)) <= atan x
   <= sum_f_R0 (tg_alt (Ratan_seq x)) (2 * N))%R.
Proof.
  intros Hx. rewrite atan_eq_ps_atan by exact Hx.
  unfold ps_atan. destruct (in_int x) as [Hin|Hout].
  - destruct (ps_atan_exists_1 x Hin) as [v Hv].
    apply alternated_series_ineq.
    + apply Ratan_seq_decreasing. lra.
    + apply Ratan_seq_converging. lra.
    + exact Hv.
  - exfalso. apply Hout. lra.
Qed.

Lemma atan_third_bounds : (0.321750 < atan (/ 3) < 0.321752)%R.
Proof.
  pose proof (atan_series_bounds (/ 3) 2 ltac:(lra)) as H.
  unfold sum_f_R0, tg_alt, Ratan_seq in H. simpl in H. lra.
Qed.

Lemma atan_seventh_bounds : (0.141897 < atan (/ 7) < 0.141898)%R.
Proof.
  pose proof (atan_series_bounds (/ 7) 1 ltac:(lra)) as H.
  unfold sum_f_R0, tg_alt, Ratan_seq in H. simpl in H. lra.
Qed.

Lemma atan_quarter_bounds : (0.244978 < atan (/ 4) < 0.244980)%R.
Proof.
  pose proof (atan_series_bounds (/ 4) 2 ltac:(lra)) as H.
  unfold sum_f_R0, tg_alt, Ratan_seq in H. simpl in H. lra.
Qed.

Lemma PI_bounds : (3.14158 < PI < 3.14161)%R.
Proof.
  pose proof Machin_2_3_7 as HM.
  pose proof atan_third_bounds. pose proof atan_seventh_bounds. lra.
Qed.

(** arctan(5/3) = pi/4 + arctan(1/4). *)
Lemma atan_five_thirds : atan (5 / 3) = (PI / 4 + atan (/ 4))%R.
Proof.
  rewrite <- atan_1.
  replace (/ 4)%R with (atan_sub (5 / 3) 1) by (unfold atan_sub; field).
  apply atan_sub_correct.
  - lra.
  - pose proof (atan_increasing 1 (5 / 3) ltac:(lra)) as Hinc.
    destruct (atan_bound (5 / 3)) as (_ & Hub).
    rewrite atan_1 in *. pose proof PI_RGT_0. lra.
  - apply atan_bound.
Qed.

Lemma div_between (a p lo hi : R) :
  (0 < p)%R -> (lo * p < a)%R -> (a < hi * p)%R -> (lo < a / p < hi)%R.
Proof.
  intros Hp Hlo Hhi.
  assert (Ha : (a / p * p = a)%R) by (field; lra).
  split; apply Rmult_lt_reg_r with (r := p); try assumption; rewrite Ha; assumption.
Qed.

Lemma scale_1_bounds :
  (0.20482 < MSADeletionValueGenerator.scale 1 < 0.20484)%R.
Proof.
  unfold MSADeletionValueGenerator.scale.
  replace (1 / 3)%R with (/ 3)%R by lra.
  pose proof atan_third_bounds as HA. pose proof PI_bounds as HP.
  assert (Hq : (2 / PI * atan (/ 3) = 2 * atan (/ 3) / PI)%R) by (field; lra).
  rewrite Hq. apply div_between; lra.
Qed.

Lemma scale_5_bounds :
  (0.65595 < MSADeletionValueGenerator.scale 5 < 0.65597)%R.
Proof.
  unfold MSADeletionValueGenerator.scale. rewrite atan_five_thirds.
  pose proof atan_quarter_bounds as HC. pose proof PI_bounds as HP.
  assert (Hq : (2 / PI * (PI / 4 + atan (/ 4)) = (PI / 2 + 2 * atan (/ 4)) / PI)%R)
    by (field; lra).
  rewrite Hq. apply div_between; lra.
Qed.

(** ** MSAHasDeletionGenerator and the end-to-end scenario *)

(** What [MSAHasDeletionGenerator._generate] does: a 0/1 feature passes the
    check of [make_feature] unless it has no element. *)
Lemma has_deletion_generate_spec (m : Tensor3 Z) :
  (numel3 m = 0%nat ->
   MSAHasDeletionGenerator._generate m = Raise RuntimeError)
  /\ (numel3 m <> 0%nat ->
      exists out,
        MSAHasDeletionGenerator._generate m = Ok out
        /\ shape4 out = (dim0 m, dim1 m, dim2 m, 1%nat)
        /\ forall b r t, at4 out b r t 0 = (at3 m b r t >? 0)%Z).
Proof.
  unfold MSAHasDeletionGenerator._generate.
  set (has_deletion := map3 (fun d => (d >? 0)%Z) m).
  destruct (make_feature_unsqueeze has_deletion) as (Hempty & Hfull).
  split.
  - intros H. apply Hempty. exact H.
  - intros H. rewrite Hfull.
    + eexists. split; [reflexivity|]. split; [reflexivity|].
      intros b r t. reflexivity.
    + exact H.
    + intros i j k _. unfold abs_below_100, FloatCast_bool.
      destruct (at3 has_deletion i j k); reflexivity.
Qed.

(** C7, as stated, fails in its numbers.  On the deletion matrix
    [[1, 0, 5], [0, 0, 0]] the scaled feature of row 0 is not approximately
    [0.1949, 0, 0.5206]: its first entry exceeds 0.1949 by more than 0.0099
    and its third entry exceeds 0.5206 by more than 0.135. *)
Lemma scaled_row_is_not_0_1949_0_5206 :
  exists scaled,
    MSADeletionValueGenerator._generate deletions_1x2x3 = Ok scaled
    /\ (at4 scaled 0 0 0 0 - 0.1949 > 0.0099)%R
    /\ (at4 scaled 0 0 2 0 - 0.5206 > 0.135)%R.
Proof.
  destruct (proj2 (deletion_value_generate_spec deletions_1x2x3))
    as (scaled & Ho & _ & Hat); [discriminate|].
  exists scaled. split; [exact Ho|]. rewrite !Hat.
  change (IZR (at3 deletions_1x2x3 0 0 0)) with 1%R.
  change (IZR (at3 deletions_1x2x3 0 0 2)) with 5%R.
  pose proof scale_1_bounds. pose proof scale_5_bounds. lra.
Qed.

(** C7 (amended): the output of MSAHasDeletionGenerator is elementwise
    (count > 0) with a trailing singleton dimension; on the batch-1, depth-2,
    tokens-3 input [[1, 0, 5], [0, 0, 0]] the has-deletion feature is
    [[T, F, T], [F, F, F]] and row 0 of the scaled deletion-value feature is
    approximately [0.2048, 0, 0.6560] (each within 0.0001, the middle entry
    exactly 0).  (On a grid without elements [make_feature] raises.) *)
Theorem has_deletion_is_count_positive :
  (forall m : Tensor3 Z,
     (numel3 m = 0%nat ->
      MSAHasDeletionGenerator._generate m = Raise RuntimeError)
     /\ (numel3 m <> 0%nat ->
         exists out,
           MSAHasDeletionGenerator._generate m = Ok out
           /\ shape4 out = (dim0 m, dim1 m, dim2 m, 1%nat)
           /\ forall b r t, at4 out b r t 0 = (at3 m b r t >? 0)%Z))
  /\ (exists has_deletion,
        MSAHasDeletionGenerator._generate deletions_1x2x3 = Ok has_deletion
        /\ to_list4 has_deletion
           = [[[[true]; [false]; [true]]; [[false]; [false]; [false]]]])
  /\ (exists scaled,
        MSADeletionValueGenerator._generate deletions_1x2x3 = Ok scaled
        /\ (Rabs (at4 scaled 0 0 0 0 - 0.2048) < 0.0001)%R
        /\ at4 scaled 0 0 1 0 = 0%R
        /\ (Rabs (at4 scaled 0 0 2 0 - 0.6560) < 0.0001)%R).
Proof.
  split; [exact has_deletion_generate_spec|].
  split; [eexists; split; reflexivity|].
  destruct (proj2 (deletion_value_generate_spec deletions_1x2x3))
    as (scaled & Ho & _ & Hat); [discriminate|].
  exists scaled. split; [exact Ho|]. rewrite !Hat.
  change (IZR (at3 deletions_1x2x3 0 0 0)) with 1%R.
  change (IZR (at3 deletions_1x2x3 0 0 1)) with 0%R.
  change (IZR (at3 deletions_1x2x3 0 0 2)) with 5%R.
  pose proof scale_1_bounds. pose proof scale_5_bounds.
  split; [apply Rabs_def1; lra|].
  split; [exact scale_0|].
  apply Rabs_def1; lra.
Qed.

Lemma has_deletion_is_count_positive_witness :
  exists out,
    MSAHasDeletionGenerator._generate deletions_1x2x3 = Ok out
    /\ shape4 out = (1%nat, 2%nat, 3%nat, 1%nat)
    /\ forall b r t, at4 out b r t 0 = (at3 deletions_1x2x3 b r t >? 0)%Z.
Proof.
  destruct has_deletion_is_count_positive as (Hgen & _ & _).
  apply (Hgen deletions_1x2x3). discriminate.
Defined.

(** ** Output shapes *)

Lemma tokens_1x3x3_in_vocabulary : entries_in tokens_1x3x3 0 (Z.of_nat 3).
Proof.
  intros b d t (Hb & Hd & Ht). cbn in Hb, Hd, Ht.
  destruct b as [|b]; [|lia].
  destruct d as [|[|[|d]]]; [| | |lia];
    (destruct t as [|[|[|t]]]; [| | |lia]); cbn; lia.
Defined.

(** C9: on valid inputs every generator keeps the leading dimensions of its
    inputs.  The MSA-level generators return [batch, depth, tokens, 1]; the
    TOKEN-level generators (profile, deletion mean) drop the depth axis only
    and return [batch, tokens, channels].  An input is valid when the
    generator returns on it: its tensors have one shape and at least one
    element, the profile's tokens are inside the vocabulary, the deletion
    means are below 100, and [num_classes] of the data source fits uint8. *)
Theorem outputs_keep_leading_dimensions :
  (forall msa_tokens : Tensor3 Z,
     exists out,
       MSAFeatureGenerator._generate msa_tokens = Ok out
       /\ shape4 out
          = (dim0 msa_tokens, dim1 msa_tokens, dim2 msa_tokens, 1%nat))
  /\ (forall m : Tensor3 Z,
        numel3 m <> 0%nat ->
        exists out,
          MSAHasDeletionGenerator._generate m = Ok out
          /\ shape4 out = (dim0 m, dim1 m, dim2 m, 1%nat))
  /\ (forall m : Tensor3 Z,
        numel3 m <> 0%nat ->
        exists out,
          MSADeletionValueGenerator._generate m = Ok out
          /\ shape4 out = (dim0 m, dim1 m, dim2 m, 1%nat))
  /\ (forall (n : nat) (tokens : Tensor3 Z) (mask : Tensor3 bool),
        same_shape tokens mask = true ->
        (forall b d t, in_range3 tokens b d t ->
           (0 <= at3 tokens b d t < Z.of_nat n)%Z) ->
        (dim0 tokens * dim2 tokens * n <> 0)%nat ->
        exists out,
          MSAProfileGenerator._generate n tokens mask = Ok out
          /\ shape3 out = (dim0 tokens, dim2 tokens, n))
  /\ (forall (mask : Tensor3 bool) (m : Tensor3 Z),
        same_shape mask m = true ->
        (dim0 m * dim2 m <> 0)%nat ->
        (forall b t, (b < dim0 m)%nat -> (t < dim2 m)%nat ->
           mean_below_100 mask m b t) ->
        exists out,
          MSADeletionMeanGenerator._generate mask m = Ok out
          /\ shape3 out = (dim0 m, dim2 m, 1%nat))
  /\ (forall (unknown : Z) (mask : Tensor3 bool) (species : Tensor3 Z),
        same_shape mask species = true ->
        numel3 species <> 0%nat ->
        exists out,
          IsPairedMSAGenerator._generate unknown mask species = Ok out
          /\ shape4 out = (dim0 species, dim1 species, dim2 species, 1%nat))
  /\ (forall (self : FeatureGenerator) (mask : Tensor3 bool) (source : Tensor3 Z),
        (0 <= num_classes self <= 255)%Z ->
        same_shape mask source = true ->
        exists out,
          MSADataSourceGenerator._generate self mask source = Ok out
          /\ shape4 out = (dim0 source, dim1 source, dim2 source, 1%nat)).
Proof.
  split; [intros msa_tokens; eexists; split; reflexivity|].
  split.
  { intros m Hne.
    destruct (proj2 (has_deletion_generate_spec m) Hne) as (out & Ho & Hsh & _).
    exists out. split; assumption. }
  split.
  { intros m Hne.
    destruct (proj2 (deletion_value_generate_spec m) Hne) as (out & Ho & Hsh & _).
    exists out. split; assumption. }
  split.
  { intros n tokens mask Hs Hrange Hne.
    destruct (profile_generate_spec n tokens mask Hs Hrange Hne)
      as (out & Ho & Hsh & _).
    exists out. split; assumption. }
  split.
  { intros mask m Hs Hne Hall.
    destruct (proj2 (proj2 (deletion_mean_generate_spec mask m Hs)) Hne Hall)
      as (out & Ho & Hsh & _).
    exists out. split; assumption. }
  split.
  { intros unknown mask species Hs Hne.
    destruct (proj2 (is_paired_generate_spec unknown mask species Hs) Hne)
      as (out & Ho & Hsh & _).
    exists out. split; assumption. }
  intros self mask source Hn Hs.
  destruct (data_source_generate_spec self mask source Hn Hs) as (out & Ho & Hsh & _).
  exists out. split; assumption.
Qed.

Lemma outputs_keep_leading_dimensions_witness :
  (exists out,
     MSAHasDeletionGenerator._generate deletions_1x2x3 = Ok out
     /\ shape4 out = (1%nat, 2%nat, 3%nat, 1%nat))
  /\ (exists out,
        MSAProfileGenerator._generate 3 tokens_1x3x3 mask_1x3x3 = Ok out
        /\ shape3 out = (1%nat, 3%nat, 3%nat))
  /\ (exists out,
        MSADeletionMeanGenerator._generate mask_1x3x3 tokens_1x3x3 = Ok out
        /\ shape3 out = (1%nat, 3%nat, 1%nat))
  /\ (exists out,
        IsPairedMSAGenerator._generate 0%Z all_valid_1x2x2 species_1x2x2 = Ok out
        /\ shape4 out = (1%nat, 2%nat, 2%nat, 1%nat))
  /\ (exists out,
        MSADataSourceGenerator._generate data_source_5 invalid_1x1x1 source_1x1x1
        = Ok out
        /\ shape4 out = (1%nat, 1%nat, 1%nat, 1%nat)).
Proof.
  destruct outputs_keep_leading_dimensions
    as (_ & Hdel & _ & Hprofile & Hmean & Hpaired & Hsource).
  split; [apply (Hdel deletions_1x2x3); discriminate|].
  split.
  { apply (Hprofile 3%nat tokens_1x3x3 mask_1x3x3);
      [reflexivity | exact tokens_1x3x3_in_vocabulary | discriminate]. }
  split.
  { apply (Hmean mask_1x3x3 tokens_1x3x3);
      [reflexivity | discriminate | exact deletions_1x3x3_means_below_100]. }
  split.
  { apply (Hpaired 0%Z all_valid_1x2x2 species_1x2x2);
      [reflexivity | discriminate]. }
  apply (Hsource data_source_5 invalid_1x1x1 source_1x1x1); [cbn; lia | reflexivity].
Defined.

(** * Further properties *)

(** ** Reading the batch *)

Section ReadingTheBatch.
Import String.
Import Batch.

Lemma getitem_setitem_same {V} (d : Batch.dict V) (k : String.string) (v : V) :
  Batch.getitem (Batch.setitem d k v) k = Batch.Found v.
Proof.
  induction d as [|[k' v'] d IH]; cbn [Batch.setitem Batch.getitem].
  - rewrite String.eqb_refl. reflexivity.
  - destruct (String.eqb k' k) eqn:E; cbn [Batch.getitem].
    + rewrite String.eqb_refl. reflexivity.
    + rewrite E. exact IH.
Qed.

Lemma getitem_setitem_other {V} (d : Batch.dict V) (k k' : String.string) (v : V) :
  k <> k' ->
  Batch.getitem (Batch.setitem d k v) k' = Batch.getitem d k'.
Proof.
  intros Hne. induction d as [|[k0 v0] d IH]; cbn [Batch.setitem Batch.getitem].
  - destruct (String.eqb_spec k k'); [contradiction | reflexivity].
  - destruct (String.eqb_spec k0 k) as [->|Hk]; cbn [Batch.getitem].
    + destruct (String.eqb_spec k k'); [contradiction | reflexivity].
    + rewrite IH. reflexivity.
Qed.

Ltac unfold_get_input_kwargs :=
  cbn [get_input_kwargs_from_batch fields];
  unfold MSAFeatureGeneratorInputs.get_input_kwargs_from_batch,
    MSAHasDeletionGeneratorInputs.get_input_kwargs_from_batch,
    MSADeletionValueGeneratorInputs.get_input_kwargs_from_batch,
    MSAProfileGeneratorInputs.get_input_kwargs_from_batch,
    MSADeletionMeanGeneratorInputs.get_input_kwargs_from_batch,
    IsPairedMSAGeneratorInputs.get_input_kwargs_from_batch,
    MSADataSourceGeneratorInputs.get_input_kwargs_from_batch.

(** Without [batch["inputs"]] every class raises [KeyError: 'inputs']. *)
Lemma get_input_kwargs_no_inputs (cls : generator_class) (b : batch) (k : string) :
  getitem b "inputs" = KeyError k ->
  get_input_kwargs_from_batch cls b = KeyError "inputs".
Proof.
  intros Hb.
  assert (Hk : k = "inputs"%string).
  { clear cls. induction b as [|[k' v] b IH]; cbn [getitem] in Hb.
    - injection Hb as <-. reflexivity.
    - destruct (k' =? "inputs")%string; [discriminate | exact (IH Hb)]. }
  subst k. destruct cls; unfold_get_input_kwargs; rewrite Hb; reflexivity.
Qed.

(** With [batch["inputs"]], the first field that is missing is the key of
    the [KeyError]. *)
Lemma get_input_kwargs_missing_field
    (cls : generator_class) (b : batch) (inputs : dict value) (f : string) :
  getitem b "inputs" = Found inputs ->
  first_missing inputs (fields cls) = Some f ->
  get_input_kwargs_from_batch cls b = KeyError f.
Proof.
  intros Hb Hmiss.
  assert (Hkey : forall k k', getitem inputs k = KeyError k' -> k' = k).
  { clear. induction inputs as [|[k0 v] d IH]; intros k k' H; cbn [getitem] in H.
    - injection H as <-. reflexivity.
    - destruct (k0 =? k)%string; [discriminate | exact (IH _ _ H)]. }
  destruct cls; unfold_get_input_kwargs; rewrite Hb; cbn [and_then];
    unfold first_missing, has_key in Hmiss; cbn [fields find] in Hmiss;
    repeat match type of Hmiss with
      | context [getitem inputs ?k] =>
          let E := fresh "E" in
          destruct (getitem inputs k) as [?|?] eqn:E; cbn [negb] in Hmiss;
          [|apply Hkey in E; subst]
      end;
    cbn [and_then]; try rewrite Hb; cbn [and_then];
    first [discriminate | injection Hmiss as <-; reflexivity].
Qed.

(** With every field present the call succeeds: the keyword names are those
    of the fields, and each is bound to the tensor of [batch["inputs"]]. *)
Lemma get_input_kwargs_all_present
    (cls : generator_class) (b : batch) (inputs : dict value) :
  getitem b "inputs" = Found inputs ->
  first_missing inputs (fields cls) = None ->
  exists kwargs,
    get_input_kwargs_from_batch cls b = Found kwargs
    /\ map fst kwargs = fields cls
    /\ forall f, In f (fields cls) -> getitem kwargs f = getitem inputs f.
Proof.
  intros Hb Hmiss.
  destruct cls; unfold_get_input_kwargs; rewrite Hb; cbn [and_then];
    unfold first_missing, has_key in Hmiss; cbn [fields find] in Hmiss;
    repeat match type of Hmiss with
      | context [getitem inputs ?k] =>
          let E := fresh "E" in
          destruct (getitem inputs k) as [?|?] eqn:E; cbn [negb] in Hmiss;
          [|discriminate]
      end;
    cbn [and_then]; try rewrite Hb; cbn [and_then];
    eexists; (split; [reflexivity|]); (split; [reflexivity|]);
    cbn [In]; intros f Hf;
    repeat (destruct Hf as [<-|Hf]; [cbn; congruence|]); destruct Hf.
Qed.
Lemma first_missing_none {V} (d : dict V) (fs : list string) :
  first_missing d fs = None <-> forall f, In f fs -> has_key d f = true.
Proof.
  unfold first_missing. split.
  - intros H f Hf. pose proof (find_none _ _ H f Hf) as Hn.
    cbv beta in Hn. destruct (has_key d f); [reflexivity | discriminate].
  - intros H. destruct (find _ fs) as [f|] eqn:E; [|reflexivity].
    apply find_some in E. destruct E as (Hin & Hf).
    rewrite (H f Hin) in Hf. discriminate.
Qed.

(** X1: [get_input_kwargs_from_batch] of a class succeeds exactly when the
    batch has the entry "inputs" and that entry has every field the class
    reads. *)
Theorem get_input_kwargs_succeeds_iff_fields_present
    (cls : generator_class) (b : batch) :
  (exists kwargs, get_input_kwargs_from_batch cls b = Found kwargs)
  <-> (exists inputs,
         getitem b "inputs" = Found inputs
         /\ forall f, In f (fields cls) -> has_key inputs f = true).
Proof.
  split.
  - intros (kwargs & Hk).
    destruct (getitem b "inputs") as [inputs|k] eqn:Hb.
    + exists inputs. split; [reflexivity|]. apply first_missing_none.
      destruct (first_missing inputs (fields cls)) as [f|] eqn:Hm; [|reflexivity].
      rewrite (get_input_kwargs_missing_field cls b inputs f Hb Hm) in Hk.
      discriminate.
    + rewrite (get_input_kwargs_no_inputs cls b k Hb) in Hk. discriminate.
  - intros (inputs & Hb & Hall). apply first_missing_none in Hall.
    destruct (get_input_kwargs_all_present cls b inputs Hb Hall) as (kw & Hk & _).
    exists kw. exact Hk.
Qed.

(** X2: when a field is missing, [get_input_kwargs_from_batch] raises a
    KeyError whose key is "inputs" if the batch has no such entry, and
    otherwise the first field, in reading order, that the inputs lack. *)
Theorem get_input_kwargs_key_error_names_first_missing
    (cls : generator_class) (b : batch) (key : string) :
  get_input_kwargs_from_batch cls b = KeyError key ->
  (has_key b "inputs" = false /\ key = "inputs"%string)
  \/ (exists inputs,
        getitem b "inputs" = Found inputs
        /\ first_missing inputs (fields cls) = Some key
        /\ In key (fields cls)
        /\ has_key inputs key = false).
Proof.
  intros Hk. destruct (getitem b "inputs") as [inputs|k] eqn:Hb.
  - right. exists inputs. split; [reflexivity|].
    destruct (first_missing inputs (fields cls)) as [f|] eqn:Hm.
    + rewrite (get_input_kwargs_missing_field cls b inputs f Hb Hm) in Hk.
      injection Hk as <-. split; [reflexivity|].
      unfold first_missing in Hm. apply find_some in Hm.
      destruct Hm as (Hin & Hf). split; [exact Hin|].
      destruct (has_key inputs f); [discriminate | reflexivity].
    + destruct (get_input_kwargs_all_present cls b inputs Hb Hm) as (kw & Hk' & _).
      rewrite Hk' in Hk. discriminate.
  - left. rewrite (get_input_kwargs_no_inputs cls b k Hb) in Hk.
    injection Hk as <-. unfold has_key. rewrite Hb. split; reflexivity.
Qed.

Lemma get_input_kwargs_key_error_names_first_missing_witness :
  (has_key paired_batch "inputs" = false /\ "main_msa_tokens"%string = "inputs"%string)
  \/ (exists inputs,
        getitem paired_batch "inputs" = Found inputs
        /\ first_missing inputs (fields ClsMSAProfile) = Some "main_msa_tokens"%string
        /\ In "main_msa_tokens"%string (fields ClsMSAProfile)
        /\ has_key inputs "main_msa_tokens" = false).
Proof.
  apply (get_input_kwargs_key_error_names_first_missing ClsMSAProfile paired_batch).
  reflexivity.
Defined.

(** X3: when [get_input_kwargs_from_batch] succeeds, the keyword names it
    returns are exactly the fields the class reads, in order, and each is
    bound to the tensor that [batch["inputs"]] holds under that name. *)
Theorem get_input_kwargs_binds_batch_fields
    (cls : generator_class) (b : batch) (kwargs : dict value) :
  get_input_kwargs_from_batch cls b = Found kwargs ->
  exists inputs,
    getitem b "inputs" = Found inputs
    /\ map fst kwargs = fields cls
    /\ forall f, In f (fields cls) -> getitem kwargs f = getitem inputs f.
Proof.
  intros Hk. destruct (getitem b "inputs") as [inputs|k] eqn:Hb.
  - exists inputs. split; [reflexivity|].
    destruct (first_missing inputs (fields cls)) as [f|] eqn:Hm.
    + rewrite (get_input_kwargs_missing_field cls b inputs f Hb Hm) in Hk.
      discriminate.
    + destruct (get_input_kwargs_all_present cls b inputs Hb Hm)
        as (kw & Hk' & Hnames & Hvals).
      rewrite Hk' in Hk. injection Hk as <-. split; assumption.
  - rewrite (get_input_kwargs_no_inputs cls b k Hb) in Hk. discriminate.
Qed.

Lemma get_input_kwargs_binds_batch_fields_witness :
  exists inputs,
    getitem paired_batch "inputs" = Found inputs
    /\ map fst [("msa_mask", BoolTensor all_valid_1x2x2);
                ("msa_species", IntTensor species_1x2x2)]%string
       = fields ClsIsPairedMSA
    /\ forall f, In f (fields ClsIsPairedMSA) ->
         getitem [("msa_mask", BoolTensor all_valid_1x2x2);
                  ("msa_species", IntTensor species_1x2x2)]%string f
         = getitem inputs f.
Proof.
  apply (get_input_kwargs_binds_batch_fields ClsIsPairedMSA paired_batch).
  reflexivity.
Defined.

(** X4: a class reads nothing but its own fields: setting any other field of
    [batch["inputs"]], or any other entry of the batch, leaves the result of
    [get_input_kwargs_from_batch] unchanged. *)
Theorem get_input_kwargs_ignores_other_entries
    (cls : generator_class) (b : batch) (inputs : dict value) :
  getitem b "inputs" = Found inputs ->
  (forall k v, ~ In k (fields cls) ->
     get_input_kwargs_from_batch cls (setitem b "inputs" (setitem inputs k v))
     = get_input_kwargs_from_batch cls b)
  /\ (forall k d, k <> "inputs"%string ->
        get_input_kwargs_from_batch cls (setitem b k d)
        = get_input_kwargs_from_batch cls b).
Proof.
  intros Hb. split.
  - intros k v Hk.
    destruct cls; unfold_get_input_kwargs;
      rewrite !getitem_setitem_same, Hb; cbn [and_then];
      rewrite !getitem_setitem_other
        by (intros ->; apply Hk; cbn [fields In]; tauto);
      reflexivity.
  - intros k d Hk.
    destruct cls; unfold_get_input_kwargs;
      rewrite !getitem_setitem_other by exact Hk; reflexivity.
Qed.

Lemma get_input_kwargs_ignores_other_entries_witness :
  (forall k v, ~ In k (fields ClsIsPairedMSA) ->
     get_input_kwargs_from_batch ClsIsPairedMSA
       (setitem paired_batch "inputs" (setitem paired_inputs k v))
     = get_input_kwargs_from_batch ClsIsPairedMSA paired_batch)
  /\ (forall k d, k <> "inputs"%string ->
        get_input_kwargs_from_batch ClsIsPairedMSA (setitem paired_batch k d)
        = get_input_kwargs_from_batch ClsIsPairedMSA paired_batch).
Proof.
  apply (get_input_kwargs_ignores_other_entries ClsIsPairedMSA paired_batch
           paired_inputs).
  reflexivity.
Defined.

End ReadingTheBatch.

(** ** More on IsPairedMSAGenerator *)

(** X5: on inputs of one shape the paired-MSA feature is 0 or 1 everywhere,
    it is 0 wherever the position is masked out or the species is UNKNOWN,
    and at token 0 of a row it is 1 exactly when that position is valid and
    its species is not UNKNOWN, whatever the other rows hold.  (A grid
    without elements has no position, and the generator raises on it.) *)
Theorem is_paired_is_binary_and_marks_first_token
    (unknown : Z) (msa_mask : Tensor3 bool) (msa_species : Tensor3 Z) :
  same_shape msa_mask msa_species = true ->
  (numel3 msa_species = 0%nat ->
   IsPairedMSAGenerator._generate unknown msa_mask msa_species
   = Raise RuntimeError)
  /\ (numel3 msa_species <> 0%nat ->
      exists out,
        IsPairedMSAGenerator._generate unknown msa_mask msa_species = Ok out
        /\ forall b r t, in_range3 msa_species b r t ->
             (at4 out b r t 0 = 0%Z \/ at4 out b r t 0 = 1%Z)
             /\ (at3 msa_mask b r t = false \/ at3 msa_species b r t = unknown ->
                 at4 out b r t 0 = 0%Z)
             /\ (at4 out b r 0 0 = 1%Z
                 <-> at3 msa_mask b r 0 = true
                     /\ at3 msa_species b r 0 <> unknown)).
Proof.
  intros Hs.
  destruct (is_paired_generate_spec unknown msa_mask msa_species Hs)
    as (Hempty & Hfull).
  split; [exact Hempty|]. intros Hnonempty.
  destruct (Hfull Hnonempty) as (out & Ho & _ & Hat).
  exists out. split; [exact Ho|]. intros b r t Hr.
  assert (Hr0 : in_range3 msa_species b r 0)
    by (unfold in_range3 in *; lia).
  rewrite (Hat b r t Hr), (Hat b r 0%nat Hr0). unfold paired_with_first_token.
  rewrite Z.eqb_refl. cbn [andb]. split; [|split].
  - destruct (_ && _ && _); cbn; auto.
  - intros [Hm| ->].
    + rewrite Hm, andb_false_r. reflexivity.
    + rewrite Z.eqb_refl, andb_false_r. reflexivity.
  - destruct (at3 msa_mask b r 0); cbn [andb bool_to_u8].
    + destruct (Z.eqb_spec (at3 msa_species b r 0) unknown); cbn [negb]; split.
      * discriminate.
      * intros (_ & Hne). contradiction.
      * intros _. split; [reflexivity | assumption].
      * reflexivity.
    + split; [discriminate | intros (Hf & _); discriminate].
Qed.

Lemma is_paired_is_binary_and_marks_first_token_witness :
  exists out,
    IsPairedMSAGenerator._generate 0%Z all_valid_1x2x2 species_1x2x2 = Ok out
    /\ forall b r t, in_range3 species_1x2x2 b r t ->
         (at4 out b r t 0 = 0%Z \/ at4 out b r t 0 = 1%Z)
         /\ (at3 all_valid_1x2x2 b r t = false \/ at3 species_1x2x2 b r t = 0%Z ->
             at4 out b r t 0 = 0%Z)
         /\ (at4 out b r 0 0 = 1%Z
             <-> at3 all_valid_1x2x2 b r 0 = true
                 /\ at3 species_1x2x2 b r 0 <> 0%Z).
Proof.
  apply (is_paired_is_binary_and_marks_first_token 0%Z all_valid_1x2x2
           species_1x2x2).
  - reflexivity.
  - discriminate.
Defined.

(** X6: the paired-MSA feature depends on the species identifiers only
    through their equalities: renaming the identifiers (and the UNKNOWN
    sentinel with them) by an injective function gives the same feature. *)
Theorem is_paired_invariant_under_renaming
    (f : Z -> Z) (unknown : Z) (msa_mask : Tensor3 bool) (msa_species : Tensor3 Z) :
  (forall x y, f x = f y -> x = y) ->
  same_shape msa_mask msa_species = true ->
  (numel3 msa_species = 0%nat ->
   IsPairedMSAGenerator._generate unknown msa_mask msa_species
   = Raise RuntimeError
   /\ IsPairedMSAGenerator._generate (f unknown) msa_mask (map3 f msa_species)
      = Raise RuntimeError)
  /\ (numel3 msa_species <> 0%nat ->
      exists out out',
        IsPairedMSAGenerator._generate unknown msa_mask msa_species = Ok out
        /\ IsPairedMSAGenerator._generate (f unknown) msa_mask
             (map3 f msa_species) = Ok out'
        /\ shape4 out' = shape4 out
        /\ forall b r t, in_range3 msa_species b r t ->
             at4 out' b r t 0 = at4 out b r t 0).
Proof.
  intros Hinj Hs.
  destruct (is_paired_generate_spec unknown msa_mask msa_species Hs)
    as (Hempty & Hfull).
  destruct (is_paired_generate_spec (f unknown) msa_mask (map3 f msa_species) Hs)
    as (Hempty' & Hfull').
  split; [intros He; split; [apply Hempty | apply Hempty']; exact He|].
  intros Hnonempty.
  destruct (Hfull Hnonempty) as (out & Ho & Hsh & Hat).
  destruct (Hfull' Hnonempty) as (out' & Ho' & Hsh' & Hat').
  exists out, out'. split; [exact Ho|]. split; [exact Ho'|]. split.
  - rewrite Hsh, Hsh'. reflexivity.
  - intros b r t Hr. rewrite (Hat b r t Hr), (Hat' b r t Hr).
    unfold paired_with_first_token. cbn [map3 at3].
    assert (Heq : forall x y, (f x =? f y)%Z = (x =? y)%Z).
    { intros x y. destruct (Z.eqb_spec x y) as [->|Hne].
      - apply Z.eqb_refl.
      - apply Z.eqb_neq. intros E. apply Hne, Hinj, E. }
    rewrite !Heq. reflexivity.
Qed.

Lemma is_paired_invariant_under_renaming_witness :
  exists out out',
    IsPairedMSAGenerator._generate 0%Z all_valid_1x2x2 species_1x2x2 = Ok out
    /\ IsPairedMSAGenerator._generate (Z.succ 0) all_valid_1x2x2
         (map3 Z.succ species_1x2x2) = Ok out'
    /\ shape4 out' = shape4 out
    /\ forall b r t, in_range3 species_1x2x2 b r t ->
         at4 out' b r t 0 = at4 out b r t 0.
Proof.
  apply (is_paired_invariant_under_renaming Z.succ 0%Z all_valid_1x2x2
           species_1x2x2).
  - intros x y H. lia.
  - reflexivity.
  - discriminate.
Defined.

(** ** More on MSADataSourceGenerator *)

Lemma data_source_init_inv (Source : Type) (d : list (Source * Z))
    (n : Z) (self : FeatureGenerator) :
  MSADataSourceGenerator.__init__ Source d n = Ok self ->
  is_max (map snd d) (n - 1)
  /\ self = mkFeatureGenerator MSA ONE_HOT true n (Some 1%Z).
Proof.
  unfold MSADataSourceGenerator.__init__, MSADataSourceGenerator.py_max.
  destruct (map snd d) as [|x xs] eqn:E; cbn [bind]; [discriminate|].
  destruct (Z.eqb_spec n (fold_left Z.max xs x + 1)) as [->|]; [|discriminate].
  intros H. injection H as <-. split; [|reflexivity].
  replace (fold_left Z.max xs x + 1 - 1)%Z with (fold_left Z.max xs x) by lia.
  apply fold_left_max_spec.
Qed.

(** X7: construction pins [num_classes] down.  When
    MSADataSourceGenerator is constructed, [num_classes - 1] is one of the
    source codes of [msa_dataset_source_to_int], every source code is below
    [num_classes], and no other value of [num_classes] constructs a generator
    for the same dict. *)
Theorem data_source_init_accepts_one_num_classes
    (Source : Type) (msa_dataset_source_to_int : list (Source * Z))
    (n : Z) (self : FeatureGenerator) :
  MSADataSourceGenerator.__init__ Source msa_dataset_source_to_int n = Ok self ->
  num_classes self = n
  /\ In (n - 1)%Z (map snd msa_dataset_source_to_int)
  /\ (forall code, In code (map snd msa_dataset_source_to_int) -> (code < n)%Z)
  /\ (forall n' self',
        MSADataSourceGenerator.__init__ Source msa_dataset_source_to_int n'
        = Ok self' -> n' = n).
Proof.
  intros H. destruct (data_source_init_inv _ _ _ _ H) as ((Hin & Hub) & ->).
  split; [reflexivity|]. split; [exact Hin|]. split.
  - intros code Hc. specialize (Hub code Hc). lia.
  - intros n' self' H'.
    destruct (data_source_init_inv _ _ _ _ H') as (Hmax' & _).
    pose proof (is_max_unique _ _ _ Hmax' (conj Hin Hub)). lia.
Qed.

Lemma data_source_init_accepts_one_num_classes_witness :
  num_classes data_source_5 = 5%Z
  /\ In (5 - 1)%Z (map snd five_sources)
  /\ (forall code, In code (map snd five_sources) -> (code < 5)%Z)
  /\ (forall n' self',
        MSADataSourceGenerator.__init__ nat five_sources n' = Ok self' ->
        n' = 5%Z).
Proof.
  apply (data_source_init_accepts_one_num_classes nat five_sources 5 data_source_5).
  reflexivity.
Defined.

(** X8: a generator constructed from a dict of non-negative source codes
    with [num_classes <= 255], run on a grid of codes of that dict: every
    output value lies in 0..num_classes, valid positions keep their code, and
    a position holds [num_classes] exactly when it is masked out, so the fill
    value never collides with a source code and the mask can be read back
    from the output. *)
Theorem data_source_fill_marks_exactly_the_masked
    (Source : Type) (msa_dataset_source_to_int : list (Source * Z))
    (n : Z) (self : FeatureGenerator)
    (msa_mask : Tensor3 bool) (msa_sequence_source : Tensor3 Z) :
  MSADataSourceGenerator.__init__ Source msa_dataset_source_to_int n = Ok self ->
  (forall code, In code (map snd msa_dataset_source_to_int) -> (0 <= code)%Z) ->
  (n <= 255)%Z ->
  same_shape msa_mask msa_sequence_source = true ->
  (forall b r t, in_range3 msa_sequence_source b r t ->
     In (at3 msa_sequence_source b r t) (map snd msa_dataset_source_to_int)) ->
  exists out,
    MSADataSourceGenerator._generate self msa_mask msa_sequence_source = Ok out
    /\ forall b r t, in_range3 msa_sequence_source b r t ->
         (0 <= at4 out b r t 0 <= n)%Z
         /\ (at3 msa_mask b r t = true ->
             at4 out b r t 0 = at3 msa_sequence_source b r t)
         /\ (at4 out b r t 0 = n <-> at3 msa_mask b r t = false).
Proof.
  intros Hinit Hpos Hn Hs Hcodes.
  destruct (data_source_init_inv _ _ _ _ Hinit) as ((Hin & Hub) & ->).
  pose proof (Hpos _ Hin) as Hn0.
  destruct (data_source_generate_spec
              (mkFeatureGenerator MSA ONE_HOT true n (Some 1%Z))
              msa_mask msa_sequence_source) as (out & Ho & _ & Hat).
  { cbn [num_classes]. lia. }
  { exact Hs. }
  exists out. split; [exact Ho|]. intros b r t Hr.
  rewrite (Hat b r t Hr). cbn [num_classes].
  pose proof (Hcodes b r t Hr) as Hc.
  pose proof (Hpos _ Hc). pose proof (Hub _ Hc).
  destruct (at3 msa_mask b r t); repeat split; intros; try lia; try discriminate;
    try reflexivity.
Qed.

Lemma data_source_fill_marks_exactly_the_masked_witness :
  exists out,
    MSADataSourceGenerator._generate data_source_5 invalid_1x1x1 source_1x1x1
    = Ok out
    /\ forall b r t, in_range3 source_1x1x1 b r t ->
         (0 <= at4 out b r t 0 <= 5)%Z
         /\ (at3 invalid_1x1x1 b r t = true ->
             at4 out b r t 0 = at3 source_1x1x1 b r t)
         /\ (at4 out b r t 0 = 5%Z <-> at3 invalid_1x1x1 b r t = false).
Proof.
  apply (data_source_fill_marks_exactly_the_masked nat five_sources 5
           data_source_5 invalid_1x1x1 source_1x1x1).
  - reflexivity.
  - cbn. intros code Hc.
    repeat (destruct Hc as [<-|Hc]; [lia|]). destruct Hc.
  - lia.
  - reflexivity.
  - intros b r t (Hb & Hr & Ht). cbn in Hb, Hr, Ht.
    destruct b as [|b]; [|lia]. destruct r as [|r]; [|lia].
    destruct t as [|t]; [|lia]. cbn. tauto.
Defined.

(** ** More on MSAProfileGenerator *)

Lemma sumZ_zero_or_witness {A} (f : A -> Z) (l : list A) :
  (forall x, In x l -> (0 <= f x)%Z) ->
  sumZ (map f l) <> 0%Z -> exists x, In x l /\ f x <> 0%Z.
Proof.
  induction l as [|a l IH]; intros Hpos Hsum.
  - exfalso. apply Hsum. reflexivity.
  - cbn [map] in Hsum. change (sumZ (?h :: ?r)) with (h + sumZ r)%Z in Hsum.
    destruct (Z.eq_dec (f a) 0) as [Ha|Ha].
    + destruct IH as (x & Hx & Hfx).
      * intros y Hy. apply Hpos. right. exact Hy.
      * lia.
      * exists x. split; [right; exact Hx | exact Hfx].
    + exists a. split; [left; reflexivity | exact Ha].
Qed.

Lemma wrapped_profile_sum (n : nat) (tokens : Tensor3 Z) (mask : Tensor3 bool)
    (b t : nat) :
  sumQ (map (fun c => wrapped_profile n tokens mask b t (Z.of_nat c)) (seq 0 n))
  == inject_Z
       (sumZ (map (fun c => wrap_u8 (class_count tokens mask b t (Z.of_nat c)))
                  (seq 0 n)))
     / inject_Z
         (Z.max 1
            (sumZ (map (fun c => wrap_u8 (class_count tokens mask b t (Z.of_nat c)))
                       (seq 0 n)))).
Proof.
  unfold wrapped_profile.
  apply (sumQ_map_div
           (fun c => wrap_u8 (class_count tokens mask b t (Z.of_nat c)))).
Qed.

(** X9: whatever the depth of the alignment, wrapped or not, every entry of
    the profile lies in [0, 1] and the profile of a token sums over the
    vocabulary to 0 or to 1; it sums to 1 exactly when some class count at
    the token is not a multiple of 256.  (A profile
    without elements, for an input without tokens or an empty vocabulary,
    makes the generator raise.) *)
Theorem profile_entries_in_unit_interval
    (n : nat) (main_msa_tokens : Tensor3 Z) (main_msa_mask : Tensor3 bool) :
  same_shape main_msa_tokens main_msa_mask = true ->
  entries_in main_msa_tokens 0 (Z.of_nat n) ->
  ((dim0 main_msa_tokens * dim2 main_msa_tokens * n = 0)%nat ->
   MSAProfileGenerator._generate n main_msa_tokens main_msa_mask
   = Raise RuntimeError)
  /\ ((dim0 main_msa_tokens * dim2 main_msa_tokens * n <> 0)%nat ->
      exists out,
        MSAProfileGenerator._generate n main_msa_tokens main_msa_mask = Ok out
        /\ forall b t,
             (b < dim0 main_msa_tokens)%nat -> (t < dim2 main_msa_tokens)%nat ->
             (forall c, (c < n)%nat -> 0 <= at3 out b t c <= 1)
             /\ (sumQ (map (at3 out b t) (seq 0 n)) == 0
                 \/ sumQ (map (at3 out b t) (seq 0 n)) == 1)
             /\ (sumQ (map (at3 out b t) (seq 0 n)) == 1
                 <-> exists c, (c < n)%nat
                       /\ wrap_u8 (class_count main_msa_tokens main_msa_mask b t
                                     (Z.of_nat c)) <> 0%Z)).
Proof.
  intros Hs Hrange.
  split; [apply profile_generate_empty; assumption|]. intros Hnonempty.
  destruct (profile_generate_spec n _ _ Hs Hrange Hnonempty)
    as (out & Hout & _ & Hat).
  exists out. split; [exact Hout|]. intros b t Hb Ht.
  set (w := fun c => wrap_u8 (class_count main_msa_tokens main_msa_mask b t
                                (Z.of_nat c))).
  set (W := sumZ (map w (seq 0 n))).
  assert (Hw : forall c, (0 <= w c)%Z) by (intros c; apply wrap_u8_range).
  assert (HW : (0 <= W)%Z) by (apply sumZ_map_nonneg; intros; apply Hw).
  assert (Hsum : sumQ (map (at3 out b t) (seq 0 n))
                 == inject_Z W / inject_Z (Z.max 1 W)).
  { rewrite (sumQ_map_ext (at3 out b t)
               (fun c => wrapped_profile n main_msa_tokens main_msa_mask b t
                           (Z.of_nat c))).
    - apply wrapped_profile_sum.
    - intros c Hin. apply in_seq in Hin. apply Hat; lia. }
  assert (Hzero : W = 0%Z -> sumQ (map (at3 out b t) (seq 0 n)) == 0).
  { intros E. rewrite Hsum, E. reflexivity. }
  assert (Hone : W <> 0%Z -> sumQ (map (at3 out b t) (seq 0 n)) == 1).
  { intros E. rewrite Hsum, Z.max_r by lia.
    apply Qmult_inv_r. change 0 with (inject_Z 0).
    rewrite inject_Z_injective. exact E. }
  split; [|split].
  - intros c Hc. rewrite (Hat b t c Hb Ht Hc).
    apply wrapped_profile_unit_interval. exact Hc.
  - destruct (Z.eq_dec W 0) as [E|E]; [left; apply Hzero | right; apply Hone];
      exact E.
  - split.
    + intros H1. destruct (Z.eq_dec W 0) as [E|E].
      * rewrite (Hzero E) in H1. discriminate.
      * destruct (sumZ_zero_or_witness w (seq 0 n)) as (c & Hin & Hc).
        -- intros; apply Hw.
        -- exact E.
        -- exists c. apply in_seq in Hin. split; [lia | exact Hc].
    + intros (c & Hc & Hne). apply Hone. intros E.
      assert (Hle : (w c <= W)%Z).
      { apply (sumZ_map_le_total w); [intros; apply Hw | apply in_seq; lia]. }
      specialize (Hw c). unfold w in *. lia.
Qed.

Lemma profile_entries_in_unit_interval_witness :
  exists out,
    MSAProfileGenerator._generate 3 tokens_1x3x3 mask_1x3x3 = Ok out
    /\ forall b t,
         (b < 1)%nat -> (t < 3)%nat ->
         (forall c, (c < 3)%nat -> 0 <= at3 out b t c <= 1)
         /\ (sumQ (map (at3 out b t) (seq 0 3)) == 0
             \/ sumQ (map (at3 out b t) (seq 0 3)) == 1)
         /\ (sumQ (map (at3 out b t) (seq 0 3)) == 1
             <-> exists c, (c < 3)%nat
                   /\ wrap_u8 (class_count tokens_1x3x3 mask_1x3x3 b t
                                 (Z.of_nat c)) <> 0%Z).
Proof.
  apply (profile_entries_in_unit_interval 3 tokens_1x3x3 mask_1x3x3).
  - reflexivity.
  - exact tokens_1x3x3_in_vocabulary.
  - discriminate.
Defined.

Lemma wrapped_profile_ext (n : nat) (tokens tokens' : Tensor3 Z)
    (mask mask' : Tensor3 bool) (b t : nat) (c : Z) :
  (forall c', class_count tokens' mask' b t c' = class_count tokens mask b t c') ->
  wrapped_profile n tokens' mask' b t c = wrapped_profile n tokens mask b t c.
Proof.
  intros H. unfold wrapped_profile. rewrite H.
  rewrite (sumZ_map_ext
             (fun c' => wrap_u8 (class_count tokens' mask' b t (Z.of_nat c')))
             (fun c' => wrap_u8 (class_count tokens mask b t (Z.of_nat c'))));
    [reflexivity|].
  intros c' _. rewrite H. reflexivity.
Qed.

(** X10: the profile does not depend on the tokens of masked-out rows: two
    token grids inside the vocabulary that agree wherever the mask is true
    give the same profile. *)
Theorem profile_ignores_masked_rows
    (n : nat) (tokens tokens' : Tensor3 Z) (main_msa_mask : Tensor3 bool) :
  same_shape tokens main_msa_mask = true ->
  same_shape tokens' main_msa_mask = true ->
  entries_in tokens 0 (Z.of_nat n) ->
  entries_in tokens' 0 (Z.of_nat n) ->
  (forall b d t, in_range3 tokens b d t -> at3 main_msa_mask b d t = true ->
     at3 tokens' b d t = at3 tokens b d t) ->
  ((dim0 tokens * dim2 tokens * n = 0)%nat ->
   MSAProfileGenerator._generate n tokens main_msa_mask = Raise RuntimeError
   /\ MSAProfileGenerator._generate n tokens' main_msa_mask = Raise RuntimeError)
  /\ ((dim0 tokens * dim2 tokens * n <> 0)%nat ->
      exists out out',
        MSAProfileGenerator._generate n tokens main_msa_mask = Ok out
        /\ MSAProfileGenerator._generate n tokens' main_msa_mask = Ok out'
        /\ shape3 out' = shape3 out
        /\ forall b t c,
             (b < dim0 tokens)%nat -> (t < dim2 tokens)%nat -> (c < n)%nat ->
             at3 out' b t c = at3 out b t c).
Proof.
  intros Hs Hs' Hr Hr' Hagree.
  destruct (same_shape_dims _ _ Hs) as (H0 & H1 & H2).
  destruct (same_shape_dims _ _ Hs') as (H0' & H1' & H2').
  assert (Hdims : (dim0 tokens' * dim2 tokens' * n
                   = dim0 tokens * dim2 tokens * n)%nat) by congruence.
  split.
  { intros He. split; apply profile_generate_empty; try assumption.
    rewrite Hdims. exact He. }
  intros Hnonempty.
  destruct (profile_generate_spec n _ _ Hs Hr Hnonempty) as (out & Ho & Hsh & Hat).
  destruct (profile_generate_spec n _ _ Hs' Hr') as (out' & Ho' & Hsh' & Hat').
  { rewrite Hdims. exact Hnonempty. }
  exists out, out'. split; [exact Ho|]. split; [exact Ho'|]. split.
  - rewrite Hsh, Hsh'. congruence.
  - intros b t c Hb Ht Hc.
    rewrite (Hat b t c Hb Ht Hc), (Hat' b t c) by (assumption || congruence).
    apply wrapped_profile_ext. intros c'. unfold class_count.
    replace (dim1 tokens') with (dim1 tokens) by congruence.
    apply sumZ_map_ext. intros d Hin. apply in_seq in Hin.
    destruct (at3 main_msa_mask b d t) eqn:Hm.
    + rewrite Hagree; [reflexivity | repeat split; (assumption || lia) | exact Hm].
    + cbn [bool_to_u8].
      destruct (at3 tokens' b d t =? c')%Z, (at3 tokens b d t =? c')%Z; reflexivity.
Qed.

Lemma profile_ignores_masked_rows_witness :
  exists out out',
    MSAProfileGenerator._generate 3 tokens_1x3x3 mask_1x3x3 = Ok out
    /\ MSAProfileGenerator._generate 3 tokens_1x3x3_other mask_1x3x3 = Ok out'
    /\ shape3 out' = shape3 out
    /\ forall b t c,
         (b < 1)%nat -> (t < 3)%nat -> (c < 3)%nat ->
         at3 out' b t c = at3 out b t c.
Proof.
  apply (profile_ignores_masked_rows 3 tokens_1x3x3 tokens_1x3x3_other mask_1x3x3).
  - reflexivity.
  - reflexivity.
  - exact tokens_1x3x3_in_vocabulary.
  - intros b d t (Hb & Hd & Ht). cbn in Hb, Hd, Ht.
    destruct b as [|b]; [|lia].
    destruct d as [|[|[|d]]]; [| | |lia];
      (destruct t as [|[|[|t]]]; [| | |lia]); cbn; lia.
  - intros b d t (Hb & Hd & Ht). cbn in Hb, Hd, Ht.
    destruct b as [|b]; [|lia].
    destruct d as [|[|[|d]]]; [| | |lia];
      (destruct t as [|[|[|t]]]; [| | |lia]); cbn; intros H;
      first [reflexivity | discriminate].
  - discriminate.
Defined.

Lemma forallb_false_witness {A} (f : A -> bool) (l : list A) :
  forallb f l = false -> exists x, In x l /\ f x = false.
Proof.
  induction l as [|a l IH]; cbn [forallb]; [discriminate|].
  destruct (f a) eqn:Fa; cbn [andb].
  - intros H. destruct (IH H) as (x & Hx & Hfx).
    exists x. split; [right; exact Hx | exact Hfx].
  - intros _. exists a. split; [left; reflexivity | exact Fa].
Qed.

Lemma index_not_ok_witness (n : nat) (tokens : Tensor3 Z) :
  index_ok (zeros (dim0 tokens) (dim2 tokens) n)
           (rearrange_bdt_btd (map3 long tokens)) = false ->
  exists b d t, in_range3 tokens b d t
                /\ ~ (0 <= at3 tokens b d t < Z.of_nat n)%Z.
Proof.
  unfold index_ok. cbn [rearrange_bdt_btd map3 dim0 dim1 dim2 at3 zeros].
  unfold long. intros H.
  apply forallb_false_witness in H. destruct H as (b & Hb & H).
  apply forallb_false_witness in H. destruct H as (t & Ht & H).
  apply forallb_false_witness in H. destruct H as (d & Hd & H).
  apply in_seq in Hb, Ht, Hd. exists b, d, t. split.
  - repeat split; lia.
  - intros Hin. rewrite (proj2 (Z.leb_le _ _)), (proj2 (Z.ltb_lt _ _)) in H by lia.
    discriminate.
Qed.

(** A token outside the vocabulary makes the profile generator raise, also
    where the mask hides it. *)
Lemma profile_raises_outside_vocabulary
    (n : nat) (tokens : Tensor3 Z) (mask : Tensor3 bool) (b d t : nat) :
  same_shape tokens mask = true ->
  in_range3 tokens b d t ->
  ~ (0 <= at3 tokens b d t < Z.of_nat n)%Z ->
  MSAProfileGenerator._generate n tokens mask = Raise IndexError.
Proof.
  intros Hs Hr Hbad. unfold MSAProfileGenerator._generate, scatter_add_dim2.
  rewrite Hs, (index_not_ok_rearranged n tokens b d t Hr Hbad). reflexivity.
Qed.

(** X11: the profile generator raises in three cases only.  It raises the
    type-check error exactly when the shapes of tokens and mask differ; it
    raises the index error exactly when the shapes agree and some token,
    masked out or not, is outside the vocabulary; it raises the runtime error
    of [make_feature] exactly when the shapes agree, every token is inside
    the vocabulary and the profile has no element (no batch entry, no token
    or an empty vocabulary); otherwise it returns. *)
Theorem profile_raises_exactly
    (n : nat) (main_msa_tokens : Tensor3 Z) (main_msa_mask : Tensor3 bool) :
  (MSAProfileGenerator._generate n main_msa_tokens main_msa_mask
   = Raise TypeCheckError
   <-> same_shape main_msa_tokens main_msa_mask = false)
  /\ (MSAProfileGenerator._generate n main_msa_tokens main_msa_mask
      = Raise IndexError
      <-> same_shape main_msa_tokens main_msa_mask = true
          /\ exists b d t,
               in_range3 main_msa_tokens b d t
               /\ ~ (0 <= at3 main_msa_tokens b d t < Z.of_nat n)%Z)
  /\ (MSAProfileGenerator._generate n main_msa_tokens main_msa_mask
      = Raise RuntimeError
      <-> same_shape main_msa_tokens main_msa_mask = true
          /\ entries_in main_msa_tokens 0 (Z.of_nat n)
          /\ (dim0 main_msa_tokens * dim2 main_msa_tokens * n = 0)%nat)
  /\ ((exists out,
         MSAProfileGenerator._generate n main_msa_tokens main_msa_mask = Ok out)
      <-> same_shape main_msa_tokens main_msa_mask = true
          /\ entries_in main_msa_tokens 0 (Z.of_nat n)
          /\ (dim0 main_msa_tokens * dim2 main_msa_tokens * n <> 0)%nat)
  /\ (forall e,
        MSAProfileGenerator._generate n main_msa_tokens main_msa_mask = Raise e ->
        e = TypeCheckError \/ e = IndexError \/ e = RuntimeError).
Proof.
  destruct (same_shape main_msa_tokens main_msa_mask) eqn:Hs.
  - destruct (index_ok (zeros (dim0 main_msa_tokens) (dim2 main_msa_tokens) n)
                (rearrange_bdt_btd (map3 long main_msa_tokens))) eqn:Hix.
    + assert (Hin : entries_in main_msa_tokens 0 (Z.of_nat n)).
      { intros b d t Hr.
        destruct (Z_le_dec 0 (at3 main_msa_tokens b d t)) as [Hlo|Hlo];
          [destruct (Z_lt_dec (at3 main_msa_tokens b d t) (Z.of_nat n)) as [Hhi|Hhi]|].
        - lia.
        - rewrite (index_not_ok_rearranged n _ b d t Hr) in Hix by lia. discriminate.
        - rewrite (index_not_ok_rearranged n _ b d t Hr) in Hix by lia. discriminate. }
      assert (Hgood : ~ exists b d t,
                 in_range3 main_msa_tokens b d t
                 /\ ~ (0 <= at3 main_msa_tokens b d t < Z.of_nat n)%Z).
      { intros (b & d & t & Hr & Hbad). apply Hbad, Hin, Hr. }
      destruct (Nat.eq_dec (dim0 main_msa_tokens * dim2 main_msa_tokens * n) 0)
        as [He|Hne].
      * rewrite (profile_generate_empty n _ _ Hs Hin He).
        split; [split; discriminate|].
        split; [split; [discriminate | intros (_ & Hb); contradiction]|].
        split; [split; [intros _; split; [reflexivity | split; assumption]
                       | reflexivity]|].
        split.
        -- split; [intros (out & Ho); discriminate|].
           intros (_ & _ & Hne). contradiction.
        -- intros e He'. injection He' as <-. auto.
      * destruct (profile_generate_spec n _ _ Hs Hin Hne) as (out & Ho & _).
        rewrite Ho.
        split; [split; discriminate|].
        split; [split; [discriminate | intros (_ & Hb); contradiction]|].
        split; [split; [discriminate | intros (_ & _ & He); contradiction]|].
        split.
        -- split; [intros _; split; [reflexivity | split; assumption]|].
           intros _. exists out. reflexivity.
        -- intros e He. discriminate.
    + destruct (index_not_ok_witness n _ Hix) as (b & d & t & Hr & Hbad).
      rewrite (profile_raises_outside_vocabulary n _ _ b d t Hs Hr Hbad).
      split; [split; discriminate|].
      split.
      { split; [intros _; split; [reflexivity|]; exists b, d, t; split; assumption|].
        reflexivity. }
      split.
      { split; [discriminate|]. intros (_ & Hin & _).
        exfalso. apply Hbad, Hin, Hr. }
      split.
      { split; [intros (out & Ho); discriminate|].
        intros (_ & Hin & _). exfalso. apply Hbad, Hin, Hr. }
      intros e He. injection He as <-. auto.
  - unfold MSAProfileGenerator._generate. rewrite Hs.
    split; [split; reflexivity|].
    split; [split; [discriminate | intros (Hf & _); discriminate]|].
    split; [split; [discriminate | intros (Hf & _); discriminate]|].
    split.
    + split; [intros (out & Ho); discriminate | intros (Hf & _); discriminate].
    + intros e He. injection He as <-. auto.
Qed.

Lemma profile_raises_exactly_witness :
  MSAProfileGenerator._generate 3 no_tokens no_tokens_mask = Raise RuntimeError
  /\ (exists out,
        MSAProfileGenerator._generate 3 tokens_1x3x3 mask_1x3x3 = Ok out).
Proof.
  split.
  - apply (profile_raises_exactly 3 no_tokens no_tokens_mask).
    split; [reflexivity|]. split; [|reflexivity].
    intros b d t (_ & _ & Ht). cbn in Ht. lia.
  - apply (profile_raises_exactly 3 tokens_1x3x3 mask_1x3x3).
    split; [reflexivity|]. split; [exact tokens_1x3x3_in_vocabulary|].
    discriminate.
Defined.

Lemma sumZ_Permutation (l l' : list Z) :
  Permutation.Permutation l l' -> sumZ l = sumZ l'.
Proof.
  induction 1 as [|x l l' _ IH|x y l|l l' l'' _ IH1 _ IH2].
  - reflexivity.
  - change (x + sumZ l = x + sumZ l')%Z. rewrite IH. reflexivity.
  - change (y + (x + sumZ l) = x + (y + sumZ l))%Z. lia.
  - rewrite IH1. exact IH2.
Qed.

Lemma permutes_seq (sigma : nat -> nat) (n : nat) :
  permutes sigma n -> Permutation.Permutation (map sigma (seq 0 n)) (seq 0 n).
Proof.
  intros (Hlt & Hinj). apply Permutation.NoDup_Permutation_bis.
  - apply NoDup_map_NoDup_ForallPairs; [|apply seq_NoDup].
    intros d d' Hd Hd' E. apply in_seq in Hd, Hd'. apply Hinj; (lia || exact E).
  - rewrite length_map. apply Nat.le_refl.
  - intros x Hx. apply in_map_iff in Hx. destruct Hx as (d & <- & Hd).
    apply in_seq in Hd. apply in_seq. specialize (Hlt d). lia.
Qed.

Lemma sumZ_permuted (sigma : nat -> nat) (n : nat) (g : nat -> Z) :
  permutes sigma n ->
  sumZ (map (fun d => g (sigma d)) (seq 0 n)) = sumZ (map g (seq 0 n)).
Proof.
  intros Hp. rewrite <- (map_map sigma g).
  apply sumZ_Permutation, Permutation.Permutation_map, permutes_seq, Hp.
Qed.

(** X12: the profile does not depend on the order of the rows of the
    alignment: reordering the depth axis of tokens and mask by the same
    permutation gives the same profile. *)
Theorem profile_invariant_under_row_permutation
    (n : nat) (sigma : nat -> nat)
    (main_msa_tokens : Tensor3 Z) (main_msa_mask : Tensor3 bool) :
  permutes sigma (dim1 main_msa_tokens) ->
  same_shape main_msa_tokens main_msa_mask = true ->
  entries_in main_msa_tokens 0 (Z.of_nat n) ->
  ((dim0 main_msa_tokens * dim2 main_msa_tokens * n = 0)%nat ->
   MSAProfileGenerator._generate n main_msa_tokens main_msa_mask
   = Raise RuntimeError
   /\ MSAProfileGenerator._generate n (permute_rows sigma main_msa_tokens)
        (permute_rows sigma main_msa_mask) = Raise RuntimeError)
  /\ ((dim0 main_msa_tokens * dim2 main_msa_tokens * n <> 0)%nat ->
      exists out out',
        MSAProfileGenerator._generate n main_msa_tokens main_msa_mask = Ok out
        /\ MSAProfileGenerator._generate n (permute_rows sigma main_msa_tokens)
             (permute_rows sigma main_msa_mask) = Ok out'
        /\ shape3 out' = shape3 out
        /\ forall b t c,
             (b < dim0 main_msa_tokens)%nat -> (t < dim2 main_msa_tokens)%nat ->
             (c < n)%nat ->
             at3 out' b t c = at3 out b t c).
Proof.
  intros Hp Hs Hr.
  assert (Hr' : entries_in (permute_rows sigma main_msa_tokens) 0 (Z.of_nat n)).
  { intros b d t (Hb & Hd & Ht). cbn [permute_rows dim0 dim1 dim2 at3] in *.
    apply Hr. repeat split; try assumption. apply (proj1 Hp). exact Hd. }
  assert (Hs' : same_shape (permute_rows sigma main_msa_tokens)
                  (permute_rows sigma main_msa_mask) = true) by exact Hs.
  split.
  { intros He. split; apply profile_generate_empty; assumption. }
  intros Hnonempty.
  destruct (profile_generate_spec n _ _ Hs Hr Hnonempty) as (out & Ho & Hsh & Hat).
  destruct (profile_generate_spec n _ _ Hs' Hr' Hnonempty)
    as (out' & Ho' & Hsh' & Hat').
  exists out, out'. split; [exact Ho|]. split; [exact Ho'|]. split.
  - rewrite Hsh, Hsh'. reflexivity.
  - intros b t c Hb Ht Hc.
    rewrite (Hat b t c Hb Ht Hc), (Hat' b t c Hb Ht Hc).
    apply wrapped_profile_ext. intros c'. unfold class_count.
    cbn [permute_rows dim1 at3].
    apply (sumZ_permuted sigma (dim1 main_msa_tokens)
             (fun d => if (at3 main_msa_tokens b d t =? c')%Z
                       then bool_to_u8 (at3 main_msa_mask b d t) else 0%Z)).
    exact Hp.
Qed.

Lemma profile_invariant_under_row_permutation_witness :
  exists out out',
    MSAProfileGenerator._generate 3 tokens_1x3x3 mask_1x3x3 = Ok out
    /\ MSAProfileGenerator._generate 3 (permute_rows rotate3 tokens_1x3x3)
         (permute_rows rotate3 mask_1x3x3) = Ok out'
    /\ shape3 out' = shape3 out
    /\ forall b t c,
         (b < 1)%nat -> (t < 3)%nat -> (c < 3)%nat ->
         at3 out' b t c = at3 out b t c.
Proof.
  apply (profile_invariant_under_row_permutation 3 rotate3 tokens_1x3x3
           mask_1x3x3).
  - split.
    + intros d Hd. cbn in Hd. destruct d as [|[|[|d]]]; cbn; lia.
    + intros d d' Hd Hd' E. cbn in Hd, Hd'.
      destruct d as [|[|[|d]]]; destruct d' as [|[|[|d']]]; cbn in E; lia.
  - reflexivity.
  - exact tokens_1x3x3_in_vocabulary.
  - discriminate.
Defined.

(** ** Errors of the two-input generators *)

Lemma bounded_search (P : nat -> Prop) (n : nat) :
  (forall i, {P i} + {~ P i}) ->
  {forall i, (i < n)%nat -> P i} + {exists i, (i < n)%nat /\ ~ P i}.
Proof.
  intros Hdec. induction n as [|n IH].
  - left. intros i Hi. lia.
  - destruct IH as [Hall|Hbad].
    + destruct (Hdec n) as [Hn|Hn].
      * left. intros i Hi. destruct (Nat.eq_dec i n) as [->|]; [exact Hn|].
        apply Hall. lia.
      * right. exists n. split; [lia | exact Hn].
    + right. destruct Hbad as (i & Hi & Hbad). exists i. split; [lia | exact Hbad].
Qed.

Lemma mean_below_100_dec (mask : Tensor3 bool) (m : Tensor3 Z) (b t : nat) :
  {mean_below_100 mask m b t} + {~ mean_below_100 mask m b t}.
Proof. unfold mean_below_100. apply Z_lt_dec. Qed.

(** Either every masked mean of the grid is below 100 or some position has
    one that is not. *)
Lemma means_below_100_or_not (mask : Tensor3 bool) (m : Tensor3 Z) :
  (forall b t, (b < dim0 m)%nat -> (t < dim2 m)%nat -> mean_below_100 mask m b t)
  \/ (exists b t, (b < dim0 m)%nat /\ (t < dim2 m)%nat
                  /\ ~ mean_below_100 mask m b t).
Proof.
  destruct (bounded_search
              (fun b => forall t, (t < dim2 m)%nat -> mean_below_100 mask m b t)
              (dim0 m)) as [Hall|Hsome].
  - intros b.
    destruct (bounded_search (fun t => mean_below_100 mask m b t) (dim2 m))
      as [Hall|Hsome].
    + intros t. apply mean_below_100_dec.
    + left. exact Hall.
    + right. intros H. destruct Hsome as (t & Ht & Hbad). apply Hbad, H, Ht.
  - left. intros b t Hb Ht. apply Hall; assumption.
  - right. destruct Hsome as (b & Hb & Hbad).
    destruct (bounded_search (fun t => mean_below_100 mask m b t) (dim2 m))
      as [Hall|Hsome].
    + intros t. apply mean_below_100_dec.
    + exfalso. apply Hbad, Hall.
    + destruct Hsome as (t & Ht & Hbad'). exists b, t. repeat split; assumption.
Qed.

(** X13: the errors of the paired-MSA, deletion-mean and data-source
    generators, case by case.  Each raises the type-check error exactly when
    its two inputs differ in shape.  On inputs of one shape the paired-MSA
    generator raises the runtime error of [make_feature] exactly on a grid
    without elements and returns otherwise; the deletion-mean generator
    raises that runtime error exactly without tokens, raises the assertion
    error of [make_feature] exactly when some masked mean is 100 or more, and
    returns otherwise; the data-source generator with [num_classes] in
    0..255 returns. *)
Theorem two_input_generators_raise_exactly :
  (forall (unknown : Z) (mask : Tensor3 bool) (species : Tensor3 Z),
     (IsPairedMSAGenerator._generate unknown mask species = Raise TypeCheckError
      <-> same_shape mask species = false)
     /\ (IsPairedMSAGenerator._generate unknown mask species = Raise RuntimeError
         <-> same_shape mask species = true /\ numel3 species = 0%nat)
     /\ ((exists out, IsPairedMSAGenerator._generate unknown mask species = Ok out)
         <-> same_shape mask species = true /\ numel3 species <> 0%nat))
  /\ (forall (mask : Tensor3 bool) (m : Tensor3 Z),
        (MSADeletionMeanGenerator._generate mask m = Raise TypeCheckError
         <-> same_shape mask m = false)
        /\ (MSADeletionMeanGenerator._generate mask m = Raise RuntimeError
            <-> same_shape mask m = true /\ (dim0 m * dim2 m = 0)%nat)
        /\ (MSADeletionMeanGenerator._generate mask m = Raise AssertionError
            <-> same_shape mask m = true
                /\ exists b t, (b < dim0 m)%nat /\ (t < dim2 m)%nat
                               /\ ~ mean_below_100 mask m b t)
        /\ ((exists out, MSADeletionMeanGenerator._generate mask m = Ok out)
            <-> same_shape mask m = true
                /\ (dim0 m * dim2 m <> 0)%nat
                /\ forall b t, (b < dim0 m)%nat -> (t < dim2 m)%nat ->
                     mean_below_100 mask m b t))
  /\ (forall (self : FeatureGenerator) (mask : Tensor3 bool) (source : Tensor3 Z),
        (0 <= num_classes self <= 255)%Z ->
        (MSADataSourceGenerator._generate self mask source = Raise TypeCheckError
         <-> same_shape mask source = false)
        /\ ((exists out, MSADataSourceGenerator._generate self mask source = Ok out)
            <-> same_shape mask source = true)).
Proof.
  split; [|split].
  - intros unknown mask species. destruct (same_shape mask species) eqn:Hs.
    + destruct (is_paired_generate_spec unknown mask species Hs)
        as (Hempty & Hfull).
      destruct (Nat.eq_dec (numel3 species) 0) as [He|Hne].
      * rewrite (Hempty He).
        split; [split; discriminate|].
        split; [split; [intros _; split; [reflexivity | exact He] | reflexivity]|].
        split; [intros (out & Ho); discriminate|].
        intros (_ & Hne). contradiction.
      * destruct (Hfull Hne) as (out & Ho & _). rewrite Ho.
        split; [split; discriminate|].
        split; [split; [discriminate | intros (_ & He); contradiction]|].
        split; [intros _; split; [reflexivity | exact Hne]|].
        intros _. exists out. reflexivity.
    + unfold IsPairedMSAGenerator._generate. rewrite Hs.
      split; [split; reflexivity|].
      split; [split; [discriminate | intros (Hf & _); discriminate]|].
      split; [intros (out & Ho); discriminate | intros (Hf & _); discriminate].
  - intros mask m. destruct (same_shape mask m) eqn:Hs.
    + destruct (deletion_mean_generate_spec mask m Hs)
        as (Hempty & Hbig & Hfull).
      destruct (means_below_100_or_not mask m)
        as [Hall|(b & t & Hb & Ht & Hbad)].
      * assert (Hnobad : ~ exists b t, (b < dim0 m)%nat /\ (t < dim2 m)%nat
                                      /\ ~ mean_below_100 mask m b t).
        { intros (b & t & Hb & Ht & Hbad). apply Hbad, Hall; assumption. }
        destruct (Nat.eq_dec (dim0 m * dim2 m) 0) as [He|Hne].
        -- rewrite (Hempty He).
           split; [split; discriminate|].
           split; [split; [intros _; split; [reflexivity | exact He]
                          | reflexivity]|].
           split; [split; [discriminate | intros (_ & Hx); contradiction]|].
           split; [intros (out & Ho); discriminate|].
           intros (_ & Hne & _). contradiction.
        -- destruct (Hfull Hne Hall) as (out & Ho & _). rewrite Ho.
           split; [split; discriminate|].
           split; [split; [discriminate | intros (_ & He); contradiction]|].
           split; [split; [discriminate | intros (_ & Hx); contradiction]|].
           split; [intros _; split; [reflexivity | split; assumption]|].
           intros _. exists out. reflexivity.
      * rewrite (Hbig b t Hb Ht Hbad).
        assert (Hne : (dim0 m * dim2 m <> 0)%nat)
          by (rewrite Nat.eq_mul_0; lia).
        split; [split; discriminate|].
        split; [split; [discriminate | intros (_ & He); contradiction]|].
        split.
        { split; [|reflexivity]. intros _. split; [reflexivity|].
          exists b, t. repeat split; assumption. }
        split; [intros (out & Ho); discriminate|].
        intros (_ & _ & Hall). exfalso. apply Hbad, Hall; assumption.
    + unfold MSADeletionMeanGenerator._generate. rewrite Hs.
      split; [split; reflexivity|].
      split; [split; [discriminate | intros (Hf & _); discriminate]|].
      split; [split; [discriminate | intros (Hf & _); discriminate]|].
      split; [intros (out & Ho); discriminate | intros (Hf & _); discriminate].
  - intros self mask source Hn. destruct (same_shape mask source) eqn:Hs.
    + destruct (data_source_generate_spec self mask source Hn Hs) as (out & Ho & _).
      rewrite Ho. split; [split; discriminate|].
      split; [reflexivity|]. intros _. exists out. reflexivity.
    + unfold MSADataSourceGenerator._generate. rewrite Hs.
      split; [split; reflexivity|].
      split; [intros (out & Ho); discriminate | discriminate].
Qed.

Lemma two_input_generators_raise_exactly_witness :
  MSADeletionMeanGenerator._generate valid_1x1x1 deletions_255
  = Raise AssertionError
  /\ IsPairedMSAGenerator._generate 0%Z no_tokens_mask no_tokens
     = Raise RuntimeError
  /\ (exists out,
        MSADataSourceGenerator._generate data_source_5 invalid_1x1x1 source_1x1x1
        = Ok out).
Proof.
  destruct two_input_generators_raise_exactly as (Hpaired & Hmean & Hsource).
  split; [|split].
  - apply (Hmean valid_1x1x1 deletions_255). split; [reflexivity|].
    exists 0%nat, 0%nat. split; [cbn; lia|]. split; [cbn; lia|].
    vm_compute. discriminate.
  - apply (Hpaired 0%Z no_tokens_mask no_tokens). split; reflexivity.
  - apply (Hsource data_source_5 invalid_1x1x1 source_1x1x1); [cbn; lia|].
    reflexivity.
Defined.

(** ** The two deletion features together *)

Lemma scale_lt_iff (x y : R) :
  (MSADeletionValueGenerator.scale x < MSADeletionValueGenerator.scale y)%R
  <-> (x < y)%R.
Proof.
  split; [|apply scale_increasing].
  intros H. destruct (Rlt_le_dec x y) as [Hlt|Hge]; [exact Hlt|].
  exfalso. destruct Hge as [Hgt|Heq].
  - pose proof (scale_increasing y x Hgt). lra.
  - subst. lra.
Qed.

(** X14: the two deletion features of one deletion matrix agree: the scaled
    value orders the positions as the deletion counts do (so equal values
    mean equal counts), and the has-deletion feature is true exactly where
    the scaled value is positive.  (On a matrix without elements both
    generators raise.) *)
Theorem has_deletion_agrees_with_scaled_value (msa_deletion_matrix : Tensor3 Z) :
  (numel3 msa_deletion_matrix = 0%nat ->
   MSAHasDeletionGenerator._generate msa_deletion_matrix = Raise RuntimeError
   /\ MSADeletionValueGenerator._generate msa_deletion_matrix
      = Raise RuntimeError)
  /\ (numel3 msa_deletion_matrix <> 0%nat ->
      exists has_deletion scaled,
        MSAHasDeletionGenerator._generate msa_deletion_matrix = Ok has_deletion
        /\ MSADeletionValueGenerator._generate msa_deletion_matrix = Ok scaled
        /\ (forall b r t b' r' t',
              (at4 scaled b r t 0 < at4 scaled b' r' t' 0)%R
              <-> (at3 msa_deletion_matrix b r t
                   < at3 msa_deletion_matrix b' r' t')%Z)
        /\ (forall b r t b' r' t',
              at4 scaled b r t 0 = at4 scaled b' r' t' 0
              <-> at3 msa_deletion_matrix b r t
                  = at3 msa_deletion_matrix b' r' t')
        /\ (forall b r t,
              at4 has_deletion b r t 0 = true
              <-> (0 < at4 scaled b r t 0)%R)).
Proof.
  destruct (has_deletion_generate_spec msa_deletion_matrix) as (Hhe & Hhf).
  destruct (deletion_value_generate_spec msa_deletion_matrix) as (Hve & Hvf).
  split; [intros He; split; [apply Hhe | apply Hve]; exact He|].
  intros Hnonempty.
  destruct (Hhf Hnonempty) as (has_deletion & Hho & _ & Hhat).
  destruct (Hvf Hnonempty) as (scaled & Hvo & _ & Hat).
  exists has_deletion, scaled. split; [exact Hho|]. split; [exact Hvo|].
  split; [|split].
  - intros b r t b' r' t'. rewrite !Hat, scale_lt_iff. split.
    + apply lt_IZR.
    + apply IZR_lt.
  - intros b r t b' r' t'. rewrite !Hat. split.
    + intros E.
      destruct (Z.lt_total (at3 msa_deletion_matrix b r t)
                  (at3 msa_deletion_matrix b' r' t')) as [Hlt|[Heq|Hgt]].
      * apply IZR_lt, scale_increasing in Hlt. lra.
      * exact Heq.
      * apply IZR_lt, scale_increasing in Hgt. lra.
    + intros ->. reflexivity.
  - intros b r t. rewrite Hat, Hhat, <- scale_0, scale_lt_iff.
    rewrite Z.gtb_ltb, Z.ltb_lt. split.
    + apply (IZR_lt 0).
    + apply (lt_IZR 0).
Qed.

Lemma has_deletion_agrees_with_scaled_value_witness :
  exists has_deletion scaled,
    MSAHasDeletionGenerator._generate deletions_1x2x3 = Ok has_deletion
    /\ MSADeletionValueGenerator._generate deletions_1x2x3 = Ok scaled
    /\ (forall b r t b' r' t',
          (at4 scaled b r t 0 < at4 scaled b' r' t' 0)%R
          <-> (at3 deletions_1x2x3 b r t < at3 deletions_1x2x3 b' r' t')%Z)
    /\ (forall b r t b' r' t',
          at4 scaled b r t 0 = at4 scaled b' r' t' 0
          <-> at3 deletions_1x2x3 b r t = at3 deletions_1x2x3 b' r' t')
    /\ (forall b r t,
          at4 has_deletion b r t 0 = true <-> (0 < at4 scaled b r t 0)%R).
Proof.
  apply (has_deletion_agrees_with_scaled_value deletions_1x2x3).
  discriminate.
Defined.

(** ** Declared class counts and channel widths *)

(** X15: the metadata of a generator matches its output.  The size of the
    last axis of the output of every IDENTITY-encoded generator equals the
    [num_classes] it declares (the vocabulary size for the profile, 1 for the
    others), and the two ONE_HOT-encoded generators return a single channel
    of class indices. *)
Theorem channel_width_matches_declared_classes :
  (forall (m : Tensor3 Z) (out : Tensor4 bool),
     MSAHasDeletionGenerator._generate m = Ok out ->
     encoding_ty MSAHasDeletionGenerator.__init__ = IDENTITY
     /\ Z.of_nat (size3 out) = num_classes MSAHasDeletionGenerator.__init__)
  /\ (forall (m : Tensor3 Z) (out : Tensor4 R),
        MSADeletionValueGenerator._generate m = Ok out ->
        encoding_ty MSADeletionValueGenerator.__init__ = IDENTITY
        /\ Z.of_nat (size3 out) = num_classes MSADeletionValueGenerator.__init__)
  /\ (forall (n : nat) (tokens : Tensor3 Z) (mask : Tensor3 bool) (out : Tensor3 Q),
        MSAProfileGenerator._generate n tokens mask = Ok out ->
        encoding_ty (MSAProfileGenerator.__init__ n) = IDENTITY
        /\ Z.of_nat (dim2 out) = num_classes (MSAProfileGenerator.__init__ n))
  /\ (forall (mask : Tensor3 bool) (m : Tensor3 Z) (out : Tensor3 float),
        MSADeletionMeanGenerator._generate mask m = Ok out ->
        encoding_ty MSADeletionMeanGenerator.__init__ = IDENTITY
        /\ Z.of_nat (dim2 out) = num_classes MSADeletionMeanGenerator.__init__)
  /\ (forall (unknown : Z) (mask : Tensor3 bool) (species : Tensor3 Z)
             (out : Tensor4 Z),
        IsPairedMSAGenerator._generate unknown mask species = Ok out ->
        encoding_ty IsPairedMSAGenerator.__init__ = IDENTITY
        /\ Z.of_nat (size3 out) = num_classes IsPairedMSAGenerator.__init__)
  /\ (forall (n : nat) (m : Tensor3 Z) (out : Tensor4 Z),
        MSAFeatureGenerator._generate m = Ok out ->
        encoding_ty (MSAFeatureGenerator.__init__ n) = ONE_HOT
        /\ size3 out = 1%nat)
  /\ (forall (Source : Type) (d : list (Source * Z)) (n : Z)
             (self : FeatureGenerator) (mask : Tensor3 bool) (source : Tensor3 Z)
             (out : Tensor4 Z),
        MSADataSourceGenerator.__init__ Source d n = Ok self ->
        MSADataSourceGenerator._generate self mask source = Ok out ->
        encoding_ty self = ONE_HOT /\ size3 out = 1%nat).
Proof.
  split.
  { intros m out Ho. split; [reflexivity|].
    unfold MSAHasDeletionGenerator._generate in Ho.
    apply make_feature_returns_data in Ho. subst out. reflexivity. }
  split.
  { intros m out Ho. split; [reflexivity|].
    unfold MSADeletionValueGenerator._generate in Ho.
    apply make_feature_returns_data in Ho. subst out. reflexivity. }
  split.
  { intros n tokens mask out Ho. split; [reflexivity|].
    unfold MSAProfileGenerator._generate, scatter_add_dim2 in Ho.
    destruct (same_shape tokens mask); [|discriminate].
    destruct (index_ok _ _); cbn [bind] in Ho; [|discriminate].
    apply make_feature_returns_data in Ho. subst out.
    unfold true_divide, zip3, clamp_min, sum_last_keepdim, map3,
      zeros; cbn [dim2 MSAProfileGenerator.__init__ num_classes].
    unfold broadcast_dim.
    destruct (Nat.eqb_spec n 1) as [->|]; reflexivity. }
  split.
  { intros mask m out Ho. split; [reflexivity|].
    unfold MSADeletionMeanGenerator._generate in Ho.
    destruct (same_shape mask m); [|discriminate].
    apply make_feature_returns_data in Ho. subst out. reflexivity. }
  split.
  { intros unknown mask species out Ho. split; [reflexivity|].
    unfold IsPairedMSAGenerator._generate in Ho.
    destruct (same_shape mask species); [|discriminate].
    destruct (masked_fill_u8 _ _ _); cbn [bind] in Ho; [|discriminate].
    apply make_feature_returns_data in Ho. subst out. reflexivity. }
  split.
  { intros n m out Ho. split; [reflexivity|].
    unfold MSAFeatureGenerator._generate in Ho.
    apply make_feature_returns_data in Ho. subst out. reflexivity. }
  intros Source d n self mask source out Hinit Ho.
  destruct (data_source_init_inv _ _ _ _ Hinit) as (_ & ->).
  split; [reflexivity|].
  unfold MSADataSourceGenerator._generate in Ho.
  destruct (same_shape mask source); [|discriminate].
  destruct (masked_fill_u8 _ _ _); cbn [bind] in Ho; [|discriminate].
  apply make_feature_returns_data in Ho. subst out. reflexivity.
Qed.

Lemma channel_width_matches_declared_classes_witness :
  (forall out,
     MSAProfileGenerator._generate 3 tokens_1x3x3 mask_1x3x3 = Ok out ->
     encoding_ty (MSAProfileGenerator.__init__ 3) = IDENTITY
     /\ Z.of_nat (dim2 out) = num_classes (MSAProfileGenerator.__init__ 3))
  /\ (forall out,
        MSADataSourceGenerator._generate data_source_5 invalid_1x1x1 source_1x1x1
        = Ok out ->
        encoding_ty data_source_5 = ONE_HOT /\ size3 out = 1%nat).
Proof.
  destruct channel_width_matches_declared_classes
    as (_ & _ & Hprofile & _ & _ & _ & Hsource).
  split.
  - intros out. apply (Hprofile 3%nat tokens_1x3x3 mask_1x3x3 out).
  - intros out.
    apply (Hsource nat five_sources 5%Z data_source_5 invalid_1x1x1 source_1x1x1
             out).
    reflexivity.
Defined.
